(** * kol-sentiment-mcp: a shallow embedding of the search client, the NLP
      service and the KOL action handlers, with the properties of the
      specification stated and proved over it.

    Layout (the Python modules, then the statements about them):
    - [Py]            the Python values, exceptions and builtins the code uses;
    - [Runtime]       the effect monad: the provider's replies, the trace of
                      requests and sleeps, raise and try/except;
    - [Http]          the calls of [requests] and [time];
    - [masa_client]   app/services/masa_client.py;
    - [nlp_service]   app/services/nlp_service.py;
    - [kol_actions]   app/handlers/kol_actions.py (search, sentiment, topics
                      and trends handlers);
    - [Spec], [Demo]  the vocabulary of the statements and a concrete setting;
    - [masa_client_facts], [nlp_service_facts], [ranking_facts],
      [posting_facts], [kol_actions_facts], [Examples]: the proofs.

    Conventions.  Python floats are modelled by exact rationals ([Q]).
    Logging calls are left out.  The [re] module, TextBlob, [repr] and the
    string parsers of [int()] and [float()] are taken as parameters
    ([Host]).  Texts of CPython's and requests' own error messages follow
    CPython 3.11 and requests 2.x. *)

From Stdlib Require Import ZArith QArith List String Ascii Bool Lia Lqa DecimalString.
From Stdlib Require Import Sorting.Sorted Sorting.Permutation.
Import ListNotations.
Open Scope string_scope.
Open Scope Z_scope.

(* ================================================================== *)
(** ** Python values and builtins *)
(* ================================================================== *)

#[local] Set Warnings "-register-all".

(** A decoded JSON document, as [request.get_json()] and [response.json()]
    produce it: dictionaries keep their insertion order. *)
Inductive pyval : Type :=
| PNone
| PBool (b : bool)
| PInt (n : Z)
| PFloat (x : Q)
| PStr (s : string)
| PList (items : list pyval)
| PDict (entries : list (string * pyval)).

Inductive exc_class : Type :=
| RequestException | ValueError | RuntimeError
| TypeError | AttributeError | KeyError.

(** An exception object: its class and [str(e)]. *)
Record exc : Type := mk_exc { exc_kind : exc_class; exc_str : string }.

Inductive result (A : Type) : Type :=
| Ok (a : A)
| Raise (e : exc).
Arguments Ok {A} a.
Arguments Raise {A} e.

(** What the embedding takes from outside the repository: CPython's [repr],
    the string parsers behind [int()] and [float()], the [re] module and
    TextBlob. *)
Class Host : Type := {
  py_repr : pyval -> string;
  int_of_str : string -> option Z;
  float_of_str : string -> option Q;
  re_sub : string -> string -> string -> string;
  re_findall : string -> string -> list string;
  textblob_sentiment : string -> result (Q * Q);
  textblob_noun_phrases : string -> result (list string)
}.

Module Py.

Definition str_of_Z (n : Z) : string := NilZero.string_of_int (Z.to_int n).

Definition type_name (v : pyval) : string :=
  match v with
  | PNone => "NoneType" | PBool _ => "bool" | PInt _ => "int"
  | PFloat _ => "float" | PStr _ => "str" | PList _ => "list"
  | PDict _ => "dict"
  end.

(** [bool(v)] *)
Definition truthy (v : pyval) : bool :=
  match v with
  | PNone => false
  | PBool b => b
  | PInt n => negb (n =? 0)
  | PFloat x => negb (Qeq_bool x 0)
  | PStr s => negb (s =? "")%string
  | PList l => match l with [] => false | _ => true end
  | PDict d => match d with [] => false | _ => true end
  end.

(** [v == "s"] for a string literal [s]. *)
Definition is_str (v : pyval) (s : string) : bool :=
  match v with PStr t => (t =? s)%string | _ => false end.

Fixpoint lookup {V : Type} (d : list (string * V)) (k : string) : option V :=
  match d with
  | [] => None
  | (k', v) :: d' => if (k' =? k)%string then Some v else lookup d' k
  end.

(** [d.get(k, default)] on a dictionary. *)
Definition dict_get (d : list (string * pyval)) (k : string) (default : pyval)
  : pyval :=
  match lookup d k with Some v => v | None => default end.

(** [k in d] on a dictionary. *)
Definition dict_has (d : list (string * pyval)) (k : string) : bool :=
  match lookup d k with Some _ => true | None => false end.

Fixpoint is_substring (needle hay : string) : bool :=
  prefix needle hay
  || match hay with
     | EmptyString => false
     | String _ hay' => is_substring needle hay'
     end.

Definition no_attribute (v : pyval) (attr : string) : exc :=
  mk_exc AttributeError
    ("'" ++ type_name v ++ "' object has no attribute '" ++ attr ++ "'").

(** [v.get(k, default)] on any value. *)
Definition get (v : pyval) (k : string) (default : pyval) : result pyval :=
  match v with
  | PDict d => Ok (dict_get d k default)
  | _ => Raise (no_attribute v "get")
  end.

(** ["k" in v] on any value. *)
Definition contains (v : pyval) (k : string) : result bool :=
  match v with
  | PDict d => Ok (dict_has d k)
  | PStr s => Ok (is_substring k s)
  | PList l => Ok (existsb (fun x => is_str x k) l)
  | _ => Raise (mk_exc TypeError
                  ("argument of type '" ++ type_name v ++ "' is not iterable"))
  end.

(** [l[:n]] *)
Definition slice_to {A : Type} (l : list A) (n : Z) : list A :=
  if 0 <=? n then firstn (Z.to_nat n) l
  else firstn (Z.to_nat (Z.of_nat (List.length l) + n)) l.

Section WithHost.
Context `{Host}.

(** [str(v)], as an f-string renders [{v}]. *)
Definition str (v : pyval) : string :=
  match v with
  | PStr s => s
  | PNone => "None"
  | PBool true => "True"
  | PBool false => "False"
  | PInt n => str_of_Z n
  | _ => py_repr v
  end.

(** [int(v)] *)
Definition int (v : pyval) : result Z :=
  match v with
  | PInt n => Ok n
  | PBool b => Ok (if b then 1 else 0)
  | PFloat x => Ok (Z.quot (Qnum x) (Zpos (Qden x)))
  | PStr s =>
      match int_of_str s with
      | Some n => Ok n
      | None => Raise (mk_exc ValueError
                  ("invalid literal for int() with base 10: " ++ py_repr v))
      end
  | _ => Raise (mk_exc TypeError
           ("int() argument must be a string, a bytes-like object or a real number, not '"
            ++ type_name v ++ "'"))
  end.

(** [float(v)] *)
Definition float (v : pyval) : result Q :=
  match v with
  | PFloat x => Ok x
  | PInt n => Ok (inject_Z n)
  | PBool b => Ok (if b then 1%Q else 0%Q)
  | PStr s =>
      match float_of_str s with
      | Some x => Ok x
      | None => Raise (mk_exc ValueError
                  ("could not convert string to float: " ++ py_repr v))
      end
  | _ => Raise (mk_exc TypeError
           ("float() argument must be a string or a real number, not '"
            ++ type_name v ++ "'"))
  end.

End WithHost.
End Py.

(* ================================================================== *)
(** ** Effects: the provider's replies, the request trace, exceptions *)
(* ================================================================== *)

Module Runtime.

(** What one HTTP request comes back with: the [requests] call itself fails
    (connection refused, timeout, ...), or a response with a status line and a
    JSON body arrives. *)
Inductive http_reply : Type :=
| NetworkError (msg : string)
| Reply (status_code : Z) (reason : string) (body : pyval).

Definition headers : Type := list (string * string).

(** The observable actions of the client, in the order they happen. *)
Inductive event : Type :=
| EvPost (url : string) (hdrs : headers) (payload : pyval)
| EvGet (url : string) (hdrs : headers)
| EvSleep (seconds : Z).

(** The world one request is served in.  A run is sequential, so the provider's
    behaviour along it is the list of replies it gives, in order; a provider
    that has stopped answering is a connection error. *)
Record world : Type := mk_world {
  replies : list http_reply;
  trace : list event
}.

Definition M (A : Type) : Type := world -> result A * world.

Definition ret {A} (a : A) : M A := fun w => (Ok a, w).

Definition raise {A} (e : exc) : M A := fun w => (Raise e, w).

Definition bind {A B} (m : M A) (k : A -> M B) : M B :=
  fun w =>
    match m w with
    | (Ok a, w') => k a w'
    | (Raise e, w') => (Raise e, w')
    end.

(** [try: body  except Exception as e: handler(e)] *)
Definition try_except {A} (body : M A) (handler : exc -> M A) : M A :=
  fun w =>
    match body w with
    | (Ok a, w') => (Ok a, w')
    | (Raise e, w') => handler e w'
    end.

Definition lift {A} (r : result A) : M A := fun w => (r, w).

Definition emit (e : event) : M unit :=
  fun w => (Ok tt, mk_world (replies w) (trace w ++ [e])%list).

Definition next_reply : M http_reply :=
  fun w =>
    match replies w with
    | [] => (Ok (NetworkError "connection lost"), w)
    | r :: rs => (Ok r, mk_world rs (trace w))
    end.

End Runtime.

Declare Scope py_scope.
Delimit Scope py_scope with py.
Notation "x <- c ;; k" := (Runtime.bind c (fun x => k))
  (at level 61, c at next level, right associativity) : py_scope.
Notation "c ;;; k" := (Runtime.bind c (fun _ => k))
  (at level 61, right associativity) : py_scope.

(** The [requests] and [time] calls the client makes. *)
Module Http.
Import Runtime.
Local Open Scope py_scope.

Record response : Type := mk_response {
  status_code : Z;
  reason : string;
  body : pyval;
  url : string
}.

Definition await_reply (u : string) : M response :=
  r <- next_reply ;;
  match r with
  | NetworkError msg => raise (mk_exc RequestException msg)
  | Reply c rsn b => ret (mk_response c rsn b u)
  end.

(** [requests.post(url, headers=..., json=...)] *)
Definition post (u : string) (hdrs : headers) (payload : pyval) : M response :=
  emit (EvPost u hdrs payload) ;;; await_reply u.

(** [requests.get(url, headers=...)] *)
Definition get (u : string) (hdrs : headers) : M response :=
  emit (EvGet u hdrs) ;;; await_reply u.

Definition http_error (kind : string) (r : response) : exc :=
  mk_exc RequestException
    (Py.str_of_Z (status_code r) ++ " " ++ kind ++ ": " ++ reason r
     ++ " for url: " ++ url r).

(** [response.raise_for_status()] *)
Definition raise_for_status (r : response) : M unit :=
  if (400 <=? status_code r) && (status_code r <? 500)
  then raise (http_error "Client Error" r)
  else if (500 <=? status_code r) && (status_code r <? 600)
  then raise (http_error "Server Error" r)
  else ret tt.

(** [response.json()]: replies carry JSON bodies. *)
Definition json (r : response) : pyval := body r.

(** [time.sleep(seconds)] *)
Definition sleep (seconds : Z) : M unit := emit (EvSleep seconds).

End Http.

(* ================================================================== *)
(** ** app/services/masa_client.py *)
(* ================================================================== *)

Module masa_client.
Import Runtime.
Local Open Scope py_scope.

(** The module's global variables. *)
Record globals : Type := mk_globals {
  _api_key : option string;
  _api_url : option string;
  _initialized : bool
}.

Definition fmt (o : option string) : string :=
  match o with Some s => s | None => "None" end.

Fixpoint rstrip_slash (s : string) : string :=
  match s with
  | EmptyString => EmptyString
  | String c s' =>
      match rstrip_slash s' with
      | EmptyString => if Ascii.eqb c "/" then EmptyString
                       else String c EmptyString
      | r => String c r
      end
  end.

Definition initialize_masa_client (api_key api_url : string) : globals :=
  mk_globals (Some api_key) (Some (rstrip_slash api_url)) true.

Definition max_retries : Z := 30.

Section Client.
Context `{Host}.
Variable g : globals.

Definition is_initialized : bool := _initialized g.

Definition _check_initialization : M unit :=
  if _initialized g then ret tt
  else raise (mk_exc RuntimeError
         "Masa API client not initialized. Call initialize_masa_client() first.").

Definition auth_headers : headers :=
  [("Authorization", "Bearer " ++ fmt (_api_key g));
   ("Content-Type", "application/json")].

Definition _build_headers : M headers :=
  _check_initialization ;;; ret auth_headers.

Definition communication_error (e : exc) : exc :=
  mk_exc RuntimeError ("Error communicating with Masa API: " ++ exc_str e).

(** The two [except] clauses every search function ends with. *)
Definition on_error {A} (e : exc) : M A :=
  match exc_kind e with
  | RequestException => raise (communication_error e)
  | _ => raise e
  end.

Definition live_payload (query search_type max_results data_source_type : pyval)
  : pyval :=
  PDict [("type", data_source_type);
         ("arguments", PDict [("type", search_type);
                              ("query", query);
                              ("max_results", max_results)])].

Definition live_url : string := fmt (_api_url g) ++ "/v1/search/live/twitter".

Definition status_url (search_uuid : pyval) : string :=
  fmt (_api_url g) ++ "/v1/search/live/twitter/status/" ++ Py.str search_uuid.

Definition results_url (search_uuid : pyval) : string :=
  fmt (_api_url g) ++ "/v1/search/live/twitter/result/" ++ Py.str search_uuid.

(** The [while retry_count < max_retries] loop.  It returns the value of
    [retry_count] on leaving the loop, by [break] or by the loop test.  [fuel]
    bounds the iterations; the caller passes [max_retries - retry_count],
    which the loop test never lets it exceed (lemma [poll_fuel_irrelevant]). *)
Fixpoint poll (fuel : nat) (search_uuid : pyval) (retry_count : Z) : M Z :=
  match fuel with
  | O => ret retry_count
  | S fuel' =>
      if retry_count <? max_retries then
        hdrs <- _build_headers ;;
        status_response <- Http.get (status_url search_uuid) hdrs ;;
        Http.raise_for_status status_response ;;;
        let status_data := Http.json status_response in
        status <- lift (Py.get status_data "status" PNone) ;;
        if Py.is_str status "done" then ret retry_count
        else if Py.is_str status "error" || Py.is_str status "failed" then
          error_msg <- lift (Py.get status_data "error" (PStr "Unknown error")) ;;
          raise (mk_exc RuntimeError ("Search job failed: " ++ Py.str error_msg))
        else
          Http.sleep 2 ;;;
          poll fuel' search_uuid (retry_count + 1)
      else ret retry_count
  end.

Definition perform_twitter_live_search
    (query search_type max_results data_source_type : pyval) : M pyval :=
  _check_initialization ;;;
  let payload := live_payload query search_type max_results data_source_type in
  try_except
    (hdrs <- _build_headers ;;
     response <- Http.post live_url hdrs payload ;;
     Http.raise_for_status response ;;;
     let result := Http.json response in
     search_uuid <- lift (Py.get result "uuid" PNone) ;;
     if negb (Py.truthy search_uuid) then
       raise (mk_exc ValueError "Invalid response from Masa API: No UUID returned")
     else
       retry_count <- poll (Z.to_nat max_retries) search_uuid 0 ;;
       if retry_count >=? max_retries then
         raise (mk_exc RuntimeError "Search job timed out after maximum retries")
       else
         hdrs' <- _build_headers ;;
         results_response <- Http.get (results_url search_uuid) hdrs' ;;
         Http.raise_for_status results_response ;;;
         ret (Http.json results_response))
    on_error.

(** [if keywords: payload["keywords"] = ...; payload["keyword_operator"] = ...] *)
Definition with_keywords (payload : list (string * pyval))
    (keywords keyword_operator : pyval) : list (string * pyval) :=
  if Py.truthy keywords
  then (payload ++ [("keywords", keywords);
                    ("keyword_operator", keyword_operator)])%list
  else payload.

Definition indexed_payload (query keywords keyword_operator max_results : pyval)
  : pyval :=
  PDict (with_keywords [("query", query); ("max_results", max_results)]
           keywords keyword_operator).

Definition perform_twitter_indexed_search
    (query search_type keywords keyword_operator max_results : pyval) : M pyval :=
  _check_initialization ;;;
  let payload := indexed_payload query keywords keyword_operator max_results in
  try_except
    (let search_url :=
       fmt (_api_url g) ++ "/v1/search/" ++ Py.str search_type ++ "/twitter" in
     hdrs <- _build_headers ;;
     response <- Http.post search_url hdrs payload ;;
     Http.raise_for_status response ;;;
     ret (Http.json response))
    on_error.

Definition hybrid_payload (similarity_query text_query : pyval)
    (similarity_weight text_weight : Q)
    (keywords keyword_operator max_results : pyval) : pyval :=
  PDict (with_keywords
           [("similarity_query", PDict [("query", similarity_query);
                                        ("weight", PFloat similarity_weight)]);
            ("text_query", PDict [("query", text_query);
                                  ("weight", PFloat text_weight)]);
            ("max_results", max_results)]
           keywords keyword_operator).

Definition hybrid_url : string := fmt (_api_url g) ++ "/v1/search/hybrid/twitter".

Definition perform_twitter_hybrid_search
    (similarity_query text_query : pyval) (similarity_weight text_weight : Q)
    (keywords keyword_operator max_results : pyval) : M pyval :=
  _check_initialization ;;;
  let payload := hybrid_payload similarity_query text_query similarity_weight
                   text_weight keywords keyword_operator max_results in
  try_except
    (hdrs <- _build_headers ;;
     response <- Http.post hybrid_url hdrs payload ;;
     Http.raise_for_status response ;;;
     ret (Http.json response))
    on_error.

End Client.
End masa_client.

(* ================================================================== *)
(** ** app/services/nlp_service.py *)
(* ================================================================== *)

(** Exceptions without effects: [raise] and [try]/[except] on [result]. *)
Module Exn.

Definition bind {A B} (r : result A) (k : A -> result B) : result B :=
  match r with Ok a => k a | Raise e => Raise e end.

Definition try_except {A} (body : result A) (handler : exc -> result A)
  : result A :=
  match body with Ok a => Ok a | Raise e => handler e end.

(** [[f(x) for x in l]] *)
Fixpoint map {A B} (f : A -> result B) (l : list A) : result (list B) :=
  match l with
  | [] => Ok []
  | x :: l' => bind (f x) (fun y => bind (map f l') (fun ys => Ok (y :: ys)))
  end.

End Exn.

Declare Scope exn_scope.
Delimit Scope exn_scope with exn.
Notation "x <- c ;; k" := (Exn.bind c (fun x => k))
  (at level 61, c at next level, right associativity) : exn_scope.
Notation "c ;;; k" := (Exn.bind c (fun _ => k))
  (at level 61, right associativity) : exn_scope.

Module nlp_service.
Local Open Scope exn_scope.

(** The dictionary [analyze_sentiment] returns; ["error"] is present on the
    failure path only. *)
Record SentimentResult : Type := mk_sentiment {
  sentiment : string;
  polarity : Q;
  subjectivity : Q;
  text : pyval;
  error : option string
}.

(** The dictionary [classify_sentiment_distribution] returns. *)
Record SentimentDistribution : Type := mk_distribution {
  positive : Z;
  neutral : Z;
  negative : Z;
  positive_percentage : Q;
  neutral_percentage : Q;
  negative_percentage : Q;
  average_polarity : Q;
  average_subjectivity : Q
}.

(** [sum(...)] over integers and over floats. *)
Definition sum_Z (l : list Z) : Z := fold_left Z.add l 0.
Definition sum_Q (l : list Q) : Q := fold_left Qplus l 0%Q.

Definition gt (x y : Q) : bool := negb (Qle_bool x y).
Definition lt (x y : Q) : bool := negb (Qle_bool y x).

Section Service.
Context `{Host}.
Variable _initialized : bool.

Definition _check_initialization : result unit :=
  if _initialized then Ok tt
  else Raise (mk_exc RuntimeError
         "NLP service not initialized. Call initialize_nlp() first.").

(** [re.sub(pattern, repl, s)] where [s] may be any value. *)
Definition sub (pattern repl : string) (s : pyval) : result string :=
  match s with
  | PStr t => Ok (re_sub pattern repl t)
  | _ => Raise (mk_exc TypeError
           ("expected string or bytes-like object, got '"
            ++ Py.type_name s ++ "'"))
  end.

(** [re.findall(pattern, s)] where [s] may be any value. *)
Definition findall (pattern : string) (s : pyval) : result (list string) :=
  match s with
  | PStr t => Ok (re_findall pattern t)
  | _ => Raise (mk_exc TypeError
           ("expected string or bytes-like object, got '"
            ++ Py.type_name s ++ "'"))
  end.

Definition label (polarity : Q) : string :=
  if gt polarity (1 # 10) then "positive"
  else if lt polarity (- (1 # 10)) then "negative"
  else "neutral".

Definition analyze_sentiment (text : pyval) : result SentimentResult :=
  _check_initialization ;;;
  Exn.try_except
    (clean_text <- sub "http\S+" "" text ;;
     let clean_text := re_sub "@\w+" "" clean_text in
     let clean_text := re_sub "#\w+" "" clean_text in
     blob_sentiment <- textblob_sentiment clean_text ;;
     let polarity := fst blob_sentiment in
     let subjectivity := snd blob_sentiment in
     Ok (mk_sentiment (label polarity) polarity subjectivity text None))
    (fun e => Ok (mk_sentiment "unknown" 0 0 text (Some (exc_str e)))).

Definition not_in (l : list string) (s : string) : bool :=
  negb (existsb (String.eqb s) l).

Definition extract_topics (text : pyval) (max_topics : Z)
  : result (list string) :=
  _check_initialization ;;;
  Exn.try_except
    (clean_text <- sub "http\S+" "" text ;;
     let clean_text := re_sub "@\w+" "" clean_text in
     hashtags <- findall "#(\w+)" text ;;
     noun_phrases <- textblob_noun_phrases clean_text ;;
     let topics := (hashtags ++ filter (not_in hashtags) noun_phrases)%list in
     Ok (Py.slice_to topics max_topics))
    (fun _ => Ok []).

Definition batch_analyze_sentiment (texts : list pyval)
  : result (list SentimentResult) :=
  Exn.map analyze_sentiment texts.

End Service.

Definition count_label (sentiments : list SentimentResult) (l : string) : Z :=
  sum_Z (map (fun _ => 1)
           (filter (fun s => (sentiment s =? l)%string) sentiments)).

Definition percentage (count total : Z) : Q :=
  if 0 <? total then (inject_Z count / inject_Z total * 100)%Q else 0%Q.

Definition classify_sentiment_distribution (sentiments : list SentimentResult)
  : SentimentDistribution :=
  match sentiments with
  | [] => mk_distribution 0 0 0 0 0 0 0 0
  | _ =>
      let positive_count := count_label sentiments "positive" in
      let neutral_count := count_label sentiments "neutral" in
      let negative_count := count_label sentiments "negative" in
      let total := Z.of_nat (List.length sentiments) in
      let avg_polarity :=
        (sum_Q (map polarity sentiments) / inject_Z total)%Q in
      let avg_subjectivity :=
        (sum_Q (map subjectivity sentiments) / inject_Z total)%Q in
      mk_distribution positive_count neutral_count negative_count
        (percentage positive_count total)
        (percentage neutral_count total)
        (percentage negative_count total)
        avg_polarity avg_subjectivity
  end.

End nlp_service.

(* ================================================================== *)
(** ** Dictionaries that remember insertion order *)
(* ================================================================== *)

(** A Python [dict] as the list of its items in insertion order.  Assigning to a
    key that is present replaces the value in place; a new key goes last. *)
Module Dict.
Section WithKey.
Context {K V : Type}.
Variable eqb : K -> K -> bool.

Fixpoint get (d : list (K * V)) (k : K) (default : V) : V :=
  match d with
  | [] => default
  | (k', v) :: d' => if eqb k' k then v else get d' k default
  end.

Fixpoint set (d : list (K * V)) (k : K) (v : V) : list (K * V) :=
  match d with
  | [] => [(k, v)]
  | (k', v') :: d' => if eqb k' k then (k', v) :: d' else (k', v') :: set d' k v
  end.

End WithKey.
End Dict.

(* ================================================================== *)
(** ** app/handlers/kol_actions.py *)
(* ================================================================== *)

Module kol_actions.
Import Runtime.

(** The dictionary [search_kol_content] returns. *)
Record SearchResults : Type := mk_search_results {
  sr_query : pyval;
  sr_search_type : pyval;
  sr_max_results : Z;
  sr_kol_username : pyval;
  sr_results : pyval;
  sr_result_count : pyval
}.

(** The dictionaries [analyze_kol_sentiment] returns. *)
Inductive SentimentReport : Type :=
| SingleSentiment (text : pyval) (sentiment : nlp_service.SentimentResult)
| BatchSentiment (query kol_username : pyval)
    (sentiment_results : list nlp_service.SentimentResult)
    (sentiment_distribution : nlp_service.SentimentDistribution)
    (result_count : Z).

(** The dictionaries [extract_kol_topics] returns. *)
Inductive TopicReport : Type :=
| SingleTopics (text : pyval) (topics : list string) (topic_count : Z)
| BatchTopics (query kol_username : pyval) (top_topics : list (string * Z))
    (all_topics : list (string * Z)) (result_count : Z).

(** One value of [kol_results]: [{"content_count": 0, "error": "No content
    found"}], the full analysis, or [{"error": str(e)}]. *)
Inductive KolEntry : Type :=
| NoContent
| Analysis (content_count : Z) (topics : list string)
    (sentiment_distribution : nlp_service.SentimentDistribution)
| Failed (error : string).

(** ["error" not in v] *)
Definition no_error (v : KolEntry) : bool :=
  match v with Analysis _ _ _ => true | _ => false end.

(** The dictionary [get_kol_trends] returns. *)
Record Trends : Type := mk_trends {
  tr_usernames : list pyval;
  tr_query : pyval;
  top_trends : list (string * Z);
  kol_count : Z;
  analyzed_count : Z;
  overall_sentiment : nlp_service.SentimentDistribution;
  kol_results : list (pyval * KolEntry);
  tr_success : bool
}.

(** [min(max(1, max_results), 100)] *)
Definition clamp (max_results : Z) : Z := Z.min (Z.max 1 max_results) 100.

(** [[result.get('Content', '') for result in results if 'Content' in result]] *)
Fixpoint content_texts (results : list pyval) : result (list pyval) :=
  match results with
  | [] => Ok []
  | r :: rest =>
      (present <- Py.contains r "Content" ;;
       if (present : bool) then
         c <- Py.get r "Content" (PStr "") ;;
         cs <- content_texts rest ;;
         Ok (c :: cs)
       else content_texts rest)%exn
  end.

(** [topic_counts = {}; for topic in all_topics:
      topic_counts[topic] = topic_counts.get(topic, 0) + 1] *)
Definition count_topics (all_topics : list string) : list (string * Z) :=
  fold_left
    (fun topic_counts topic =>
       Dict.set String.eqb topic_counts topic
         (Dict.get String.eqb topic_counts topic 0 + 1))
    all_topics [].

(** [sorted(items, key=lambda x: x[1], reverse=True)].  Python's sort is stable,
    also under [reverse=True]; the result of a stable sort does not depend on
    the algorithm, here insertion from the right. *)
Fixpoint insert_by_count (x : string * Z) (l : list (string * Z))
  : list (string * Z) :=
  match l with
  | [] => [x]
  | y :: l' => if snd x <? snd y then y :: insert_by_count x l' else x :: l
  end.

Definition sorted_by_count (items : list (string * Z)) : list (string * Z) :=
  fold_right insert_by_count [] items.

(** The ranking shared by the topic and trend handlers:
    [sorted(topic_counts.items(), ...)[:n]]. *)
Definition rank_topics (all_topics : list string) (n : Z) : list (string * Z) :=
  Py.slice_to (sorted_by_count (count_topics all_topics)) n.

Definition hashable (v : pyval) : bool :=
  match v with PList _ | PDict _ => false | _ => true end.

Definition number (v : pyval) : option Q :=
  match v with
  | PBool b => Some (if b then 1%Q else 0%Q)
  | PInt n => Some (inject_Z n)
  | PFloat x => Some x
  | _ => None
  end.

(** Equality of dictionary keys: [1 == 1.0 == True]. *)
Definition key_eqb (a b : pyval) : bool :=
  match a, b with
  | PNone, PNone => true
  | PStr s, PStr t => (s =? t)%string
  | _, _ =>
      match number a, number b with
      | Some x, Some y => Qeq_bool x y
      | _, _ => false
      end
  end.

(** [kol_results[username] = entry] *)
Definition setitem (d : list (pyval * KolEntry)) (k : pyval) (v : KolEntry)
  : result (list (pyval * KolEntry)) :=
  if hashable k then Ok (Dict.set key_eqb d k v)
  else Raise (mk_exc TypeError ("unhashable type: '" ++ Py.type_name k ++ "'")).

Definition class_repr (v : pyval) : string :=
  "<class '" ++ Py.type_name v ++ "'>".

(** One item of ["recent_content"]. *)
Record RecentContent : Type := mk_recent {
  rc_text : pyval;
  rc_sentiment : nlp_service.SentimentResult;
  rc_topics : list string
}.

(** The dictionaries [analyze_kol_insights] returns: the one with
    ["error": "No content found for this KOL"] and ["success": False], and
    the full one with ["success": True]. *)
Inductive Insights : Type :=
| NoInsights (username query : pyval)
| KolInsights (username query : pyval) (content_count : Z)
    (sentiment_distribution : nlp_service.SentimentDistribution)
    (top_topics : list (string * Z)) (recent_content : list RecentContent).



Section Handlers.
Context `{Host}.
Variable g : masa_client.globals.
Variable nlp_initialized : bool.
Variable config : list (string * pyval).

Local Open Scope py_scope.

Definition default_max_results : pyval :=
  Py.dict_get config "DEFAULT_MAX_RESULTS" (PInt 10).

(** [keywords if keywords else None] *)
Definition or_none (keywords : pyval) : pyval :=
  if Py.truthy keywords then keywords else PNone.

Definition search_kol_content (params : list (string * pyval))
  : M SearchResults :=
  if negb (Py.dict_has params "query") then
    raise (mk_exc ValueError "Missing required parameter: query")
  else
    let query := Py.dict_get params "query" PNone in
    let search_type := Py.dict_get params "search_type" (PStr "indexed") in
    max_results <- lift (Py.int (Py.dict_get params "max_results"
                                   default_max_results)) ;;
    let max_results := clamp max_results in
    let keywords := Py.dict_get params "keywords" (PList []) in
    let kol_username := Py.dict_get params "kol_username" PNone in
    let query :=
      if Py.truthy kol_username && Py.is_str search_type "live"
      then PStr ("from:" ++ Py.str kol_username ++ " " ++ Py.str query)
      else query in
    let keywords :=
      if Py.truthy kol_username && negb (Py.is_str search_type "live") then
        match keywords with
        | PList l => PList (l ++ [PStr ("@" ++ Py.str kol_username)])
        | _ => PList [keywords; PStr ("@" ++ Py.str kol_username)]
        end
      else keywords in
    results <-
      (if Py.is_str search_type "live" then
         masa_client.perform_twitter_live_search g query (PStr "searchbyquery")
           (PInt max_results) (PStr "twitter-scraper")
       else if Py.is_str search_type "indexed" then
         masa_client.perform_twitter_indexed_search g query (PStr "similarity")
           (or_none keywords) (Py.dict_get params "keyword_operator" (PStr "and"))
           (PInt max_results)
       else if Py.is_str search_type "hybrid" then
         let text_query := Py.dict_get params "text_query" query in
         similarity_weight <-
           lift (Py.float (Py.dict_get params "similarity_weight"
                             (PFloat (7 # 10)))) ;;
         text_weight <-
           lift (Py.float (Py.dict_get params "text_weight" (PFloat (3 # 10)))) ;;
         masa_client.perform_twitter_hybrid_search g query text_query
           similarity_weight text_weight (or_none keywords)
           (Py.dict_get params "keyword_operator" (PStr "and"))
           (PInt max_results)
       else
         raise (mk_exc ValueError ("Invalid search_type: " ++ Py.str search_type))) ;;
    ret (mk_search_results query search_type max_results kol_username results
           (match results with
            | PList l => PInt (Z.of_nat (List.length l))
            | _ => PStr "unknown"
            end)).

(** The [search_params] dictionary of the sentiment and topic handlers. *)
Definition query_search_params (params : list (string * pyval))
  : list (string * pyval) :=
  [("query", Py.dict_get params "query" PNone);
   ("search_type", Py.dict_get params "search_type" (PStr "indexed"));
   ("max_results", Py.dict_get params "max_results" default_max_results);
   ("keywords", Py.dict_get params "keywords" (PList []));
   ("kol_username", Py.dict_get params "kol_username" PNone)].

Definition unexpected_format (results : pyval) : exc :=
  mk_exc ValueError ("Unexpected search results format: " ++ class_repr results).

Definition analyze_kol_sentiment (params : list (string * pyval))
  : M SentimentReport :=
  if Py.dict_has params "text" then
    let text := Py.dict_get params "text" PNone in
    sentiment_result <- lift (nlp_service.analyze_sentiment nlp_initialized text) ;;
    ret (SingleSentiment text sentiment_result)
  else if Py.dict_has params "query" then
    search_results <- search_kol_content (query_search_params params) ;;
    let results := sr_results search_results in
    match results with
    | PList items =>
        texts <- lift (content_texts items) ;;
        sentiment_results <-
          lift (nlp_service.batch_analyze_sentiment nlp_initialized texts) ;;
        let sentiment_distribution :=
          nlp_service.classify_sentiment_distribution sentiment_results in
        ret (BatchSentiment (Py.dict_get params "query" PNone)
               (Py.dict_get params "kol_username" PNone)
               sentiment_results sentiment_distribution
               (Z.of_nat (List.length texts)))
    | _ => raise (unexpected_format results)
    end
  else
    raise (mk_exc ValueError
             "Missing required parameter: either 'text' or 'query' must be provided").

(** [for text in texts: all_topics.extend(extract_topics(text, max_topics=n))] *)
Fixpoint extend_topics (all_topics : list string) (texts : list pyval) (n : Z)
  : result (list string) :=
  match texts with
  | [] => Ok all_topics
  | text :: rest =>
      (topics <- nlp_service.extract_topics nlp_initialized text n ;;
       extend_topics (all_topics ++ topics)%list rest n)%exn
  end.

Definition extract_kol_topics (params : list (string * pyval)) : M TopicReport :=
  max_topics <- lift (Py.int (Py.dict_get params "max_topics" (PInt 5))) ;;
  if Py.dict_has params "text" then
    let text := Py.dict_get params "text" PNone in
    topics <- lift (nlp_service.extract_topics nlp_initialized text max_topics) ;;
    ret (SingleTopics text topics (Z.of_nat (List.length topics)))
  else if Py.dict_has params "query" then
    search_results <- search_kol_content (query_search_params params) ;;
    let results := sr_results search_results in
    match results with
    | PList items =>
        texts <- lift (content_texts items) ;;
        all_topics <- lift (extend_topics [] texts max_topics) ;;
        let topic_counts := count_topics all_topics in
        ret (BatchTopics (Py.dict_get params "query" PNone)
               (Py.dict_get params "kol_username" PNone)
               (rank_topics all_topics max_topics)
               topic_counts
               (Z.of_nat (List.length texts)))
    | _ => raise (unexpected_format results)
    end
  else
    raise (mk_exc ValueError
             "Missing required parameter: either 'text' or 'query' must be provided").

(** The three accumulators of [get_kol_trends]. *)
Record Accum : Type := mk_accum {
  acc_topics : list string;
  acc_sentiments : list nlp_service.SentimentResult;
  acc_results : list (pyval * KolEntry)
}.

Definition kol_search_params (query search_type : pyval)
    (max_results_per_kol : Z) (username : pyval) : list (string * pyval) :=
  [("query", query); ("search_type", search_type);
   ("max_results", PInt max_results_per_kol); ("kol_username", username)].

(** The body of [for username in usernames], with its [try]/[except]. *)
Definition analyze_kol (query search_type : pyval) (max_results_per_kol : Z)
    (a : Accum) (username : pyval) : M Accum :=
  try_except
    (search_results <-
       search_kol_content
         (kol_search_params query search_type max_results_per_kol username) ;;
     let results := sr_results search_results in
     match results with
     | PList items =>
         texts <- lift (content_texts items) ;;
         match texts with
         | [] =>
             kr <- lift (setitem (acc_results a) username NoContent) ;;
             ret (mk_accum (acc_topics a) (acc_sentiments a) kr)
         | _ =>
             sentiment_results <-
               lift (nlp_service.batch_analyze_sentiment nlp_initialized texts) ;;
             let sentiment_distribution :=
               nlp_service.classify_sentiment_distribution sentiment_results in
             kol_topics <- lift (extend_topics [] texts 5) ;;
             kr <- lift (setitem (acc_results a) username
                           (Analysis (Z.of_nat (List.length texts)) kol_topics
                              sentiment_distribution)) ;;
             ret (mk_accum (acc_topics a ++ kol_topics)
                    (acc_sentiments a ++ sentiment_results) kr)
         end
     | _ => ret a
     end)
    (fun e =>
       kr <- lift (setitem (acc_results a) username (Failed (exc_str e))) ;;
       ret (mk_accum (acc_topics a) (acc_sentiments a) kr)).

Fixpoint for_usernames (query search_type : pyval) (max_results_per_kol : Z)
    (a : Accum) (usernames : list pyval) : M Accum :=
  match usernames with
  | [] => ret a
  | username :: rest =>
      a' <- analyze_kol query search_type max_results_per_kol a username ;;
      for_usernames query search_type max_results_per_kol a' rest
  end.

Definition get_kol_trends (params : list (string * pyval)) : M Trends :=
  if negb (Py.dict_has params "usernames") then
    raise (mk_exc ValueError "Missing required parameter: usernames")
  else
    let usernames :=
      match Py.dict_get params "usernames" PNone with
      | PList l => l
      | u => [u]
      end in
    match usernames with
    | [] => raise (mk_exc ValueError "Empty usernames list")
    | _ =>
        let query := Py.dict_get params "query" (PStr "") in
        let search_type := Py.dict_get params "search_type" (PStr "indexed") in
        max_results_per_kol <-
          lift (Py.int (Py.dict_get params "max_results_per_kol" (PInt 10))) ;;
        max_trends <- lift (Py.int (Py.dict_get params "max_trends" (PInt 10))) ;;
        a <- for_usernames query search_type max_results_per_kol
               (mk_accum [] [] []) usernames ;;
        ret (mk_trends usernames query
               (rank_topics (acc_topics a) max_trends)
               (Z.of_nat (List.length usernames))
               (nlp_service.sum_Z
                  (map (fun _ => 1)
                     (filter (fun kv => no_error (snd kv)) (acc_results a))))
               (nlp_service.classify_sentiment_distribution (acc_sentiments a))
               (acc_results a)
               true)
    end.

(** The ["recent_content"] comprehension over [results[:5]]. *)
Fixpoint recent_content_of (results : list pyval) : result (list RecentContent) :=
  match results with
  | [] => Ok []
  | r :: rest =>
      (text <- Py.get r "Content" (PStr "") ;;
       analyzed <- Py.get r "Content" (PStr "") ;;
       sentiment <- nlp_service.analyze_sentiment nlp_initialized analyzed ;;
       extracted <- Py.get r "Content" (PStr "") ;;
       topics <- nlp_service.extract_topics nlp_initialized extracted 3 ;;
       entries <- recent_content_of rest ;;
       Ok (mk_recent text sentiment topics :: entries))%exn
  end.

Definition default_insight_results : pyval :=
  Py.dict_get config "DEFAULT_MAX_RESULTS" (PInt 20).

Definition analyze_kol_insights (params : list (string * pyval)) : M Insights :=
  if negb (Py.dict_has params "username") then
    raise (mk_exc ValueError "Missing required parameter: username")
  else
    let username := Py.dict_get params "username" PNone in
    let query := Py.dict_get params "query" (PStr "") in
    let search_type := Py.dict_get params "search_type" (PStr "indexed") in
    max_results <- lift (Py.int (Py.dict_get params "max_results"
                                   default_insight_results)) ;;
    search_results <-
      search_kol_content (kol_search_params query search_type max_results
                            username) ;;
    let results := sr_results search_results in
    match results with
    | PList items =>
        texts <- lift (content_texts items) ;;
        match texts with
        | [] => ret (NoInsights username query)
        | _ =>
            sentiment_results <-
              lift (nlp_service.batch_analyze_sentiment nlp_initialized texts) ;;
            let sentiment_distribution :=
              nlp_service.classify_sentiment_distribution sentiment_results in
            all_topics <- lift (extend_topics [] texts 10) ;;
            let top_topics := rank_topics all_topics 10 in
            recent_content <- lift (recent_content_of (Py.slice_to items 5)) ;;
            ret (KolInsights username query (Z.of_nat (List.length texts))
                   sentiment_distribution top_topics recent_content)
        end
    | _ => raise (unexpected_format results)
    end.


End Handlers.
End kol_actions.

(* ================================================================== *)
(** ** Vocabulary of the statements *)
(* ================================================================== *)

Module Spec.
Import Runtime.

(** A successful reply with the given JSON body. *)
Definition ok_reply (body : pyval) : http_reply := Reply 200 "OK" body.

(** The reply to the job submission: the provider issues [uuid]. *)
Definition submitted (uuid : pyval) : http_reply :=
  ok_reply (PDict [("uuid", uuid)]).

(** A status reply that only says [status]. *)
Definition status_is (status : string) : http_reply :=
  ok_reply (PDict [("status", PStr status)]).

Definition error_code (c : Z) : bool :=
  (400 <=? c) && (c <? 600).

(** A status reply that keeps the client polling: delivered, not an HTTP
    error, a dictionary whose status is none of done, error, failed. *)
Definition keeps_polling (r : http_reply) : bool :=
  match r with
  | Reply c _ (PDict d) =>
      let status := Py.dict_get d "status" PNone in
      negb (error_code c)
      && negb (Py.is_str status "done")
      && negb (Py.is_str status "error" || Py.is_str status "failed")
  | _ => false
  end.

(** The events of [n] turns of the polling loop that end in a sleep. *)
Definition poll_cycles `{Host} (g : masa_client.globals) (uuid : pyval) (n : nat)
  : list event :=
  List.concat (repeat [EvGet (masa_client.status_url g uuid)
                    (masa_client.auth_headers g);
                  EvSleep 2] n).

(** Some event of [evs] fetches the results of job [uuid]. *)
Definition fetches_results `{Host} (g : masa_client.globals) (uuid : pyval)
    (evs : list event) : Prop :=
  exists hdrs, In (EvGet (masa_client.results_url g uuid) hdrs) evs.

(** [max_results] as a search payload carries it: under ["arguments"] for a
    live search, at top level for the indexed and hybrid ones. *)
Definition payload_max_results (payload : pyval) : option pyval :=
  match payload with
  | PDict d =>
      match Py.lookup d "arguments" with
      | Some (PDict a) => Py.lookup a "max_results"
      | _ => Py.lookup d "max_results"
      end
  | _ => None
  end.

Definition is_post (e : event) : bool :=
  match e with EvPost _ _ _ => true | _ => false end.

(** Every POST among [evs] carries a payload satisfying [P]. *)
Definition posts_satisfy (P : pyval -> Prop) (evs : list event) : Prop :=
  Forall (fun e => match e with EvPost _ _ p => P p | _ => True end) evs.

(** [m] only ever adds events to the trace, and the payloads it posts
    satisfy [P]. *)
Definition posting {A} (P : pyval -> Prop) (m : M A) : Prop :=
  forall w, exists evs,
    trace (snd (m w)) = (trace w ++ evs)%list /\ posts_satisfy P evs.

(** [Optional[List[str]]] as a Python value. *)
Definition optional_list (keywords : option (list pyval)) : pyval :=
  match keywords with Some l => PList l | None => PNone end.

(** Position of the first occurrence of [t] in [l] ([length l] if absent). *)
Fixpoint first_seen (t : string) (l : list string) : nat :=
  match l with
  | [] => O
  | x :: l' => if (x =? t)%string then O else S (first_seen t l')
  end.

(** [a] was first seen before [b] while the topics [all_topics] were
    accumulated. *)
Definition seen_before (all_topics : list string) (a b : string) : Prop :=
  (first_seen a all_topics < first_seen b all_topics)%nat.

(** The order of a ranking: more occurrences first, and among topics with
    equally many, the one first seen earlier. *)
Definition ranks_before (all_topics : list string) (a b : string * Z) : Prop :=
  snd b < snd a
  \/ (snd a = snd b /\ seen_before all_topics (fst a) (fst b)).

(** [keys] are the distinct topics of [seen], in the order first seen. *)
Definition tallied (seen : list string) (keys : list string) : Prop :=
  StronglySorted (seen_before seen) keys /\ (forall t, In t keys <-> In t seen).

Definition occurrences (t : string) (l : list string) : Z :=
  Z.of_nat (count_occ string_dec l t).

(** The texts of the items that have a ["Content"] field. *)
Definition kept_texts (items : list (list (string * pyval))) : list pyval :=
  map (fun d => Py.dict_get d "Content" (PStr ""))
    (filter (fun d => Py.dict_has d "Content") items).

(** The text TextBlob is given: URLs, mentions and hashtags removed. *)
Definition cleaned `{Host} (s : string) : string :=
  re_sub "#\w+" "" (re_sub "@\w+" "" (re_sub "http\S+" "" s)).

Definition labelled (s : nlp_service.SentimentResult) : bool :=
  ((nlp_service.sentiment s =? "positive") || (nlp_service.sentiment s =? "neutral")
   || (nlp_service.sentiment s =? "negative"))%string.

Definition percentages_total (d : nlp_service.SentimentDistribution) : Q :=
  (nlp_service.positive_percentage d + nlp_service.neutral_percentage d
   + nlp_service.negative_percentage d)%Q.

(** [content_count] of a [kol_results] value, where the key is present. *)
Definition content_count_of (v : kol_actions.KolEntry) : option Z :=
  match v with
  | kol_actions.NoContent => Some 0
  | kol_actions.Analysis n _ _ => Some n
  | kol_actions.Failed _ => None
  end.

(** The seconds [evs] spend sleeping, and the requests among [evs]. *)
Definition seconds_slept (evs : list event) : Z :=
  fold_right (fun e total => match e with EvSleep n => n + total | _ => total end)
    0 evs.

Definition is_get (e : event) : bool :=
  match e with EvGet _ _ => true | _ => false end.

Definition count_events (f : event -> bool) (evs : list event) : Z :=
  Z.of_nat (List.length (filter f evs)).

Definition sleeps_2 (e : event) : Prop :=
  match e with EvSleep n => n = 2 | _ => True end.

(** [m] only adds events to the trace: sleeps of 2 seconds that add up to
    at most [s] seconds, at most [gets] GETs and at most [posts] POSTs. *)
Definition within_budget {A} (s gets posts : Z) (m : M A) : Prop :=
  forall w, exists evs,
    trace (snd (m w)) = (trace w ++ evs)%list
    /\ seconds_slept evs <= s
    /\ count_events is_get evs <= gets
    /\ count_events is_post evs <= posts
    /\ Forall sleeps_2 evs.

(** The exception [requests] raises for reply [r] to a request of [u], if
    any: the call itself fails, or [raise_for_status] rejects the status. *)
Definition transport_failure (u : string) (r : http_reply) : option exc :=
  match r with
  | NetworkError msg => Some (mk_exc RequestException msg)
  | Reply c rsn b =>
      if (400 <=? c) && (c <? 500)
      then Some (Http.http_error "Client Error" (Http.mk_response c rsn b u))
      else if (500 <=? c) && (c <? 600)
      then Some (Http.http_error "Server Error" (Http.mk_response c rsn b u))
      else None
  end.

(** The text whose noun phrases are taken: URLs and mentions removed. *)
Definition topic_text `{Host} (s : string) : string :=
  re_sub "@\w+" "" (re_sub "http\S+" "" s).

(** The hashtags of a text. *)
Definition hashtags `{Host} (s : string) : list string :=
  re_findall "#(\w+)" s.

(** The results of [l] that carry none of the three counted labels. *)
Definition unlabelled (l : list nlp_service.SentimentResult) : Z :=
  Z.of_nat (List.length (filter (fun s => negb (labelled s)) l)).

(** Every text of the batch is a string that TextBlob analyses. *)
Definition all_analysed `{Host} (texts : list pyval) : Prop :=
  Forall (fun t => exists s p, t = PStr s
                               /\ textblob_sentiment (cleaned s) = Ok p) texts.

(** The keywords a search is given, as the list the KOL filter is appended
    to: a list as it is, any other value as the list holding it. *)
Definition given_keywords (params : list (string * pyval)) : list pyval :=
  match Py.dict_get params "keywords" (PList []) with
  | PList l => l
  | v => [v]
  end.

(** The sum of the counts of a tally. *)
Definition total_count (tally : list (string * Z)) : Z :=
  fold_right (fun item total => snd item + total) 0 tally.



(** [n] slashes. *)
Fixpoint slashes (n : nat) : string :=
  match n with O => EmptyString | S n' => String "/" (slashes n') end.

End Spec.

(* ================================================================== *)
(** ** A concrete setting for the closed examples *)
(* ================================================================== *)

Module Demo.
Import Runtime Spec.

(** A stand-in for TextBlob that knows two words.  Unlike TextBlob, which
    gives the empty text polarity 0, it rejects the empty text, so that the
    examples can run the branch of the service that handles a failing
    analysis. *)
Definition sentiment_of (s : string) : result (Q * Q) :=
  if Py.is_substring "great" s then Ok (8 # 10, 3 # 4)%Q
  else if Py.is_substring "awful" s then Ok (- (9 # 10), 1)%Q
  else if (s =? "")%string then Raise (mk_exc ValueError "empty text")
  else Ok (0, 0)%Q.

Definition noun_phrases_of (s : string) : result (list string) :=
  Ok ((if Py.is_substring "bitcoin" s then ["bitcoin"] else [])
      ++ (if Py.is_substring "rally" s then ["rally"] else []))%list.

(** The character classes [\w] and [\S], on ASCII. *)
Definition word_char (c : ascii) : bool :=
  let n := nat_of_ascii c in
  ((48 <=? n) && (n <=? 57) || (65 <=? n) && (n <=? 90)
   || (97 <=? n) && (n <=? 122) || (n =? 95))%nat.

Definition non_space (c : ascii) : bool :=
  let n := nat_of_ascii c in
  negb ((n =? 32) || (9 <=? n) && (n <=? 13))%nat.

(** [s] starts with [lit] followed by a character of the class. *)
Fixpoint starts_match (lit : string) (cls : ascii -> bool) (s : string) : bool :=
  match lit, s with
  | EmptyString, String c _ => cls c
  | String a lit', String c s' => Ascii.eqb a c && starts_match lit' cls s'
  | _, EmptyString => false
  end.

(** [re.sub] with the empty replacement for a pattern that is a literal
    followed by one or more characters of a class: [drop] counts the
    characters of the literal still to remove, [run] says that the
    characters of the class that follow belong to the match. *)
Fixpoint remove_matches (lit : string) (cls : ascii -> bool) (drop : nat)
    (run : bool) (s : string) : string :=
  match s with
  | EmptyString => EmptyString
  | String c s' =>
      match drop with
      | S d => remove_matches lit cls d true s'
      | O =>
          if run && cls c then remove_matches lit cls 0 true s'
          else if starts_match lit cls s
          then remove_matches lit cls (String.length lit - 1) true s'
          else String c (remove_matches lit cls 0 false s')
      end
  end.

(** [re.findall] for a hash sign followed by a group of word characters:
    [open] is the group being read. *)
Fixpoint hashtags_of (open : option string) (s : string) : list string :=
  match s with
  | EmptyString => match open with Some tag => [tag] | None => [] end
  | String c s' =>
      match open with
      | Some tag =>
          if word_char c
          then hashtags_of (Some (tag ++ String c EmptyString)) s'
          else tag :: hashtags_of
                        (if starts_match "#" word_char s then Some EmptyString
                         else None) s'
      | None =>
          hashtags_of
            (if starts_match "#" word_char s then Some EmptyString else None) s'
      end
  end.

(** A small host: [repr] prints the type name, the number parsers read
    nothing, and [re] knows the four patterns of the service. *)
Definition host : Host := {|
  py_repr := fun v => "<" ++ Py.type_name v ++ ">";
  int_of_str := fun _ => None;
  float_of_str := fun _ => None;
  re_sub := fun pattern _ s =>
    if (pattern =? "http\S+")%string then remove_matches "http" non_space 0 false s
    else if (pattern =? "@\w+")%string then remove_matches "@" word_char 0 false s
    else if (pattern =? "#\w+")%string then remove_matches "#" word_char 0 false s
    else s;
  re_findall := fun pattern s =>
    if (pattern =? "#(\w+)")%string then hashtags_of None s else [];
  textblob_sentiment := sentiment_of;
  textblob_noun_phrases := noun_phrases_of
|}.

Definition g : masa_client.globals :=
  masa_client.initialize_masa_client "secret" "https://masa.example/api/".

Definition uuid : pyval := PStr "job-42".

Definition praise : pyval := PStr "bitcoin rally is great #btc https://t.co/1".
Definition complaint : pyval := PStr "awful bitcoin day @whale".

Definition tweet_items : list (list (string * pyval)) :=
  [[("Content", praise)]; [("Author", PStr "nobody")]; [("Content", complaint)]].

Definition tweets : pyval := PList (map PDict tweet_items).

Definition trend_params : list (string * pyval) :=
  [("usernames", PList [PStr "a"; PStr "b"]); ("query", PStr "bitcoin")].

(** The provider answers the first search and drops the second. *)
Definition first_answers : world :=
  mk_world [ok_reply tweets; NetworkError "connection reset"] [].

Definition sentiment_params : list (string * pyval) :=
  [("query", PStr "bitcoin")].

Definition search_params : list (string * pyval) :=
  [("query", PStr "bitcoin"); ("search_type", PStr "live");
   ("max_results", PInt 500)].

Definition similarity_url : string :=
  "https://masa.example/api/v1/search/similarity/twitter".

Definition indexed_post (username : string) : event :=
  EvPost similarity_url (masa_client.auth_headers g)
    (PDict [("query", PStr "bitcoin"); ("max_results", PInt 10);
            ("keywords", PList [PStr ("@" ++ username)]);
            ("keyword_operator", PStr "and")]).

(** The world after the search for a, and after the search for b. *)
Definition then_drops : world :=
  mk_world [NetworkError "connection reset"] [indexed_post "a"].

Definition finally : world :=
  mk_world [] [indexed_post "a"; indexed_post "b"].

Definition found_for_a : kol_actions.SearchResults :=
  kol_actions.mk_search_results (PStr "bitcoin") (PStr "indexed") 10 (PStr "a")
    tweets (PInt 3).

Definition dropped : exc :=
  mk_exc RuntimeError "Error communicating with Masa API: connection reset".

Definition nlp_not_initialized : exc :=
  mk_exc RuntimeError
    "NLP service not initialized. Call initialize_nlp() first.".

(** The provider drops the first search and answers the second. *)
Definition drops_first : world :=
  mk_world [NetworkError "connection reset"; ok_reply tweets] [].

Definition then_answers : world :=
  mk_world [ok_reply tweets] [indexed_post "a"].

Definition found_for_b : kol_actions.SearchResults :=
  kol_actions.mk_search_results (PStr "bitcoin") (PStr "indexed") 10 (PStr "b")
    tweets (PInt 3).

Definition batch : list nlp_service.SentimentResult :=
  [nlp_service.mk_sentiment "positive" (8 # 10) (3 # 4) (PStr "up") None;
   nlp_service.mk_sentiment "neutral" 0 0 (PStr "flat") None;
   nlp_service.mk_sentiment "negative" (- (1 # 2)) 1 (PStr "down") None].

Definition bad_gateway : http_reply := Reply 502 "Bad Gateway" PNone.

Definition gateway_error (u : string) : exc :=
  Http.http_error "Server Error" (Http.mk_response 502 "Bad Gateway" PNone u).

Definition insight_params : list (string * pyval) := [("username", PStr "a")].

Definition insight_search : kol_actions.SearchResults :=
  kol_actions.mk_search_results (PStr "") (PStr "indexed") 20 (PStr "a")
    tweets (PInt 3).

Definition after_insight_search : world :=
  mk_world []
    [EvPost similarity_url (masa_client.auth_headers g)
       (PDict [("query", PStr ""); ("max_results", PInt 20);
               ("keywords", PList [PStr "@a"]);
               ("keyword_operator", PStr "and")])].

Definition distribution : nlp_service.SentimentDistribution :=
  nlp_service.mk_distribution 1 0 1 (100 # 2) (0 # 2) (100 # 2)
    (- (10) # 200) (7 # 8).

(** The trends report for a and b when the provider drops b's search. *)
Definition report : kol_actions.Trends :=
  kol_actions.mk_trends [PStr "a"; PStr "b"] (PStr "bitcoin")
    [("bitcoin", 2); ("btc", 1); ("rally", 1)] 2 1 distribution
    [(PStr "a",
      kol_actions.Analysis 2 ["btc"; "bitcoin"; "rally"; "bitcoin"]
        distribution);
     (PStr "b", kol_actions.Failed (exc_str dropped))]
    true.

Definition offline : masa_client.globals :=
  masa_client.mk_globals None None false.

(** A live search for bitcoin and the requests it can make. *)
Definition live (w : world) : result pyval * world :=
  masa_client.perform_twitter_live_search (H := host) g (PStr "bitcoin")
    (PStr "searchbyquery") (PInt 10) (PStr "twitter-scraper") w.

Definition submit : event :=
  EvPost (masa_client.live_url g) (masa_client.auth_headers g)
    (masa_client.live_payload (PStr "bitcoin") (PStr "searchbyquery")
       (PInt 10) (PStr "twitter-scraper")).

Definition status : event :=
  EvGet (masa_client.status_url (H := host) g uuid)
    (masa_client.auth_headers g).

Definition fetch : event :=
  EvGet (masa_client.results_url (H := host) g uuid)
    (masa_client.auth_headers g).

End Demo.

(* ================================================================== *)
(** ** The search client *)
(* ================================================================== *)

Module masa_client_facts.
Import Runtime masa_client Spec.

Section Initialized.
Context `{Host}.
Variable g : globals.
Hypothesis initialized : _initialized g = true.

Lemma check_initialization_ok w : _check_initialization g w = (Ok tt, w).
Proof. unfold _check_initialization. now rewrite initialized. Qed.

Lemma build_headers_ok w : _build_headers g w = (Ok (auth_headers g), w).
Proof.
  unfold _build_headers, bind. now rewrite check_initialization_ok.
Qed.

Lemma get_delivered u h c rsn b rs tr :
  Http.get u h (mk_world (Reply c rsn b :: rs) tr)
  = (Ok (Http.mk_response c rsn b u), mk_world rs (tr ++ [EvGet u h])).
Proof. reflexivity. Qed.

Lemma post_delivered u h p c rsn b rs tr :
  Http.post u h p (mk_world (Reply c rsn b :: rs) tr)
  = (Ok (Http.mk_response c rsn b u), mk_world rs (tr ++ [EvPost u h p])).
Proof. reflexivity. Qed.

Lemma raise_for_status_ok c rsn b u w :
  error_code c = false ->
  Http.raise_for_status (Http.mk_response c rsn b u) w = (Ok tt, w).
Proof.
  unfold error_code, Http.raise_for_status; cbn [Http.status_code]; intros E.
  destruct (400 <=? c) eqn:E1; cbn [andb] in *.
  - rewrite E. destruct (c <? 500) eqn:E2; [lia|].
    destruct (500 <=? c); reflexivity.
  - destruct (500 <=? c) eqn:E2; [lia|]. reflexivity.
Qed.

(** One turn of the loop on a reply that keeps the client polling. *)
Lemma poll_keeps_polling fuel uuid rc r rs tr :
  rc < max_retries -> keeps_polling r = true ->
  poll g (S fuel) uuid rc (mk_world (r :: rs) tr)
  = poll g fuel uuid (rc + 1)
      (mk_world rs (tr ++ [EvGet (status_url g uuid) (auth_headers g);
                           EvSleep 2])).
Proof.
  intros Hrc Hr. cbn [poll].
  destruct (Z.ltb_spec rc max_retries) as [_|]; [|lia].
  destruct r as [|c rsn [| | | | | |d]]; try discriminate Hr.
  cbn [keeps_polling] in Hr.
  apply andb_prop in Hr as [Hr Hfail]. apply andb_prop in Hr as [Hcode Hdone].
  apply negb_true_iff in Hcode, Hdone, Hfail.
  unfold bind at 1. rewrite build_headers_ok.
  unfold bind at 1. rewrite get_delivered.
  unfold bind at 1. rewrite raise_for_status_ok by assumption.
  unfold bind at 1. cbn [lift Http.json Http.body Py.get].
  rewrite Hdone, Hfail.
  unfold bind at 1. cbn [Http.sleep emit replies trace].
  rewrite <- app_assoc. reflexivity.
Qed.

Lemma poll_done fuel uuid rc c rsn d rs tr :
  rc < max_retries -> error_code c = false ->
  Py.is_str (Py.dict_get d "status" PNone) "done" = true ->
  poll g (S fuel) uuid rc (mk_world (Reply c rsn (PDict d) :: rs) tr)
  = (Ok rc, mk_world rs (tr ++ [EvGet (status_url g uuid) (auth_headers g)])).
Proof.
  intros Hrc Hcode Hdone. cbn [poll].
  destruct (Z.ltb_spec rc max_retries) as [_|]; [|lia].
  unfold bind at 1. rewrite build_headers_ok.
  unfold bind at 1. rewrite get_delivered.
  unfold bind at 1. rewrite raise_for_status_ok by assumption.
  unfold bind at 1. cbn [lift Http.json Http.body Py.get].
  now rewrite Hdone.
Qed.

Lemma poll_failed fuel uuid rc c rsn d rs tr :
  rc < max_retries -> error_code c = false ->
  Py.is_str (Py.dict_get d "status" PNone) "error"
  || Py.is_str (Py.dict_get d "status" PNone) "failed" = true ->
  poll g (S fuel) uuid rc (mk_world (Reply c rsn (PDict d) :: rs) tr)
  = (Raise (mk_exc RuntimeError
              ("Search job failed: "
               ++ Py.str (Py.dict_get d "error" (PStr "Unknown error")))),
     mk_world rs (tr ++ [EvGet (status_url g uuid) (auth_headers g)])).
Proof.
  intros Hrc Hcode Hfail. cbn [poll].
  destruct (Z.ltb_spec rc max_retries) as [_|]; [|lia].
  unfold bind at 1. rewrite build_headers_ok.
  unfold bind at 1. rewrite get_delivered.
  unfold bind at 1. rewrite raise_for_status_ok by assumption.
  unfold bind at 1. cbn [lift Http.json Http.body Py.get].
  rewrite Hfail.
  destruct (Py.is_str (Py.dict_get d "status" PNone) "done") eqn:Hdone.
  - exfalso. destruct (Py.dict_get d "status" PNone); try discriminate.
    cbn [Py.is_str] in *. apply String.eqb_eq in Hdone. subst s.
    discriminate Hfail.
  - reflexivity.
Qed.

(** A run of replies that keep the client polling costs one cycle each. *)
Lemma poll_run before : forall fuel uuid rc rs tr,
  forallb keeps_polling before = true ->
  rc + Z.of_nat (List.length before) <= max_retries ->
  poll g (List.length before + fuel) uuid rc (mk_world (before ++ rs) tr)
  = poll g fuel uuid (rc + Z.of_nat (List.length before))
      (mk_world rs (tr ++ poll_cycles g uuid (List.length before))).
Proof.
  induction before as [|r before IH]; intros fuel uuid rc rs tr Hall Hlen.
  - cbn. now rewrite Z.add_0_r, app_nil_r.
  - cbn [forallb] in Hall. apply andb_prop in Hall as [Hr Hall].
    cbn [List.length] in *. rewrite Nat2Z.inj_succ in *.
    cbn [Nat.add app]. rewrite poll_keeps_polling by (assumption || lia).
    rewrite IH by (assumption || lia).
    unfold poll_cycles. cbn [repeat List.concat]. rewrite <- app_assoc.
    cbn [app]. f_equal. lia.
Qed.

Lemma poll_exhausted fuel uuid w :
  poll g fuel uuid max_retries w = (Ok max_retries, w).
Proof. destruct fuel; reflexivity. Qed.

(** The job handling that follows an accepted submission. *)
Lemma live_search_submitted query search_type max_results dst uuid rs tr :
  Py.truthy uuid = true ->
  perform_twitter_live_search g query search_type max_results dst
    (mk_world (submitted uuid :: rs) tr)
  = try_except
      (bind (poll g (Z.to_nat max_retries) uuid 0)
         (fun retry_count =>
            if retry_count >=? max_retries then
              raise (mk_exc RuntimeError
                       "Search job timed out after maximum retries")
            else
              bind (_build_headers g) (fun hdrs' =>
              bind (Http.get (results_url g uuid) hdrs') (fun results_response =>
              bind (Http.raise_for_status results_response) (fun _ =>
              ret (Http.json results_response))))))
      on_error
      (mk_world rs
         (tr ++ [EvPost (live_url g) (auth_headers g)
                   (live_payload query search_type max_results dst)])).
Proof.
  intros Huuid. unfold perform_twitter_live_search.
  unfold bind at 1. rewrite check_initialization_ok.
  unfold try_except.
  unfold bind at 1. rewrite build_headers_ok.
  unfold bind at 1. unfold submitted, ok_reply. rewrite post_delivered.
  unfold bind at 1. rewrite raise_for_status_ok by reflexivity.
  unfold bind at 1. cbn [lift Http.json Http.body Py.get Py.dict_get Py.lookup].
  change (Py.dict_get [("uuid", uuid)] "uuid" PNone) with uuid.
  rewrite Huuid. reflexivity.
Qed.

Lemma append_cancel_l (a x y : string) : a ++ x = a ++ y -> x = y.
Proof.
  induction a as [|c a IH]; cbn; intros E; [assumption|].
  injection E as E. auto.
Qed.

Lemma status_url_not_results_url uuid : status_url g uuid <> results_url g uuid.
Proof.
  unfold status_url, results_url. intros E.
  apply append_cancel_l in E. cbn in E. congruence.
Qed.

Lemma poll_cycles_events uuid n e :
  In e (poll_cycles g uuid n) ->
  e = EvGet (status_url g uuid) (auth_headers g) \/ e = EvSleep 2.
Proof.
  unfold poll_cycles. induction n as [|n IH]; cbn [repeat List.concat].
  - intros [].
  - cbn [app In]. intuition auto.
Qed.

Lemma poll_cycles_never_fetch uuid n post :
  is_post post = true ->
  ~ fetches_results g uuid (post :: poll_cycles g uuid n).
Proof.
  intros Hpost [hdrs [E|Hin]].
  - subst post. discriminate Hpost.
  - apply poll_cycles_events in Hin as [E|E]; [|discriminate E].
    injection E as E _. symmetry in E.
    now apply status_url_not_results_url in E.
Qed.

(** C1.  On the status sequence pending, pending, done the client makes three
    status requests with a sleep of 2 after each of the first two, then
    fetches the results and returns them.  On thirty pending statuses it
    makes thirty status requests, each followed by a sleep of 2, and then
    raises the timeout error without ever requesting the results. *)
Theorem live_search_polls_until_done_or_budget_spent
    query search_type max_results dst uuid results rest tr :
  Py.truthy uuid = true ->
  let submit := EvPost (live_url g) (auth_headers g)
                  (live_payload query search_type max_results dst) in
  let status := EvGet (status_url g uuid) (auth_headers g) in
  let fetch := EvGet (results_url g uuid) (auth_headers g) in
  perform_twitter_live_search g query search_type max_results dst
    (mk_world (submitted uuid :: status_is "pending" :: status_is "pending"
               :: status_is "done" :: ok_reply results :: rest) tr)
  = (Ok results,
     mk_world rest
       (tr ++ [submit; status; EvSleep 2; status; EvSleep 2; status; fetch]))
  /\
  (let timed_out :=
     perform_twitter_live_search g query search_type max_results dst
       (mk_world (submitted uuid :: repeat (status_is "pending") 30 ++ rest) tr)
   in
   fst timed_out
   = Raise (mk_exc RuntimeError "Search job timed out after maximum retries")
   /\ replies (snd timed_out) = rest
   /\ trace (snd timed_out) = (tr ++ submit :: poll_cycles g uuid 30)%list
   /\ ~ fetches_results g uuid (submit :: poll_cycles g uuid 30)).
Proof.
  intros Huuid submit status fetch. split.
  - rewrite live_search_submitted by assumption.
    unfold try_except, bind at 1.
    change (Z.to_nat max_retries) with (List.length [status_is "pending"; status_is "pending"] + 28)%nat.
    change (status_is "pending" :: status_is "pending" :: status_is "done"
            :: ok_reply results :: rest)
      with ([status_is "pending"; status_is "pending"]
            ++ status_is "done" :: ok_reply results :: rest)%list.
    rewrite poll_run by (reflexivity || (cbn; unfold max_retries; lia)).
    cbn [List.length]. change (0 + Z.of_nat 2) with 2.
    change (status_is "done")
      with (Reply 200 "OK" (PDict [("status", PStr "done")])).
    rewrite poll_done by (reflexivity || (unfold max_retries; lia)).
    change (2 >=? max_retries) with false. cbv iota.
    unfold bind at 1. rewrite build_headers_ok.
    unfold bind at 1. unfold ok_reply. rewrite get_delivered.
    unfold bind at 1. rewrite raise_for_status_ok by reflexivity.
    cbn [ret Http.json Http.body]. do 2 f_equal.
    rewrite <- !app_assoc. reflexivity.
  - cbv zeta.
    assert (Hrun :
      perform_twitter_live_search g query search_type max_results dst
        (mk_world (submitted uuid :: repeat (status_is "pending") 30 ++ rest) tr)
      = (Raise (mk_exc RuntimeError "Search job timed out after maximum retries"),
         mk_world rest ((tr ++ [submit]) ++ poll_cycles g uuid 30))).
    { rewrite live_search_submitted by assumption.
      unfold try_except, bind at 1.
      change (Z.to_nat max_retries)
        with (List.length (repeat (status_is "pending") 30) + 0)%nat.
      rewrite poll_run by (reflexivity || (cbn; unfold max_retries; lia)).
      change (0 + Z.of_nat (List.length (repeat (status_is "pending") 30)))
        with max_retries.
      rewrite poll_exhausted. reflexivity. }
    rewrite Hrun. cbn [fst snd replies trace]. repeat split.
    + now rewrite <- app_assoc.
    + now apply poll_cycles_never_fetch.
Qed.

(** X1.  A live search whose job is reported done after any number of status
    polls below the budget of 30, each answered with a status other than
    done, error or failed, returns the fetched results: every such poll costs
    one sleep of 2 seconds, and the poll that reports done is followed by the
    result fetch with no sleep in between. *)
Lemma live_search_returns_after_polls
    query search_type max_results dst uuid before results rest tr :
  Py.truthy uuid = true ->
  forallb keeps_polling before = true ->
  (List.length before < 30)%nat ->
  perform_twitter_live_search g query search_type max_results dst
    (mk_world (submitted uuid :: before ++ status_is "done"
               :: ok_reply results :: rest) tr)
  = (Ok results,
     mk_world rest
       (tr ++ EvPost (live_url g) (auth_headers g)
                (live_payload query search_type max_results dst)
           :: poll_cycles g uuid (List.length before)
           ++ [EvGet (status_url g uuid) (auth_headers g);
               EvGet (results_url g uuid) (auth_headers g)])).
Proof.
  intros Huuid Hbefore Hlen.
  rewrite live_search_submitted by assumption.
  unfold try_except, bind at 1.
  replace (Z.to_nat max_retries)
    with (List.length before + S (29 - List.length before))%nat
    by (unfold max_retries; lia).
  rewrite poll_run by (assumption || (unfold max_retries; lia)).
  change (status_is "done")
    with (Reply 200 "OK" (PDict [("status", PStr "done")])).
  rewrite poll_done by (reflexivity || (unfold max_retries; lia)).
  destruct (Z.geb_spec (0 + Z.of_nat (List.length before)) max_retries)
    as [Hge|_]; [unfold max_retries in Hge; lia|].
  unfold bind at 1. rewrite build_headers_ok.
  unfold bind at 1. unfold ok_reply. rewrite get_delivered.
  unfold bind at 1. rewrite raise_for_status_ok by reflexivity.
  cbn [ret Http.json Http.body]. do 2 f_equal.
  rewrite <- !app_assoc. reflexivity.
Qed.

Lemma failure_trace_never_fetches uuid n post :
  is_post post = true ->
  ~ fetches_results g uuid
      (post :: poll_cycles g uuid n
            ++ [EvGet (status_url g uuid) (auth_headers g)]).
Proof.
  intros Hpost [hdrs [E|Hin]].
  - subst post. discriminate Hpost.
  - apply in_app_or in Hin as [Hin|[E|[]]].
    + apply poll_cycles_events in Hin as [E|E]; [|discriminate E].
      injection E as E _. symmetry in E.
      now apply status_url_not_results_url in E.
    + injection E as E _.
      now apply status_url_not_results_url in E.
Qed.

(** C2.  When a status poll within the retry budget answers error or failed,
    the search raises at once the error that carries the provider's message
    (Unknown error when the reply has none): that poll is the last request
    made, no later reply is consumed and the results are never requested. *)
Theorem live_search_fails_at_once_on_reported_failure
    query search_type max_results dst uuid before status d rest tr :
  Py.truthy uuid = true ->
  forallb keeps_polling before = true ->
  (List.length before < 30)%nat ->
  status = "error" \/ status = "failed" ->
  Py.lookup d "status" = Some (PStr status) ->
  let submit := EvPost (live_url g) (auth_headers g)
                  (live_payload query search_type max_results dst) in
  let poll_failed := EvGet (status_url g uuid) (auth_headers g) in
  let failed :=
    perform_twitter_live_search g query search_type max_results dst
      (mk_world (submitted uuid :: before ++ ok_reply (PDict d) :: rest) tr) in
  fst failed
  = Raise (mk_exc RuntimeError
             ("Search job failed: "
              ++ match Py.lookup d "error" with
                 | Some msg => Py.str msg
                 | None => "Unknown error"
                 end))
  /\ replies (snd failed) = rest
  /\ trace (snd failed)
     = (tr ++ submit :: poll_cycles g uuid (List.length before)
           ++ [poll_failed])%list
  /\ ~ fetches_results g uuid
        (submit :: poll_cycles g uuid (List.length before) ++ [poll_failed]).
Proof.
  intros Huuid Hbefore Hlen Hstatus Hd submit poll_ev failed.
  assert (Hget : Py.dict_get d "status" PNone = PStr status)
    by (unfold Py.dict_get; now rewrite Hd).
  assert (Hmsg : Py.str (Py.dict_get d "error" (PStr "Unknown error"))
                 = match Py.lookup d "error" with
                   | Some msg => Py.str msg
                   | None => "Unknown error"
                   end)
    by (unfold Py.dict_get; now destruct (Py.lookup d "error")).
  assert (Hrun :
    failed
    = (Raise (mk_exc RuntimeError
                ("Search job failed: "
                 ++ Py.str (Py.dict_get d "error" (PStr "Unknown error")))),
       mk_world rest
         (((tr ++ [submit]) ++ poll_cycles g uuid (List.length before))
          ++ [poll_ev]))).
  { unfold failed. rewrite live_search_submitted by assumption.
    unfold try_except, bind at 1.
    replace (Z.to_nat max_retries)
      with (List.length before + S (29 - List.length before))%nat
      by (unfold max_retries; lia).
    rewrite poll_run by (assumption || (unfold max_retries; lia)).
    unfold ok_reply.
    rewrite poll_failed; [reflexivity | unfold max_retries; lia | reflexivity |].
    rewrite Hget. destruct Hstatus; subst status; reflexivity. }
  rewrite Hrun. cbn [fst snd replies trace]. rewrite Hmsg. repeat split.
  - rewrite <- !app_assoc. reflexivity.
  - now apply failure_trace_never_fetches.
Qed.

Lemma post_trace u h p w :
  trace (snd (Http.post u h p w)) = (trace w ++ [EvPost u h p])%list.
Proof.
  destruct w as [[|[msg|c rsn b] rs] tr]; reflexivity.
Qed.

Lemma raise_for_status_world r w : snd (Http.raise_for_status r w) = w.
Proof.
  unfold Http.raise_for_status.
  destruct ((400 <=? Http.status_code r) && (Http.status_code r <? 500));
    [reflexivity|].
  destruct ((500 <=? Http.status_code r) && (Http.status_code r <? 600));
    reflexivity.
Qed.

Lemma on_error_world {A} e w : snd (@on_error A e w) = w.
Proof. unfold on_error. destruct (exc_kind e); reflexivity. Qed.

(** A hybrid search makes exactly one request: the POST of its payload. *)
Lemma hybrid_search_trace sq tq sw tw keywords keyword_operator max_results w :
  trace (snd (perform_twitter_hybrid_search g sq tq sw tw keywords
                keyword_operator max_results w))
  = (trace w ++ [EvPost (hybrid_url g) (auth_headers g)
                   (hybrid_payload sq tq sw tw keywords keyword_operator
                      max_results)])%list.
Proof.
  unfold perform_twitter_hybrid_search.
  unfold bind at 1. rewrite check_initialization_ok.
  unfold try_except. unfold bind at 1. rewrite build_headers_ok.
  unfold bind at 1.
  pose proof (post_trace (hybrid_url g) (auth_headers g)
                (hybrid_payload sq tq sw tw keywords keyword_operator
                   max_results) w) as Hpost.
  destruct (Http.post _ _ _ w) as [[resp|e] w1]; cbn [snd] in Hpost.
  - unfold bind at 1.
    pose proof (raise_for_status_world resp w1) as Hrfs.
    destruct (Http.raise_for_status resp w1) as [[[]|e] w2];
      cbn [snd] in Hrfs; subst w2.
    + exact Hpost.
    + now rewrite on_error_world.
  - now rewrite on_error_world.
Qed.

(** C8.  The hybrid search for "ai" / "ai agents" with weights 0.7 and 0.3
    posts a body with the nested objects similarity_query = (query "ai",
    weight 0.7) and text_query = (query "ai agents", weight 0.3) and with
    max_results; keywords and keyword_operator follow exactly when a
    non-empty keyword list is given. *)
Theorem hybrid_search_payload_shape keywords keyword_operator max_results w :
  trace (snd (perform_twitter_hybrid_search g (PStr "ai") (PStr "ai agents")
                (7 # 10) (3 # 10) (optional_list keywords) keyword_operator
                max_results w))
  = (trace w
     ++ [EvPost (hybrid_url g) (auth_headers g)
           (PDict
              ([("similarity_query",
                 PDict [("query", PStr "ai"); ("weight", PFloat (7 # 10))]);
                ("text_query",
                 PDict [("query", PStr "ai agents");
                        ("weight", PFloat (3 # 10))]);
                ("max_results", max_results)]
               ++ match keywords with
                  | Some (k :: ks) =>
                      [("keywords", PList (k :: ks));
                       ("keyword_operator", keyword_operator)]
                  | _ => []
                  end))])%list.
Proof.
  rewrite hybrid_search_trace. do 3 f_equal.
  unfold hybrid_payload, with_keywords.
  destruct keywords as [[|k ks]|]; reflexivity.
Qed.

End Initialized.

(** The loop test bounds the iterations: any fuel that covers the remaining
    retry budget gives the same run. *)
Lemma poll_fuel_irrelevant `{Host} g uuid : forall fuel fuel' rc w,
  max_retries - rc <= Z.of_nat fuel -> max_retries - rc <= Z.of_nat fuel' ->
  poll g fuel uuid rc w = poll g fuel' uuid rc w.
Proof.
  induction fuel as [|fuel IH]; intros fuel' rc w Hf Hf'.
  - destruct fuel'; cbn [poll]; [reflexivity|].
    destruct (Z.ltb_spec rc max_retries); [unfold max_retries in *; lia | reflexivity].
  - destruct fuel' as [|fuel'].
    + cbn [poll]. destruct (Z.ltb_spec rc max_retries); [unfold max_retries in *; lia | reflexivity].
    + cbn [poll]. destruct (Z.ltb_spec rc max_retries); [|reflexivity].
      unfold bind.
      destruct (_build_headers g w) as [[hdrs|e] w1]; [|reflexivity].
      destruct (Http.get (status_url g uuid) hdrs w1) as [[resp|e] w2];
        [|reflexivity].
      destruct (Http.raise_for_status resp w2) as [[[]|e] w3]; [|reflexivity].
      destruct (lift (Py.get (Http.json resp) "status" PNone) w3)
        as [[status|e] w4]; [|reflexivity].
      destruct (Py.is_str status "done"); [reflexivity|].
      destruct (Py.is_str status "error" || Py.is_str status "failed");
        [reflexivity|].
      destruct (Http.sleep 2 w4) as [[[]|e] w5]; [|reflexivity].
      apply IH; unfold max_retries in *; lia.
Qed.

End masa_client_facts.

(* ================================================================== *)
(** ** The NLP service *)
(* ================================================================== *)

Module nlp_service_facts.
Import nlp_service Spec.

Lemma sum_ones {A} (l : list A) :
  sum_Z (map (fun _ => 1) l) = Z.of_nat (List.length l).
Proof.
  unfold sum_Z. rewrite <- (Z.add_0_l (Z.of_nat _)). generalize 0.
  induction l as [|x l IH]; intros a; cbn [map fold_left List.length].
  - cbn. lia.
  - rewrite IH. lia.
Qed.

Lemma count_label_cons s l lab :
  count_label (s :: l) lab
  = (if (sentiment s =? lab)%string then 1 else 0) + count_label l lab.
Proof.
  unfold count_label. rewrite !sum_ones. cbn [filter].
  destruct (sentiment s =? lab)%string; cbn [List.length]; lia.
Qed.

(** Results that all carry one of the three counted labels are counted once
    each. *)
Lemma labelled_counts_cover l :
  forallb labelled l = true ->
  count_label l "positive" + count_label l "neutral" + count_label l "negative"
  = Z.of_nat (List.length l).
Proof.
  induction l as [|s l IH]; intros Hall; [reflexivity|].
  cbn [forallb] in Hall. apply andb_prop in Hall as [Hs Hall].
  rewrite !count_label_cons. cbn [List.length]. rewrite Nat2Z.inj_succ.
  specialize (IH Hall). unfold labelled in Hs.
  destruct (String.eqb_spec (sentiment s) "positive") as [E|_];
    [rewrite ?E; cbn [String.eqb Ascii.eqb Bool.eqb]; lia|].
  destruct (String.eqb_spec (sentiment s) "neutral") as [E|_];
    [rewrite ?E; cbn [String.eqb Ascii.eqb Bool.eqb]; lia|].
  destruct (String.eqb_spec (sentiment s) "negative") as [E|_];
    [rewrite ?E; cbn [String.eqb Ascii.eqb Bool.eqb]; lia|].
  discriminate Hs.
Qed.

Lemma percentages_of_cover p n g t :
  0 < t -> p + n + g = t ->
  (percentage p t + percentage n t + percentage g t == 100)%Q.
Proof.
  intros Ht Hsum. unfold percentage.
  destruct (Z.ltb_spec 0 t) as [_|]; [|lia].
  assert (Hne : ~ (inject_Z t == 0)%Q).
  { unfold Qeq. cbn. lia. }
  assert (Hinj : (inject_Z g == inject_Z t - inject_Z p - inject_Z n)%Q).
  { unfold Qminus. rewrite <- !inject_Z_opp, <- !inject_Z_plus.
    f_equiv. lia. }
  rewrite Hinj. field. exact Hne.
Qed.

(** C9.  The empty batch is classified, by the function's first branch, as
    the distribution whose counts, percentages and averages are all zero;
    the function is total, so nothing is raised. *)
Theorem classify_empty_batch_is_all_zero :
  classify_sentiment_distribution [] = mk_distribution 0 0 0 0 0 0 0 0.
Proof. reflexivity. Qed.

(** C3, as the spec states it, fails: a batch holding one result labelled
    unknown (what [analyze_sentiment] returns when the analysis fails) is
    not empty, and its three percentages add up to 0. *)
Lemma percentages_total_0_on_unknown_result :
  let batch := [mk_sentiment "unknown" 0 0 (PStr "n/a") (Some "analysis failed")] in
  batch <> []
  /\ (percentages_total (classify_sentiment_distribution batch) == 0)%Q
  /\ ~ (percentages_total (classify_sentiment_distribution batch) == 100)%Q.
Proof.
  cbv zeta. split; [discriminate|]. split.
  - reflexivity.
  - intros E. vm_compute in E. discriminate E.
Qed.

(** C3, amended.  The three percentages total 0 for the empty batch, and
    100 (in the exact arithmetic that models the floats) for every non-empty
    batch all of whose results are labelled positive, neutral or negative. *)
Theorem percentages_total_100_when_all_labelled l :
  (l = [] ->
   (percentages_total (classify_sentiment_distribution l) == 0)%Q)
  /\ (l <> [] -> forallb labelled l = true ->
      (percentages_total (classify_sentiment_distribution l) == 100)%Q).
Proof.
  split.
  - intros ->. reflexivity.
  - intros Hne Hall. destruct l as [|s l]; [congruence|].
    unfold percentages_total, classify_sentiment_distribution.
    cbn [positive_percentage neutral_percentage negative_percentage].
    apply percentages_of_cover.
    + cbn [List.length]. lia.
    + now apply labelled_counts_cover.
Qed.

Section Analysis.
Context `{Host}.

Lemma analyze_sentiment_string s :
  analyze_sentiment true (PStr s)
  = Ok match textblob_sentiment (cleaned s) with
       | Ok (p, sj) => mk_sentiment (label p) p sj (PStr s) None
       | Raise e => mk_sentiment "unknown" 0 0 (PStr s) (Some (exc_str e))
       end.
Proof.
  unfold analyze_sentiment, cleaned. cbn.
  destruct (textblob_sentiment _) as [[p sj]|e]; reflexivity.
Qed.

(** Content that is not a string makes the analysis fail inside the [try]. *)
Lemma analyze_sentiment_not_string v :
  (forall s, v <> PStr s) ->
  exists msg, analyze_sentiment true v = Ok (mk_sentiment "unknown" 0 0 v (Some msg)).
Proof.
  intros Hv. destruct v; try (eexists; reflexivity).
  now contradiction (Hv s).
Qed.

(** C10.  With the service initialized, analysing a string always returns a
    record and never raises; the record carries the input text as given, not
    the cleaned one; and when the underlying analysis raises, the label is
    unknown and polarity and subjectivity are 0. *)
Theorem analyze_sentiment_never_raises s :
  exists r,
    analyze_sentiment true (PStr s) = Ok r
    /\ text r = PStr s
    /\ (forall e, textblob_sentiment (cleaned s) = Raise e ->
        sentiment r = "unknown" /\ polarity r = 0%Q /\ subjectivity r = 0%Q
        /\ error r = Some (exc_str e)).
Proof.
  rewrite analyze_sentiment_string. eexists. split; [reflexivity|].
  destruct (textblob_sentiment (cleaned s)) as [[p sj]|e0].
  - split; [reflexivity|]. intros e E. discriminate E.
  - split; [reflexivity|]. intros e E. injection E as ->. now repeat split.
Qed.

End Analysis.
End nlp_service_facts.

(* ================================================================== *)
(** ** Ranking topics *)
(* ================================================================== *)

Module ranking_facts.
Import kol_actions Spec.

Lemma first_seen_lt t l : In t l -> (first_seen t l < List.length l)%nat.
Proof.
  induction l as [|x l IH]; cbn [first_seen In List.length]; [tauto|].
  intros [->|Hin].
  - rewrite String.eqb_refl. lia.
  - destruct (x =? t)%string; [lia|]. specialize (IH Hin). lia.
Qed.

Lemma first_seen_app_present t p q :
  In t p -> first_seen t (p ++ q) = first_seen t p.
Proof.
  induction p as [|x p IH]; cbn [first_seen In app]; [tauto|].
  intros [->|Hin].
  - now rewrite String.eqb_refl.
  - destruct (x =? t)%string; [reflexivity|]. now rewrite IH.
Qed.

Lemma first_seen_app_absent t p q :
  ~ In t p -> first_seen t (p ++ q) = (List.length p + first_seen t q)%nat.
Proof.
  induction p as [|x p IH]; cbn [first_seen In app List.length];
    [reflexivity|].
  intros Hn. destruct (String.eqb_spec x t) as [->|_]; [tauto|].
  rewrite IH; [reflexivity | tauto].
Qed.

Lemma keys_set_present (d : list (string * Z)) t v :
  In t (map fst d) -> map fst (Dict.set String.eqb d t v) = map fst d.
Proof.
  induction d as [|[k c] d IH]; cbn [map fst In Dict.set]; [tauto|].
  intros Hin. destruct (String.eqb_spec k t) as [->|Hk]; [reflexivity|].
  cbn [map fst]. rewrite IH; [reflexivity | tauto].
Qed.

Lemma keys_set_absent (d : list (string * Z)) t v :
  ~ In t (map fst d) ->
  map fst (Dict.set String.eqb d t v) = (map fst d ++ [t])%list.
Proof.
  induction d as [|[k c] d IH]; cbn [map fst In Dict.set app]; [reflexivity|].
  intros Hn. destruct (String.eqb_spec k t) as [->|Hk]; [tauto|].
  cbn [map fst]. rewrite IH; [reflexivity | tauto].
Qed.

Lemma StronglySorted_weaken {A} (R R' : A -> A -> Prop) l :
  (forall a b, In a l -> In b l -> R a b -> R' a b) ->
  StronglySorted R l -> StronglySorted R' l.
Proof.
  intros Hw Hs. induction Hs as [|a l Hs IH Hall]; constructor.
  - apply IH. intros x y Hx Hy. apply Hw; now right.
  - rewrite Forall_forall in *. intros b Hb.
    apply Hw; [now left | now right | auto].
Qed.

Lemma StronglySorted_snoc {A} (R : A -> A -> Prop) l x :
  StronglySorted R l -> Forall (fun a => R a x) l ->
  StronglySorted R (l ++ [x]).
Proof.
  intros Hs. induction Hs as [|a l Hs IH Hall]; intros Hx; cbn [app].
  - repeat constructor.
  - inversion Hx; subst. constructor; [auto|].
    apply Forall_app. split; [assumption | now constructor].
Qed.

Lemma StronglySorted_map {A B} (f : A -> B) (R : B -> B -> Prop) l :
  StronglySorted R (map f l) ->
  StronglySorted (fun a b => R (f a) (f b)) l.
Proof.
  induction l as [|a l IH]; cbn [map]; intros Hs; [constructor|].
  inversion Hs; subst. constructor; [auto|].
  now rewrite Forall_map in *.
Qed.

Lemma firstn_In {A} (x : A) n : forall l, In x (firstn n l) -> In x l.
Proof.
  induction n as [|n IH]; intros [|a l]; cbn [firstn In]; try tauto.
  intros [->|Hin]; [now left | right; auto].
Qed.

Lemma StronglySorted_firstn {A} (R : A -> A -> Prop) n l :
  StronglySorted R l -> StronglySorted R (firstn n l).
Proof.
  intros Hs. revert n.
  induction Hs as [|a l Hs IH Hall]; intros [|n]; cbn [firstn];
    try constructor.
  - apply IH.
  - rewrite Forall_forall in *. intros b Hb.
    apply Hall. now apply firstn_In in Hb.
Qed.

(** Counting one more topic keeps the keys in first-seen order. *)
Lemma tallied_step seen (d : list (string * Z)) t v :
  tallied seen (map fst d) ->
  tallied (seen ++ [t]) (map fst (Dict.set String.eqb d t v)).
Proof.
  intros [Hs Hk]. destruct (in_dec string_dec t (map fst d)) as [Hin|Hn].
  - rewrite keys_set_present by assumption. split.
    + eapply StronglySorted_weaken; [|exact Hs].
      unfold seen_before. intros a b Ha Hb.
      rewrite !first_seen_app_present by (now apply Hk). auto.
    + intros x. rewrite in_app_iff, Hk. cbn [In]. split; [tauto|].
      intros [Hx|[<-|[]]]; [assumption | now apply Hk].
  - rewrite keys_set_absent by assumption. split.
    + apply StronglySorted_snoc.
      * eapply StronglySorted_weaken; [|exact Hs].
        unfold seen_before. intros a b Ha Hb.
        rewrite !first_seen_app_present by (now apply Hk). auto.
      * rewrite Forall_forall. intros a Ha. unfold seen_before.
        rewrite first_seen_app_present by (now apply Hk).
        rewrite first_seen_app_absent by (now rewrite <- Hk).
        apply Hk, first_seen_lt in Ha. lia.
    + intros x. rewrite !in_app_iff, Hk. reflexivity.
Qed.

Lemma count_topics_from rest : forall seen (d : list (string * Z)),
  tallied seen (map fst d) ->
  tallied (seen ++ rest)
    (map fst (fold_left
                (fun topic_counts topic =>
                   Dict.set String.eqb topic_counts topic
                     (Dict.get String.eqb topic_counts topic 0 + 1))
                rest d)).
Proof.
  induction rest as [|t rest IH]; intros seen d Hd; cbn [fold_left].
  - now rewrite app_nil_r.
  - replace (seen ++ t :: rest)%list with ((seen ++ [t]) ++ rest)%list
      by (now rewrite <- app_assoc).
    apply IH. now apply tallied_step.
Qed.

(** The tally lists each topic once, in the order the topics were first
    seen. *)
Lemma count_topics_tallied all_topics :
  tallied all_topics (map fst (count_topics all_topics)).
Proof.
  apply (count_topics_from all_topics [] []). split; [constructor|].
  intros t. reflexivity.
Qed.

Lemma insert_by_count_In x l z :
  In z (insert_by_count x l) <-> z = x \/ In z l.
Proof.
  induction l as [|y l IH]; cbn [insert_by_count In].
  - intuition auto.
  - destruct (snd x <? snd y); cbn [In]; [rewrite IH|]; intuition auto.
Qed.

Lemma sorted_by_count_In l z : In z (sorted_by_count l) <-> In z l.
Proof.
  induction l as [|x l IH]; cbn [sorted_by_count fold_right In]; [tauto|].
  fold (sorted_by_count l). rewrite insert_by_count_In, IH. intuition auto.
Qed.

Lemma ranks_before_count all a b : ranks_before all a b -> snd b <= snd a.
Proof. unfold ranks_before. lia. Qed.

(** Inserting an item that was seen before all the others keeps the
    ranking order. *)
Lemma insert_by_count_ranked all x l :
  StronglySorted (ranks_before all) l ->
  Forall (fun z => seen_before all (fst x) (fst z)) l ->
  StronglySorted (ranks_before all) (insert_by_count x l).
Proof.
  intros Hs. induction Hs as [|y l Hs IH Hall]; intros Hseen;
    cbn [insert_by_count].
  - repeat constructor.
  - inversion Hseen as [|? ? Hy Hl]; subst.
    destruct (Z.ltb_spec (snd x) (snd y)) as [Hlt|Hge].
    + constructor; [auto|].
      rewrite Forall_forall in *. intros z Hz.
      apply insert_by_count_In in Hz as [->|Hz]; [now left | auto].
    + constructor; [now constructor|].
      rewrite Forall_forall in *. intros z [<-|Hz].
      * unfold ranks_before. destruct (Z.eq_dec (snd x) (snd y)); [|lia].
        right. auto.
      * pose proof (ranks_before_count _ _ _ (Hall z Hz)).
        unfold ranks_before. destruct (Z.eq_dec (snd x) (snd z)); [|lia].
        right. split; [assumption|]. apply Hl. assumption.
Qed.

Lemma sorted_by_count_ranked all l :
  StronglySorted (fun a b => seen_before all (fst a) (fst b)) l ->
  StronglySorted (ranks_before all) (sorted_by_count l).
Proof.
  intros Hs. induction Hs as [|x l Hs IH Hall];
    cbn [sorted_by_count fold_right]; [constructor|].
  fold (sorted_by_count l). apply insert_by_count_ranked; [assumption|].
  rewrite Forall_forall in *. intros z Hz.
  apply Hall. now apply sorted_by_count_In.
Qed.

Lemma slice_to_ranked {A} (R : A -> A -> Prop) l n :
  StronglySorted R l -> StronglySorted R (Py.slice_to l n).
Proof.
  intros Hs. unfold Py.slice_to.
  destruct (0 <=? n); now apply StronglySorted_firstn.
Qed.

(** C6.  In the ranked topic list every item stands before every later one
    in the ranking order: it has strictly more occurrences, or equally many
    and was first seen earlier while the topics were accumulated. *)
Theorem ranked_topics_descending_and_stable all_topics n :
  StronglySorted (ranks_before all_topics) (rank_topics all_topics n).
Proof.
  unfold rank_topics. apply slice_to_ranked, sorted_by_count_ranked.
  apply StronglySorted_map with (R := seen_before all_topics) (f := fst).
  apply count_topics_tallied.
Qed.

Lemma dict_get_set (d : list (string * Z)) k v t default :
  Dict.get String.eqb (Dict.set String.eqb d k v) t default
  = if (k =? t)%string then v else Dict.get String.eqb d t default.
Proof.
  induction d as [|[k' v'] d IH]; cbn [Dict.set Dict.get]; [reflexivity|].
  destruct (String.eqb_spec k' k) as [->|Hk]; cbn [Dict.get].
  - destruct (k =? t)%string; reflexivity.
  - rewrite IH. destruct (String.eqb_spec k' t) as [->|_]; [|reflexivity].
    destruct (String.eqb_spec k t) as [->|_]; [contradiction | reflexivity].
Qed.

Lemma count_topics_from_counts rest t : forall d : list (string * Z),
  Dict.get String.eqb
    (fold_left
       (fun topic_counts topic =>
          Dict.set String.eqb topic_counts topic
            (Dict.get String.eqb topic_counts topic 0 + 1))
       rest d) t 0
  = Dict.get String.eqb d t 0 + occurrences t rest.
Proof.
  unfold occurrences.
  induction rest as [|x rest IH]; intros d; cbn [fold_left count_occ].
  - cbn. lia.
  - rewrite IH, dict_get_set.
    destruct (string_dec x t) as [->|Hx].
    + rewrite String.eqb_refl, Nat2Z.inj_succ. lia.
    + destruct (String.eqb_spec x t); [contradiction | reflexivity].
Qed.

(** The tally maps each topic to the number of its occurrences. *)
Lemma count_topics_counts all_topics t :
  Dict.get String.eqb (count_topics all_topics) t 0 = occurrences t all_topics.
Proof. unfold count_topics. now rewrite count_topics_from_counts. Qed.

Example rank_topics_ties_keep_first_seen_order :
  rank_topics ["b"; "a"; "b"; "c"; "a"; "d"; "c"; "c"] 3
  = [("c", 3); ("b", 2); ("a", 2)].
Proof. reflexivity. Qed.

Example rank_topics_negative_bound_drops_from_the_end :
  rank_topics ["b"; "a"; "b"; "c"; "a"; "d"] (-1)
  = [("b", 2); ("a", 2); ("c", 1)].
Proof. reflexivity. Qed.

End ranking_facts.

(* ================================================================== *)
(** ** What the handlers post *)
(* ================================================================== *)

Module posting_facts.
Import Runtime masa_client Spec.

Section Posting.
Context {P : pyval -> Prop}.

Lemma posting_silent {A} (m : M A) :
  (forall w, trace (snd (m w)) = trace w) -> posting P m.
Proof.
  intros Hm w. exists []. rewrite app_nil_r. split; [apply Hm | constructor].
Qed.

Lemma posting_ret {A} (a : A) : posting P (ret a).
Proof. now apply posting_silent. Qed.

Lemma posting_raise {A} e : posting P (@raise A e).
Proof. now apply posting_silent. Qed.

Lemma posting_lift {A} (r : result A) : posting P (lift r).
Proof. now apply posting_silent. Qed.

Lemma posting_bind {A B} (m : M A) (k : A -> M B) :
  posting P m -> (forall a, posting P (k a)) -> posting P (bind m k).
Proof.
  intros Hm Hk w. unfold bind.
  destruct (Hm w) as [evs [Ht Hp]].
  destruct (m w) as [[a|e] w1]; cbn [snd] in *.
  - destruct (Hk a w1) as [evs' [Ht' Hp']].
    exists (evs ++ evs')%list. rewrite Ht', Ht, app_assoc.
    split; [reflexivity | now apply Forall_app].
  - now exists evs.
Qed.

Lemma posting_try_except {A} (body : M A) handler :
  posting P body -> (forall e, posting P (handler e)) ->
  posting P (try_except body handler).
Proof.
  intros Hm Hk w. unfold try_except.
  destruct (Hm w) as [evs [Ht Hp]].
  destruct (body w) as [[a|e] w1]; cbn [snd] in *.
  - now exists evs.
  - destruct (Hk e w1) as [evs' [Ht' Hp']].
    exists (evs ++ evs')%list. rewrite Ht', Ht, app_assoc.
    split; [reflexivity | now apply Forall_app].
Qed.

Lemma posting_emit e :
  match e with EvPost _ _ p => P p | _ => True end -> posting P (emit e).
Proof. intros He w. exists [e]. split; [reflexivity | now constructor]. Qed.

Lemma posting_next_reply : posting P next_reply.
Proof.
  apply posting_silent. intros w. unfold next_reply.
  now destruct (replies w).
Qed.

Lemma posting_await u : posting P (Http.await_reply u).
Proof.
  apply posting_bind; [apply posting_next_reply|].
  intros [msg|c rsn b]; [apply posting_raise | apply posting_ret].
Qed.

Lemma posting_get u h : posting P (Http.get u h).
Proof.
  apply posting_bind; [now apply posting_emit | intros _; apply posting_await].
Qed.

Lemma posting_post u h p : P p -> posting P (Http.post u h p).
Proof.
  intros Hp.
  apply posting_bind; [now apply posting_emit | intros _; apply posting_await].
Qed.

Lemma posting_raise_for_status r : posting P (Http.raise_for_status r).
Proof.
  unfold Http.raise_for_status.
  destruct (_ && _); [apply posting_raise|].
  destruct (_ && _); [apply posting_raise | apply posting_ret].
Qed.

Lemma posting_sleep n : posting P (Http.sleep n).
Proof. now apply posting_emit. Qed.

Context `{Host}.
Variable g : globals.

Lemma posting_check_initialization : posting P (_check_initialization g).
Proof.
  unfold _check_initialization.
  destruct (_initialized g); [apply posting_ret | apply posting_raise].
Qed.

Lemma posting_build_headers : posting P (_build_headers g).
Proof.
  apply posting_bind; [apply posting_check_initialization|].
  intros _. apply posting_ret.
Qed.

Lemma posting_on_error {A} e : posting P (@on_error A e).
Proof. unfold on_error. destruct (exc_kind e); apply posting_raise. Qed.

(** The polling loop posts nothing. *)
Lemma posting_poll fuel : forall uuid rc, posting P (poll g fuel uuid rc).
Proof.
  induction fuel as [|fuel IH]; intros uuid rc; cbn [poll];
    [apply posting_ret|].
  destruct (rc <? max_retries); [|apply posting_ret].
  apply posting_bind; [apply posting_build_headers | intros hdrs].
  apply posting_bind; [apply posting_get | intros resp].
  apply posting_bind; [apply posting_raise_for_status | intros _].
  apply posting_bind; [apply posting_lift | intros status].
  destruct (Py.is_str status "done"); [apply posting_ret|].
  destruct (_ || _).
  - apply posting_bind; [apply posting_lift | intros msg; apply posting_raise].
  - apply posting_bind; [apply posting_sleep | intros _; apply IH].
Qed.

Lemma posting_live_search query search_type max_results dst :
  P (live_payload query search_type max_results dst) ->
  posting P (perform_twitter_live_search g query search_type max_results dst).
Proof.
  intros Hp. unfold perform_twitter_live_search.
  apply posting_bind; [apply posting_check_initialization | intros _].
  apply posting_try_except; [|intros e; apply posting_on_error].
  apply posting_bind; [apply posting_build_headers | intros hdrs].
  apply posting_bind; [now apply posting_post | intros resp].
  apply posting_bind; [apply posting_raise_for_status | intros _].
  apply posting_bind; [apply posting_lift | intros uuid].
  destruct (negb (Py.truthy uuid)); [apply posting_raise|].
  apply posting_bind; [apply posting_poll | intros rc].
  destruct (rc >=? max_retries); [apply posting_raise|].
  apply posting_bind; [apply posting_build_headers | intros hdrs'].
  apply posting_bind; [apply posting_get | intros resp'].
  apply posting_bind; [apply posting_raise_for_status | intros _].
  apply posting_ret.
Qed.

Lemma posting_indexed_search query search_type keywords keyword_operator
    max_results :
  P (indexed_payload query keywords keyword_operator max_results) ->
  posting P (perform_twitter_indexed_search g query search_type keywords
               keyword_operator max_results).
Proof.
  intros Hp. unfold perform_twitter_indexed_search.
  apply posting_bind; [apply posting_check_initialization | intros _].
  apply posting_try_except; [|intros e; apply posting_on_error].
  apply posting_bind; [apply posting_build_headers | intros hdrs].
  apply posting_bind; [now apply posting_post | intros resp].
  apply posting_bind; [apply posting_raise_for_status | intros _].
  apply posting_ret.
Qed.

Lemma posting_hybrid_search sq tq sw tw keywords keyword_operator max_results :
  P (hybrid_payload sq tq sw tw keywords keyword_operator max_results) ->
  posting P (perform_twitter_hybrid_search g sq tq sw tw keywords
               keyword_operator max_results).
Proof.
  intros Hp. unfold perform_twitter_hybrid_search.
  apply posting_bind; [apply posting_check_initialization | intros _].
  apply posting_try_except; [|intros e; apply posting_on_error].
  apply posting_bind; [apply posting_build_headers | intros hdrs].
  apply posting_bind; [now apply posting_post | intros resp].
  apply posting_bind; [apply posting_raise_for_status | intros _].
  apply posting_ret.
Qed.

End Posting.

Lemma live_payload_max_results query search_type max_results dst :
  payload_max_results (live_payload query search_type max_results dst)
  = Some max_results.
Proof. reflexivity. Qed.

Lemma indexed_payload_max_results query keywords keyword_operator max_results :
  payload_max_results
    (indexed_payload query keywords keyword_operator max_results)
  = Some max_results.
Proof.
  unfold indexed_payload, with_keywords.
  destruct (Py.truthy keywords); reflexivity.
Qed.

Lemma hybrid_payload_max_results sq tq sw tw keywords keyword_operator
    max_results :
  payload_max_results
    (hybrid_payload sq tq sw tw keywords keyword_operator max_results)
  = Some max_results.
Proof.
  unfold hybrid_payload, with_keywords.
  destruct (Py.truthy keywords); reflexivity.
Qed.

Lemma clamp_range n : 1 <= kol_actions.clamp n <= 100.
Proof. unfold kol_actions.clamp. lia. Qed.

Lemma clamp_cases n :
  (n < 1 -> kol_actions.clamp n = 1)
  /\ (100 < n -> kol_actions.clamp n = 100)
  /\ (1 <= n <= 100 -> kol_actions.clamp n = n).
Proof. unfold kol_actions.clamp. lia. Qed.

Section Search.
Context `{Host}.
Variable g : globals.
Variable config : list (string * pyval).

Lemma bind_lift_ok {A B} (a : A) (k : A -> M B) : bind (lift (Ok a)) k = k a.
Proof. reflexivity. Qed.

Lemma bind_ret_ok {A B} (m : M A) (f : A -> B) w r :
  fst (bind m (fun a => ret (f a)) w) = Ok r -> exists a, r = f a.
Proof.
  unfold bind. destruct (m w) as [[a|e] w1]; cbn; intros E.
  - injection E as <-. now exists a.
  - discriminate E.
Qed.

(** Every request of a content search carries the clamped [max_results]. *)
Lemma posting_search_kol_content params n :
  Py.dict_get params "max_results" (kol_actions.default_max_results config)
  = PInt n ->
  posting (fun payload =>
             payload_max_results payload = Some (PInt (kol_actions.clamp n)))
    (kol_actions.search_kol_content g config params).
Proof.
  intros Hn. unfold kol_actions.search_kol_content.
  destruct (negb (Py.dict_has params "query")); [apply posting_raise|].
  rewrite Hn. cbn [Py.int]. rewrite bind_lift_ok.
  apply posting_bind; [|intros results; apply posting_ret].
  destruct (Py.is_str _ "live");
    [apply posting_live_search, live_payload_max_results|].
  destruct (Py.is_str _ "indexed");
    [apply posting_indexed_search, indexed_payload_max_results|].
  destruct (Py.is_str _ "hybrid"); [|apply posting_raise].
  apply posting_bind; [apply posting_lift | intros sw].
  apply posting_bind; [apply posting_lift | intros tw].
  apply posting_hybrid_search, hybrid_payload_max_results.
Qed.

(** C5.  Whatever integer [max_results] the content search is given (in the
    parameters, or from the configured default), the value it uses is the
    input clamped into 1..100 (1 below the range, 100 above it, the input
    itself inside), and every search request it posts to the provider
    carries exactly that value as its [max_results]; so does the returned
    record. *)
Theorem search_max_results_clamped params n w :
  Py.dict_get params "max_results" (kol_actions.default_max_results config)
  = PInt n ->
  let run := kol_actions.search_kol_content g config params w in
  1 <= kol_actions.clamp n <= 100
  /\ (n < 1 -> kol_actions.clamp n = 1)
  /\ (100 < n -> kol_actions.clamp n = 100)
  /\ (1 <= n <= 100 -> kol_actions.clamp n = n)
  /\ (exists evs,
        trace (snd run) = (trace w ++ evs)%list
        /\ posts_satisfy
             (fun payload =>
                payload_max_results payload = Some (PInt (kol_actions.clamp n)))
             evs)
  /\ (forall r, fst run = Ok r ->
      kol_actions.sr_max_results r = kol_actions.clamp n).
Proof.
  intros Hn run. split; [apply clamp_range|].
  destruct (clamp_cases n) as [Hlo [Hhi Hin]]. do 3 (split; [assumption|]).
  split; [now apply posting_search_kol_content|].
  unfold run, kol_actions.search_kol_content. intros r.
  destruct (negb (Py.dict_has params "query")); [intros E; discriminate E|].
  rewrite Hn. cbn [Py.int]. rewrite bind_lift_ok. intros E.
  apply bind_ret_ok in E as [results ->]. reflexivity.
Qed.

End Search.
End posting_facts.

(* ================================================================== *)
(** ** The KOL handlers *)
(* ================================================================== *)

Module kol_actions_facts.
Import Runtime kol_actions Spec.

Lemma bind_ok {A B} (m : M A) (k : A -> M B) w a w' :
  m w = (Ok a, w') -> bind m k w = k a w'.
Proof. intros E. unfold bind. now rewrite E. Qed.

Lemma bind_raised {A B} (m : M A) (k : A -> M B) w e w' :
  m w = (Raise e, w') -> bind m k w = (Raise e, w').
Proof. intros E. unfold bind. now rewrite E. Qed.

Lemma bind_lifted {A B} (a : A) (k : A -> M B) : bind (lift (Ok a)) k = k a.
Proof. reflexivity. Qed.

(** Items that are dictionaries: those without the field are skipped, the
    others give their field, and nothing is raised. *)
Lemma content_texts_of_dicts ds :
  content_texts (map PDict ds) = Ok (kept_texts ds).
Proof.
  unfold kept_texts. induction ds as [|d ds IH]; [reflexivity|].
  cbn [map content_texts Py.contains Exn.bind filter].
  destruct (Py.dict_has d "Content"); [|exact IH].
  cbn [Py.get Exn.bind map]. now rewrite IH.
Qed.

Lemma key_eqb_refl k : hashable k = true -> key_eqb k k = true.
Proof.
  destruct k as [|b|n|x|s|l|d]; cbn; intros Hk; try reflexivity;
    try discriminate Hk.
  - now destruct b.
  - apply Qeq_bool_iff. reflexivity.
  - apply Qeq_bool_iff. reflexivity.
  - apply String.eqb_refl.
Qed.

Section Handlers.
Context `{Host}.
Variable g : masa_client.globals.
Variable config : list (string * pyval).

Lemma analyze_sentiment_total v :
  exists r, nlp_service.analyze_sentiment true v = Ok r /\ nlp_service.text r = v.
Proof.
  destruct v as [| | | |s| |];
    try (eexists; split; reflexivity).
  rewrite nlp_service_facts.analyze_sentiment_string.
  eexists. split; [reflexivity|].
  now destruct (textblob_sentiment _) as [[p sj]|e].
Qed.

Lemma batch_analyze_sentiment_total texts :
  exists rs,
    nlp_service.batch_analyze_sentiment true texts = Ok rs
    /\ List.length rs = List.length texts.
Proof.
  unfold nlp_service.batch_analyze_sentiment.
  induction texts as [|t texts [rs [E Hlen]]]; [now exists []|].
  destruct (analyze_sentiment_total t) as [r [Er _]].
  exists (r :: rs). cbn [Exn.map]. rewrite Er, E. cbn. now rewrite Hlen.
Qed.

Lemma extract_topics_total v n :
  exists topics, nlp_service.extract_topics true v n = Ok topics.
Proof.
  unfold nlp_service.extract_topics. cbn [nlp_service._check_initialization Exn.bind].
  unfold Exn.try_except.
  match goal with |- exists _, match ?b with _ => _ end = _ => destruct b end;
    eexists; reflexivity.
Qed.

Lemma extend_topics_total texts n : forall acc,
  exists topics, extend_topics true acc texts n = Ok topics.
Proof.
  induction texts as [|t texts IH]; intros acc; cbn [extend_topics];
    [now exists acc|].
  destruct (extract_topics_total t n) as [ts E]. rewrite E. cbn [Exn.bind].
  apply IH.
Qed.

(** One username whose search raises: the error is stored under the
    username and the loop body returns normally. *)
Lemma analyze_kol_records_failure query search_type n a username w e w' :
  hashable username = true ->
  search_kol_content g config
    (kol_search_params query search_type n username) w = (Raise e, w') ->
  analyze_kol g true config query search_type n a username w
  = (Ok (mk_accum (acc_topics a) (acc_sentiments a)
           (Dict.set key_eqb (acc_results a) username (Failed (exc_str e)))),
     w').
Proof.
  intros Hk Hs. unfold analyze_kol, try_except.
  rewrite (bind_raised _ _ _ _ _ Hs).
  unfold setitem. rewrite Hk. reflexivity.
Qed.

(** One username whose search returns content. *)
Lemma analyze_kol_records_analysis query search_type n a username w sr w'
    items t texts sentiments topics :
  hashable username = true ->
  search_kol_content g config
    (kol_search_params query search_type n username) w = (Ok sr, w') ->
  sr_results sr = PList items ->
  content_texts items = Ok (t :: texts) ->
  nlp_service.batch_analyze_sentiment true (t :: texts) = Ok sentiments ->
  extend_topics true [] (t :: texts) 5 = Ok topics ->
  analyze_kol g true config query search_type n a username w
  = (Ok (mk_accum (acc_topics a ++ topics) (acc_sentiments a ++ sentiments)
           (Dict.set key_eqb (acc_results a) username
              (Analysis (Z.of_nat (List.length (t :: texts))) topics
                 (nlp_service.classify_sentiment_distribution sentiments)))),
     w').
Proof.
  intros Hk Hs Hres Htexts Hbatch Htopics. unfold analyze_kol, try_except.
  rewrite (bind_ok _ _ _ _ _ Hs). rewrite Hres, Htexts, bind_lifted.
  rewrite Hbatch, bind_lifted, Htopics, bind_lifted.
  unfold setitem. rewrite Hk, bind_lifted. reflexivity.
Qed.

(** One username whose search returns no item with content. *)
Lemma analyze_kol_records_no_content query search_type n a username w sr w'
    items :
  hashable username = true ->
  search_kol_content g config
    (kol_search_params query search_type n username) w = (Ok sr, w') ->
  sr_results sr = PList items ->
  content_texts items = Ok [] ->
  analyze_kol g true config query search_type n a username w
  = (Ok (mk_accum (acc_topics a) (acc_sentiments a)
           (Dict.set key_eqb (acc_results a) username NoContent)),
     w').
Proof.
  intros Hk Hs Hres Htexts. unfold analyze_kol, try_except.
  rewrite (bind_ok _ _ _ _ _ Hs). rewrite Hres, Htexts, bind_lifted.
  unfold setitem. rewrite Hk, bind_lifted. reflexivity.
Qed.

(** The loop body never raises for a hashable username, whatever the search
    and the analysis do. *)
Lemma analyze_kol_never_raises nlp query search_type n a username w :
  hashable username = true ->
  exists a' w',
    analyze_kol g nlp config query search_type n a username w = (Ok a', w').
Proof.
  intros Hk. unfold analyze_kol, try_except.
  match goal with
  | |- exists _ _, (let (_, _) := ?body w in _) = _ =>
      destruct (body w) as [[a'|e] w']
  end.
  - now exists a', w'.
  - unfold setitem. rewrite Hk. rewrite bind_lifted. eexists _, _. reflexivity.
Qed.

Lemma for_usernames_never_raises nlp query search_type n usernames :
  forall a w,
    forallb hashable usernames = true ->
    exists a' w',
      for_usernames g nlp config query search_type n a usernames w
      = (Ok a', w').
Proof.
  induction usernames as [|u usernames IH]; intros a w Hall;
    cbn [for_usernames].
  - now exists a, w.
  - cbn [forallb] in Hall. apply andb_prop in Hall as [Hu Hall].
    destruct (analyze_kol_never_raises nlp query search_type n a u w Hu)
      as [a1 [w1 E]].
    rewrite (bind_ok _ _ _ _ _ E). now apply IH.
Qed.

(** C7.  Provider items without a Content field are left out of the text
    batch without any error, and the counts the handlers report are the
    length of the batch that remains: [result_count] of the sentiment
    handler, and [content_count] of the entry the trend handler stores for
    the username. *)
Theorem items_without_content_are_dropped ds :
  let texts := kept_texts ds in
  content_texts (map PDict ds) = Ok texts
  /\ (forall params w sr w',
        Py.dict_has params "text" = false ->
        Py.dict_has params "query" = true ->
        search_kol_content g config (query_search_params config params) w
        = (Ok sr, w') ->
        sr_results sr = PList (map PDict ds) ->
        exists sentiment_results,
          analyze_kol_sentiment g true config params w
          = (Ok (BatchSentiment (Py.dict_get params "query" PNone)
                   (Py.dict_get params "kol_username" PNone)
                   sentiment_results
                   (nlp_service.classify_sentiment_distribution
                      sentiment_results)
                   (Z.of_nat (List.length texts))),
             w')
          /\ List.length sentiment_results = List.length texts)
  /\ (forall query search_type n a username w sr w',
        hashable username = true ->
        search_kol_content g config
          (kol_search_params query search_type n username) w = (Ok sr, w') ->
        sr_results sr = PList (map PDict ds) ->
        exists entry a',
          analyze_kol g true config query search_type n a username w
          = (Ok a', w')
          /\ acc_results a'
             = Dict.set key_eqb (acc_results a) username entry
          /\ content_count_of entry = Some (Z.of_nat (List.length texts))).
Proof.
  intros texts. pose proof (content_texts_of_dicts ds) as Htexts.
  fold texts in Htexts. split; [exact Htexts|]. split.
  - intros params w sr w' Htext Hquery Hs Hres.
    destruct (batch_analyze_sentiment_total texts) as [rs [Hbatch Hlen]].
    exists rs. split; [|exact Hlen].
    unfold analyze_kol_sentiment. rewrite Htext, Hquery.
    rewrite (bind_ok _ _ _ _ _ Hs). rewrite Hres, Htexts, bind_lifted.
    rewrite Hbatch, bind_lifted. reflexivity.
  - intros query search_type n a username w sr w' Hk Hs Hres.
    destruct texts as [|t texts'] eqn:Et.
    + exists NoContent,
        (mk_accum (acc_topics a) (acc_sentiments a)
           (Dict.set key_eqb (acc_results a) username NoContent)).
      split; [|split; reflexivity].
      eapply analyze_kol_records_no_content; eassumption.
    + destruct (batch_analyze_sentiment_total (t :: texts'))
        as [rs [Hbatch _]].
      destruct (extend_topics_total (t :: texts') 5 []) as [topics Htopics].
      exists (Analysis (Z.of_nat (List.length (t :: texts'))) topics
                (nlp_service.classify_sentiment_distribution rs)),
        (mk_accum (acc_topics a ++ topics) (acc_sentiments a ++ rs)
           (Dict.set key_eqb (acc_results a) username
              (Analysis (Z.of_nat (List.length (t :: texts'))) topics
                 (nlp_service.classify_sentiment_distribution rs)))).
      split; [|split; reflexivity].
      eapply analyze_kol_records_analysis; eassumption.
Qed.

Lemma bind_inv {A B} (m : M A) (k : A -> M B) w b w' :
  bind m k w = (Ok b, w') ->
  exists a w1, m w = (Ok a, w1) /\ k a w1 = (Ok b, w').
Proof.
  unfold bind. destruct (m w) as [[a|e] w1]; intros E.
  - now exists a, w1.
  - discriminate E.
Qed.

(** The trends returned are the ranking of the topics accumulated over the
    usernames. *)
Lemma get_kol_trends_ranks nlp params w r w' :
  get_kol_trends g nlp config params w = (Ok r, w') ->
  exists acc max_trends,
    top_trends r = rank_topics (acc_topics acc) max_trends
    /\ kol_results r = acc_results acc.
Proof.
  unfold get_kol_trends.
  destruct (negb (Py.dict_has params "usernames")); [discriminate|].
  destruct (match Py.dict_get params "usernames" PNone with
            | PList l => l
            | u => [u]
            end) as [|u us]; [discriminate|].
  intros E.
  apply bind_inv in E as [n [w1 [_ E]]].
  apply bind_inv in E as [max_trends [w2 [_ E]]].
  apply bind_inv in E as [acc [w3 [_ E]]].
  injection E as <- _. now exists acc, max_trends.
Qed.

(** The top topics returned for a query are the ranking of the topics
    extracted from its texts. *)
Lemma extract_kol_topics_ranks nlp params w query kol_username top_topics
    all_topics result_count w' :
  extract_kol_topics g nlp config params w
  = (Ok (BatchTopics query kol_username top_topics all_topics result_count), w') ->
  exists topics max_topics,
    top_topics = rank_topics topics max_topics
    /\ all_topics = count_topics topics.
Proof.
  unfold extract_kol_topics. intros E.
  apply bind_inv in E as [max_topics [w1 [_ E]]].
  destruct (Py.dict_has params "text").
  { apply bind_inv in E as [topics [w2 [_ E]]]. discriminate E. }
  destruct (Py.dict_has params "query"); [|discriminate E].
  apply bind_inv in E as [sr [w2 [_ E]]].
  destruct (sr_results sr); try discriminate E.
  apply bind_inv in E as [texts [w3 [_ E]]].
  apply bind_inv in E as [topics [w4 [_ E]]].
  injection E as _ _ <- <- _ _. now exists topics, max_topics.
Qed.

(** The loop over a list in two parts is the loop over the first part
    followed by the loop over the second. *)
Lemma for_usernames_app nlp query search_type n before after : forall acc w,
  for_usernames g nlp config query search_type n acc (before ++ after) w
  = match for_usernames g nlp config query search_type n acc before w with
    | (Ok acc1, w1) =>
        for_usernames g nlp config query search_type n acc1 after w1
    | (Raise e, w1) => (Raise e, w1)
    end.
Proof.
  induction before as [|u before IH]; intros acc w; [reflexivity|].
  cbn [app for_usernames]. unfold bind.
  destruct (analyze_kol g nlp config query search_type n acc u w)
    as [[acc'|e] w']; [apply IH | reflexivity].
Qed.

(** One username whose search or analysis raises: whatever the step that
    fails, the message is stored under the username, the topics and the
    sentiments accumulated so far are kept, and the loop body returns
    normally. *)
Lemma analyze_kol_records_any_failure nlp query search_type n a username w e w' :
  hashable username = true ->
  (search_kol_content g config
     (kol_search_params query search_type n username) w = (Raise e, w')
   \/ exists sr items,
        search_kol_content g config
          (kol_search_params query search_type n username) w = (Ok sr, w')
        /\ sr_results sr = PList items
        /\ (content_texts items = Raise e
            \/ exists t texts,
                 content_texts items = Ok (t :: texts)
                 /\ nlp_service.batch_analyze_sentiment nlp (t :: texts)
                    = Raise e)) ->
  analyze_kol g nlp config query search_type n a username w
  = (Ok (mk_accum (acc_topics a) (acc_sentiments a)
           (Dict.set key_eqb (acc_results a) username (Failed (exc_str e)))),
     w').
Proof.
  intros Hk [Hs|[sr [items [Hs [Hres [Ht|[t [texts [Ht Hb]]]]]]]]];
    unfold analyze_kol, try_except.
  - rewrite (bind_raised _ _ _ _ _ Hs). unfold setitem. now rewrite Hk.
  - rewrite (bind_ok _ _ _ _ _ Hs). rewrite Hres, Ht.
    unfold bind at 1. unfold lift at 1. unfold setitem. now rewrite Hk.
  - rewrite (bind_ok _ _ _ _ _ Hs). rewrite Hres, Ht, bind_lifted, Hb.
    unfold bind at 1. unfold lift at 1. unfold setitem. now rewrite Hk.
Qed.

(** C4.  A search or analysis failure for one username is recorded under
    that username and does not abort the others.  For the usernames a and b,
    where the search for a returns items with content and the search for b
    raises e, the trend aggregation returns normally: [kol_results] holds the
    full analysis of a (content count, topics, sentiment distribution) and
    the error entry with e's message for b, and the trends and the overall
    sentiment are those of a's content.  The other way round, when the search
    for a raises and the search for b returns content, a gets the error entry
    and b is still searched and analysed in full.  At any position of any
    list of usernames, a username whose search raises, whose items cannot be
    read, or whose sentiment analysis raises, gets the error entry with the
    exception's message, and the loop goes on over the usernames after it
    with the topics and sentiments accumulated so far.  The loop over
    usernames never raises, whatever the searches and the analyses do. *)
Theorem kol_failure_does_not_abort_the_others params n max_trends :
  Py.int (Py.dict_get params "max_results_per_kol" (PInt 10)) = Ok n ->
  Py.int (Py.dict_get params "max_trends" (PInt 10)) = Ok max_trends ->
  let query := Py.dict_get params "query" (PStr "") in
  let search_type := Py.dict_get params "search_type" (PStr "indexed") in
  (forall a b w0 sr items t texts w1 e w2,
     Py.lookup params "usernames" = Some (PList [PStr a; PStr b]) ->
     a <> b ->
     search_kol_content g config
       (kol_search_params query search_type n (PStr a)) w0 = (Ok sr, w1) ->
     sr_results sr = PList items ->
     content_texts items = Ok (t :: texts) ->
     search_kol_content g config
       (kol_search_params query search_type n (PStr b)) w1 = (Raise e, w2) ->
     exists sentiments topics,
       nlp_service.batch_analyze_sentiment true (t :: texts) = Ok sentiments
       /\ extend_topics true [] (t :: texts) 5 = Ok topics
       /\ get_kol_trends g true config params w0
          = (Ok (mk_trends [PStr a; PStr b] query
                   (rank_topics topics max_trends) 2 1
                   (nlp_service.classify_sentiment_distribution sentiments)
                   [(PStr a,
                     Analysis (Z.of_nat (List.length (t :: texts))) topics
                       (nlp_service.classify_sentiment_distribution sentiments));
                    (PStr b, Failed (exc_str e))]
                   true),
             w2))
  /\ (forall a b w0 e w1 sr items t texts w2,
        Py.lookup params "usernames" = Some (PList [PStr a; PStr b]) ->
        a <> b ->
        search_kol_content g config
          (kol_search_params query search_type n (PStr a)) w0 = (Raise e, w1) ->
        search_kol_content g config
          (kol_search_params query search_type n (PStr b)) w1 = (Ok sr, w2) ->
        sr_results sr = PList items ->
        content_texts items = Ok (t :: texts) ->
        exists sentiments topics,
          nlp_service.batch_analyze_sentiment true (t :: texts) = Ok sentiments
          /\ extend_topics true [] (t :: texts) 5 = Ok topics
          /\ get_kol_trends g true config params w0
             = (Ok (mk_trends [PStr a; PStr b] query
                      (rank_topics topics max_trends) 2 1
                      (nlp_service.classify_sentiment_distribution sentiments)
                      [(PStr a, Failed (exc_str e));
                       (PStr b,
                        Analysis (Z.of_nat (List.length (t :: texts))) topics
                          (nlp_service.classify_sentiment_distribution
                             sentiments))]
                      true),
                w2))
  /\ (forall nlp before u after acc w acc1 w1 e w2,
        hashable u = true ->
        for_usernames g nlp config query search_type n acc before w
        = (Ok acc1, w1) ->
        (search_kol_content g config
           (kol_search_params query search_type n u) w1 = (Raise e, w2)
         \/ exists sr items,
              search_kol_content g config
                (kol_search_params query search_type n u) w1 = (Ok sr, w2)
              /\ sr_results sr = PList items
              /\ (content_texts items = Raise e
                  \/ exists t texts,
                       content_texts items = Ok (t :: texts)
                       /\ nlp_service.batch_analyze_sentiment nlp (t :: texts)
                          = Raise e)) ->
        for_usernames g nlp config query search_type n acc
          (before ++ u :: after) w
        = for_usernames g nlp config query search_type n
            (mk_accum (acc_topics acc1) (acc_sentiments acc1)
               (Dict.set key_eqb (acc_results acc1) u (Failed (exc_str e))))
            after w2)
  /\ (forall nlp usernames acc w,
        forallb hashable usernames = true ->
        exists acc' w',
          for_usernames g nlp config query search_type n acc usernames w
          = (Ok acc', w')).
Proof.
  intros Hn Hmt query search_type.
  assert (Hrun : forall a b w0,
            Py.lookup params "usernames" = Some (PList [PStr a; PStr b]) ->
            get_kol_trends g true config params w0
            = bind (for_usernames g true config query search_type n
                      (mk_accum [] [] []) [PStr a; PStr b])
                (fun acc =>
                   ret (mk_trends [PStr a; PStr b] query
                          (rank_topics (acc_topics acc) max_trends) 2
                          (nlp_service.sum_Z
                             (map (fun _ => 1)
                                (filter (fun kv => no_error (snd kv))
                                   (acc_results acc))))
                          (nlp_service.classify_sentiment_distribution
                             (acc_sentiments acc))
                          (acc_results acc) true)) w0).
  { intros a b w0 Hus.
    assert (Hhas : Py.dict_has params "usernames" = true)
      by (unfold Py.dict_has; now rewrite Hus).
    assert (Hget : Py.dict_get params "usernames" PNone
                   = PList [PStr a; PStr b])
      by (unfold Py.dict_get; now rewrite Hus).
    unfold get_kol_trends. rewrite Hhas, Hget. cbn [negb].
    fold query search_type.
    now rewrite Hn, bind_lifted, Hmt, bind_lifted. }
  split; [|split; [|split]].
  - intros a b w0 sr items t texts w1 e w2 Hus Hab Hsa Hres Htexts Hsb.
    destruct (batch_analyze_sentiment_total (t :: texts)) as [rs [Hbatch _]].
    destruct (extend_topics_total (t :: texts) 5 []) as [topics Htopics].
    exists rs, topics. do 2 (split; [assumption|]).
    rewrite (Hrun a b w0 Hus). cbn [for_usernames].
    erewrite bind_ok; cycle 1.
    { erewrite bind_ok; cycle 1.
      { eapply analyze_kol_records_analysis with (username := PStr a);
          try eassumption. reflexivity. }
      erewrite bind_ok; cycle 1.
      { eapply analyze_kol_records_failure with (username := PStr b);
          try eassumption. reflexivity. }
      reflexivity. }
    cbn [ret acc_topics acc_sentiments acc_results app Dict.set key_eqb].
    destruct (String.eqb_spec a b) as [E|_]; [contradiction|].
    reflexivity.
  - intros a b w0 e w1 sr items t texts w2 Hus Hab Hsa Hsb Hres Htexts.
    destruct (batch_analyze_sentiment_total (t :: texts)) as [rs [Hbatch _]].
    destruct (extend_topics_total (t :: texts) 5 []) as [topics Htopics].
    exists rs, topics. do 2 (split; [assumption|]).
    rewrite (Hrun a b w0 Hus). cbn [for_usernames].
    erewrite bind_ok; cycle 1.
    { erewrite bind_ok; cycle 1.
      { eapply analyze_kol_records_failure with (username := PStr a);
          try eassumption. reflexivity. }
      erewrite bind_ok; cycle 1.
      { eapply analyze_kol_records_analysis with (username := PStr b);
          try eassumption. reflexivity. }
      reflexivity. }
    cbn [ret acc_topics acc_sentiments acc_results app Dict.set key_eqb].
    destruct (String.eqb_spec a b) as [E|_]; [contradiction|].
    reflexivity.
  - intros nlp before u after acc w acc1 w1 e w2 Hk Hbefore Hfail.
    rewrite for_usernames_app, Hbefore. cbn [for_usernames].
    now rewrite (bind_ok _ _ _ _ _
                   (analyze_kol_records_any_failure nlp query search_type n
                      acc1 u w1 e w2 Hk Hfail)).
  - intros; now apply for_usernames_never_raises.
Qed.

End Handlers.
End kol_actions_facts.

(* ================================================================== *)
(** ** The search client: transport failures, budget, configuration *)
(* ================================================================== *)

Module transport_facts.
Import Runtime masa_client Spec.

Lemma seconds_slept_app evs evs' :
  seconds_slept (evs ++ evs') = seconds_slept evs + seconds_slept evs'.
Proof.
  unfold seconds_slept.
  induction evs as [|e evs IH]; cbn [app fold_right]; [lia|].
  destruct e; lia.
Qed.

Lemma count_events_app f evs evs' :
  count_events f (evs ++ evs') = count_events f evs + count_events f evs'.
Proof.
  unfold count_events. rewrite filter_app, length_app. lia.
Qed.

Section Budget.

Lemma within_silent {A} (m : M A) s gets posts :
  0 <= s -> 0 <= gets -> 0 <= posts ->
  (forall w, trace (snd (m w)) = trace w) -> within_budget s gets posts m.
Proof.
  intros Hs Hg Hp Hm w. exists []. rewrite app_nil_r.
  repeat split; try apply Hm; cbn; try lia. constructor.
Qed.

Lemma within_bind {A B} (m : M A) (k : A -> M B) s gets posts s' gets' posts'
    S G P :
  within_budget s gets posts m ->
  (forall a, within_budget s' gets' posts' (k a)) ->
  0 <= s' -> 0 <= gets' -> 0 <= posts' ->
  s + s' <= S -> gets + gets' <= G -> posts + posts' <= P ->
  within_budget S G P (bind m k).
Proof.
  intros Hm Hk Hs Hg Hp HS HG HP w. unfold bind.
  destruct (Hm w) as [evs [Ht [H1 [H2 [H3 H4]]]]].
  destruct (m w) as [[a|e] w1]; cbn [snd] in *.
  - destruct (Hk a w1) as [evs' [Ht' [H1' [H2' [H3' H4']]]]].
    exists (evs ++ evs')%list.
    rewrite Ht', Ht, app_assoc, seconds_slept_app, !count_events_app.
    repeat split; try lia. now apply Forall_app.
  - exists evs. repeat split; try assumption; lia.
Qed.

Lemma within_try_except {A} (body : M A) handler s gets posts S G P :
  within_budget s gets posts body ->
  (forall e, within_budget 0 0 0 (handler e)) ->
  s <= S -> gets <= G -> posts <= P ->
  within_budget S G P (try_except body handler).
Proof.
  intros Hm Hk HS HG HP w. unfold try_except.
  destruct (Hm w) as [evs [Ht [H1 [H2 [H3 H4]]]]].
  destruct (body w) as [[a|e] w1]; cbn [snd] in *.
  - exists evs. repeat split; try assumption; lia.
  - destruct (Hk e w1) as [evs' [Ht' [H1' [H2' [H3' H4']]]]].
    exists (evs ++ evs')%list.
    rewrite Ht', Ht, app_assoc, seconds_slept_app, !count_events_app.
    repeat split; try lia. now apply Forall_app.
Qed.

Lemma within_ret {A} (a : A) : within_budget 0 0 0 (ret a).
Proof. apply within_silent; (lia || reflexivity). Qed.

Lemma within_raise {A} e : within_budget 0 0 0 (@raise A e).
Proof. apply within_silent; (lia || reflexivity). Qed.

Lemma within_lift {A} (r : result A) : within_budget 0 0 0 (lift r).
Proof. apply within_silent; (lia || reflexivity). Qed.

Lemma within_await u : within_budget 0 0 0 (Http.await_reply u).
Proof.
  apply within_silent; try lia. intros w.
  unfold Http.await_reply, bind, next_reply.
  destruct (replies w) as [|[msg|c rsn b] rs]; reflexivity.
Qed.

Lemma within_get u h : within_budget 0 1 0 (Http.get u h).
Proof.
  intros [[|[msg|c rsn b] rs] tr]; exists [EvGet u h];
    (split; [reflexivity|]); cbn; repeat split; try lia; repeat constructor.
Qed.

Lemma within_post u h p : within_budget 0 0 1 (Http.post u h p).
Proof.
  intros [[|[msg|c rsn b] rs] tr]; exists [EvPost u h p];
    (split; [reflexivity|]); cbn; repeat split; try lia; repeat constructor.
Qed.

Lemma within_sleep : within_budget 2 0 0 (Http.sleep 2).
Proof.
  intros w. exists [EvSleep 2]. split; [reflexivity|].
  cbn; repeat split; try lia; repeat constructor.
Qed.

Lemma within_raise_for_status r : within_budget 0 0 0 (Http.raise_for_status r).
Proof.
  apply within_silent; try lia. intros w.
  now rewrite masa_client_facts.raise_for_status_world.
Qed.

Context `{Host}.
Variable g : globals.

Lemma within_check_initialization : within_budget 0 0 0 (_check_initialization g).
Proof.
  apply within_silent; try lia. intros w. unfold _check_initialization.
  now destruct (_initialized g).
Qed.

Lemma within_build_headers : within_budget 0 0 0 (_build_headers g).
Proof.
  apply within_silent; try lia. intros w.
  unfold _build_headers, bind, _check_initialization.
  now destruct (_initialized g).
Qed.

Lemma within_on_error {A} e : within_budget 0 0 0 (@on_error A e).
Proof.
  apply within_silent; try lia. intros w.
  now rewrite masa_client_facts.on_error_world.
Qed.

(** Each turn of the loop makes one GET and sleeps at most once. *)
Lemma within_poll fuel : forall uuid rc,
  within_budget (2 * Z.of_nat fuel) (Z.of_nat fuel) 0 (poll g fuel uuid rc).
Proof.
  induction fuel as [|fuel IH]; intros uuid rc; cbn [poll].
  - apply within_ret.
  - rewrite Nat2Z.inj_succ. set (F := Z.of_nat fuel) in *.
    assert (0 <= F) by (unfold F; lia).
    destruct (rc <? max_retries);
      [|apply within_silent; (lia || reflexivity)].
    apply (within_bind _ _ 0 0 0 (2 * Z.succ F) (Z.succ F) 0);
      [apply within_build_headers | intros hdrs | lia..].
    apply (within_bind _ _ 0 1 0 (2 * Z.succ F) F 0);
      [apply within_get | intros resp | lia..].
    apply (within_bind _ _ 0 0 0 (2 * Z.succ F) F 0);
      [apply within_raise_for_status | intros _ | lia..].
    apply (within_bind _ _ 0 0 0 (2 * Z.succ F) F 0);
      [apply within_lift | intros status | lia..].
    destruct (Py.is_str status "done");
      [apply within_silent; (lia || reflexivity)|].
    destruct (_ || _).
    + apply (within_bind _ _ 0 0 0 0 0 0);
        [apply within_lift | intros msg; apply within_raise | lia..].
    + apply (within_bind _ _ 2 0 0 (2 * F) F 0);
        [apply within_sleep | intros _; apply IH | lia..].
Qed.

(** X2.  Whatever the provider answers, and whether or not the client is
    initialized, a live search makes at most one POST and at most 31 GETs
    (30 status polls and the result fetch), and it sleeps at most 60 seconds
    in all, 2 seconds at a time: a job that never completes cannot block the
    caller for longer. *)
Theorem live_search_stays_within_budget query search_type max_results dst :
  within_budget 60 31 1
    (perform_twitter_live_search g query search_type max_results dst).
Proof.
  unfold perform_twitter_live_search.
  apply (within_bind _ _ 0 0 0 60 31 1);
    [apply within_check_initialization | intros _ | lia..].
  apply (within_try_except _ _ 60 31 1);
    [|intros e; apply within_on_error | lia..].
  apply (within_bind _ _ 0 0 0 60 31 1);
    [apply within_build_headers | intros hdrs | lia..].
  apply (within_bind _ _ 0 0 1 60 31 0);
    [apply within_post | intros resp | lia..].
  apply (within_bind _ _ 0 0 0 60 31 0);
    [apply within_raise_for_status | intros _ | lia..].
  apply (within_bind _ _ 0 0 0 60 31 0);
    [apply within_lift | intros uuid | lia..].
  destruct (negb (Py.truthy uuid));
    [apply within_silent; (lia || reflexivity)|].
  apply (within_bind _ _ 60 30 0 0 1 0);
    [apply (within_poll 30) | intros rc | lia..].
  destruct (rc >=? max_retries);
    [apply within_silent; (lia || reflexivity)|].
  apply (within_bind _ _ 0 0 0 0 1 0);
    [apply within_build_headers | intros hdrs' | lia..].
  apply (within_bind _ _ 0 1 0 0 0 0);
    [apply within_get | intros resp' | lia..].
  apply (within_bind _ _ 0 0 0 0 0 0);
    [apply within_raise_for_status | intros _; apply within_ret | lia..].
Qed.

End Budget.

Section Wrapping.
Context `{Host}.
Variable g : globals.




End Wrapping.

Section Failures.
Context `{Host}.
Variable g : globals.
Hypothesis initialized : _initialized g = true.

Lemma get_fails {A} u h bad e rs tr (k : unit -> Http.response -> M A) :
  transport_failure u bad = Some e ->
  bind (Http.get u h)
    (fun r => bind (Http.raise_for_status r) (fun x => k x r))
    (mk_world (bad :: rs) tr)
  = (Raise e, mk_world rs (tr ++ [EvGet u h])).
Proof.
  destruct bad as [msg|c rsn b]; cbn [transport_failure]; intros Hf.
  - injection Hf as <-. reflexivity.
  - unfold bind at 1. rewrite masa_client_facts.get_delivered.
    unfold bind, Http.raise_for_status. cbn [Http.status_code].
    destruct ((400 <=? c) && (c <? 500)).
    + injection Hf as <-. reflexivity.
    + destruct ((500 <=? c) && (c <? 600)); [|discriminate Hf].
      injection Hf as <-. reflexivity.
Qed.

Lemma post_fails {A} u h p bad e rs tr (k : unit -> Http.response -> M A) :
  transport_failure u bad = Some e ->
  bind (Http.post u h p)
    (fun r => bind (Http.raise_for_status r) (fun x => k x r))
    (mk_world (bad :: rs) tr)
  = (Raise e, mk_world rs (tr ++ [EvPost u h p])).
Proof.
  destruct bad as [msg|c rsn b]; cbn [transport_failure]; intros Hf.
  - injection Hf as <-. reflexivity.
  - unfold bind at 1. rewrite masa_client_facts.post_delivered.
    unfold bind, Http.raise_for_status. cbn [Http.status_code].
    destruct ((400 <=? c) && (c <? 500)).
    + injection Hf as <-. reflexivity.
    + destruct ((500 <=? c) && (c <? 600)); [|discriminate Hf].
      injection Hf as <-. reflexivity.
Qed.

Lemma transport_failure_kind u bad e :
  transport_failure u bad = Some e -> exc_kind e = RequestException.
Proof.
  destruct bad as [msg|c rsn b]; cbn [transport_failure]; intros Hf.
  - now injection Hf as <-.
  - destruct (_ && _); [now injection Hf as <-|].
    destruct (_ && _); [now injection Hf as <-|discriminate Hf].
Qed.

Lemma on_error_wraps {A} e w :
  exc_kind e = RequestException ->
  @on_error A e w = (Raise (communication_error e), w).
Proof. intros K. unfold on_error. now rewrite K. Qed.

Lemma poll_transport_failure fuel uuid rc bad e rs tr :
  rc < max_retries ->
  transport_failure (status_url g uuid) bad = Some e ->
  poll g (S fuel) uuid rc (mk_world (bad :: rs) tr)
  = (Raise e,
     mk_world rs (tr ++ [EvGet (status_url g uuid) (auth_headers g)])).
Proof.
  intros Hrc Hf. cbn [poll].
  destruct (Z.ltb_spec rc max_retries) as [_|]; [|lia].
  unfold bind at 1. rewrite masa_client_facts.build_headers_ok by assumption.
  now apply get_fails.
Qed.

(** X4.  A transport failure at any step of a live search (the request
    itself fails, or the reply has a 4xx or 5xx status) ends the search at
    once with RuntimeError "Error communicating with Masa API: <failure>":
    on the submission nothing is polled, on a status poll nothing is polled
    or fetched afterwards, and a failed result fetch returns no results. *)
Theorem live_search_stops_on_transport_failure
    query search_type max_results dst uuid before bad e rest tr :
  Py.truthy uuid = true ->
  forallb keeps_polling before = true ->
  (List.length before < 30)%nat ->
  let submit := EvPost (live_url g) (auth_headers g)
                  (live_payload query search_type max_results dst) in
  let status := EvGet (status_url g uuid) (auth_headers g) in
  let fetch := EvGet (results_url g uuid) (auth_headers g) in
  let search := perform_twitter_live_search g query search_type max_results dst
  in
  (transport_failure (live_url g) bad = Some e ->
   search (mk_world (bad :: rest) tr)
   = (Raise (communication_error e), mk_world rest (tr ++ [submit])))
  /\ (transport_failure (status_url g uuid) bad = Some e ->
      search (mk_world (submitted uuid :: before ++ bad :: rest) tr)
      = (Raise (communication_error e),
         mk_world rest
           (tr ++ submit :: poll_cycles g uuid (List.length before)
               ++ [status])))
  /\ (transport_failure (results_url g uuid) bad = Some e ->
      search (mk_world (submitted uuid :: before ++ status_is "done"
                        :: bad :: rest) tr)
      = (Raise (communication_error e),
         mk_world rest
           (tr ++ submit :: poll_cycles g uuid (List.length before)
               ++ [status; fetch]))).
Proof.
  intros Huuid Hbefore Hlen submit status fetch search.
  assert (Hfuel : Z.to_nat max_retries
                  = (List.length before + S (29 - List.length before))%nat)
    by (unfold max_retries; lia).
  split; [|split]; intros Hf; unfold search.
  - unfold perform_twitter_live_search.
    unfold bind at 1.
    rewrite masa_client_facts.check_initialization_ok by assumption.
    unfold try_except.
    unfold bind at 1. rewrite masa_client_facts.build_headers_ok by assumption.
    rewrite (post_fails _ _ _ _ _ _ _ _ Hf).
    apply on_error_wraps. eapply transport_failure_kind; eassumption.
  - rewrite masa_client_facts.live_search_submitted by assumption.
    unfold try_except, bind at 1. rewrite Hfuel.
    rewrite masa_client_facts.poll_run
      by (assumption || (unfold max_retries; lia)).
    assert (Hrc : 0 + Z.of_nat (List.length before) < max_retries)
      by (unfold max_retries; lia).
    rewrite (poll_transport_failure _ _ _ _ _ _ _ Hrc Hf).
    rewrite on_error_wraps by (eapply transport_failure_kind; eassumption).
    do 2 f_equal. rewrite <- !app_assoc. reflexivity.
  - rewrite masa_client_facts.live_search_submitted by assumption.
    unfold try_except, bind at 1. rewrite Hfuel.
    rewrite masa_client_facts.poll_run
      by (assumption || (unfold max_retries; lia)).
    change (status_is "done")
      with (Reply 200 "OK" (PDict [("status", PStr "done")])).
    rewrite masa_client_facts.poll_done
      by (assumption || reflexivity || (unfold max_retries; lia)).
    destruct (Z.geb_spec (0 + Z.of_nat (List.length before)) max_retries)
      as [Hge|_]; [unfold max_retries in Hge; lia|].
    unfold bind at 1. rewrite masa_client_facts.build_headers_ok by assumption.
    rewrite (get_fails _ _ _ _ _ _ (fun _ r => ret (Http.json r)) Hf).
    rewrite on_error_wraps by (eapply transport_failure_kind; eassumption).
    do 2 f_equal. rewrite <- !app_assoc. reflexivity.
Qed.

(** X5.  A submission the provider accepts without issuing a job identifier
    (the reply has no "uuid", or an empty or null one) fails with ValueError
    "Invalid response from Masa API: No UUID returned"; the status endpoint
    is never polled. *)
Theorem live_search_without_job_id_never_polls
    query search_type max_results dst c rsn d rest tr :
  error_code c = false ->
  Py.truthy (Py.dict_get d "uuid" PNone) = false ->
  perform_twitter_live_search g query search_type max_results dst
    (mk_world (Reply c rsn (PDict d) :: rest) tr)
  = (Raise (mk_exc ValueError "Invalid response from Masa API: No UUID returned"),
     mk_world rest
       (tr ++ [EvPost (live_url g) (auth_headers g)
                 (live_payload query search_type max_results dst)])).
Proof.
  intros Hc Hu. unfold perform_twitter_live_search.
  unfold bind at 1.
  rewrite masa_client_facts.check_initialization_ok by assumption.
  unfold try_except.
  unfold bind at 1. rewrite masa_client_facts.build_headers_ok by assumption.
  unfold bind at 1. rewrite masa_client_facts.post_delivered.
  unfold bind at 1.
  rewrite masa_client_facts.raise_for_status_ok by assumption.
  unfold bind at 1. cbn [lift Http.json Http.body Py.get].
  rewrite Hu. reflexivity.
Qed.

Lemma indexed_search_trace query search_type keywords keyword_operator
    max_results w :
  trace (snd (perform_twitter_indexed_search g query search_type keywords
                keyword_operator max_results w))
  = (trace w
     ++ [EvPost (fmt (_api_url g) ++ "/v1/search/" ++ Py.str search_type
                 ++ "/twitter")
           (auth_headers g)
           (indexed_payload query keywords keyword_operator max_results)])%list.
Proof.
  unfold perform_twitter_indexed_search.
  unfold bind at 1.
  rewrite masa_client_facts.check_initialization_ok by assumption.
  unfold try_except. unfold bind at 1.
  rewrite masa_client_facts.build_headers_ok by assumption.
  unfold bind at 1.
  match goal with
  | |- context [Http.post ?u ?h ?p w] =>
      pose proof (masa_client_facts.post_trace u h p w) as Hpost;
      destruct (Http.post u h p w) as [[resp|e] w1]
  end; cbn [snd] in Hpost.
  - unfold bind at 1.
    pose proof (masa_client_facts.raise_for_status_world resp w1) as Hrfs.
    destruct (Http.raise_for_status resp w1) as [[[]|e] w2];
      cbn [snd] in Hrfs; subst w2.
    + exact Hpost.
    + now rewrite masa_client_facts.on_error_world.
  - now rewrite masa_client_facts.on_error_world.
Qed.

(** X6.  An indexed search makes exactly one request, whatever the reply:
    the POST to /v1/search/<search_type>/twitter of a body with query and
    max_results, followed by keywords and keyword_operator exactly when a
    non-empty keyword list is given.  On a reply that is not an HTTP error it
    returns the reply's JSON body. *)
Theorem indexed_search_posts_once
    query search_type keywords keyword_operator max_results :
  let search :=
    perform_twitter_indexed_search g query search_type
      (optional_list keywords) keyword_operator max_results in
  (forall w,
     trace (snd (search w))
     = (trace w
        ++ [EvPost (fmt (_api_url g) ++ "/v1/search/" ++ Py.str search_type
                    ++ "/twitter")
              (auth_headers g)
              (PDict ([("query", query); ("max_results", max_results)]
                      ++ match keywords with
                         | Some (k :: ks) =>
                             [("keywords", PList (k :: ks));
                              ("keyword_operator", keyword_operator)]
                         | _ => []
                         end))])%list)
  /\ (forall c rsn body rest tr,
        error_code c = false ->
        fst (search (mk_world (Reply c rsn body :: rest) tr)) = Ok body
        /\ replies (snd (search (mk_world (Reply c rsn body :: rest) tr)))
           = rest).
Proof.
  intros search. split.
  - intros w. unfold search. rewrite indexed_search_trace. do 3 f_equal.
    unfold indexed_payload, with_keywords.
    destruct keywords as [[|k ks]|]; reflexivity.
  - intros c rsn body rest tr Hc.
    assert (Hrun : exists tr',
              search (mk_world (Reply c rsn body :: rest) tr)
              = (Ok body, mk_world rest tr')).
    { unfold search, perform_twitter_indexed_search.
      unfold bind at 1.
      rewrite masa_client_facts.check_initialization_ok by assumption.
      unfold try_except.
      unfold bind at 1.
      rewrite masa_client_facts.build_headers_ok by assumption.
      unfold bind at 1. rewrite masa_client_facts.post_delivered.
      unfold bind at 1.
      rewrite masa_client_facts.raise_for_status_ok by assumption.
      eexists. reflexivity. }
    destruct Hrun as [tr' ->]. split; reflexivity.
Qed.

End Failures.

Lemma rstrip_slash_app_slash s : rstrip_slash (s ++ "/") = rstrip_slash s.
Proof.
  induction s as [|c s IH]; [reflexivity|].
  cbn [append rstrip_slash]. now rewrite IH.
Qed.

Lemma append_slash_assoc s t : s ++ String "/" t = (s ++ "/") ++ t.
Proof. induction s as [|c s IH]; cbn [append]; [reflexivity | now rewrite IH]. Qed.

Lemma rstrip_slash_app_slashes n : forall s,
  rstrip_slash (s ++ slashes n) = rstrip_slash s.
Proof.
  induction n as [|n IH]; intros s; cbn [slashes].
  - f_equal. induction s as [|c s IHs]; cbn [append]; [reflexivity | now rewrite IHs].
  - rewrite append_slash_assoc, IH. apply rstrip_slash_app_slash.
Qed.

Lemma rstrip_slash_decompose s :
  exists n, s = rstrip_slash s ++ slashes n.
Proof.
  induction s as [|c s [n IH]]; [now exists O|].
  cbn [rstrip_slash]. destruct (rstrip_slash s) as [|c' r] eqn:E.
  - cbn [append] in IH. destruct (Ascii.eqb_spec c "/") as [->|_].
    + exists (S n). cbn [append slashes]. now rewrite <- IH.
    + exists n. cbn [append]. now rewrite <- IH.
  - exists n. cbn [append] in *. now rewrite <- IH.
Qed.

Lemma rstrip_slash_no_trailing s : forall t, rstrip_slash s <> t ++ "/".
Proof.
  induction s as [|c s IH]; intros t; cbn [rstrip_slash].
  - destruct t; discriminate.
  - destruct (rstrip_slash s) as [|c' r] eqn:E.
    + destruct (Ascii.eqb_spec c "/") as [->|Hc].
      * destruct t; discriminate.
      * destruct t as [|a t]; cbn [append]; intros Ht; inversion Ht.
        -- congruence.
        -- destruct t; discriminate.
    + destruct t as [|a t]; cbn [append]; intros Ht; inversion Ht.
      now apply (IH t).
Qed.

(** X7.  Initializing the client removes every trailing slash of the
    configured URL and nothing else: the stored URL does not end in a slash,
    the configured one is the stored one followed by slashes only, so any
    number of trailing slashes in the configuration gives the same client,
    and the client reports itself initialized. *)
Theorem initialize_strips_trailing_slashes api_key api_url :
  let g := initialize_masa_client api_key api_url in
  exists base,
    _api_url g = Some base
    /\ is_initialized g = true
    /\ (exists n, api_url = base ++ slashes n)
    /\ (forall t, base <> t ++ "/")
    /\ (forall n, initialize_masa_client api_key (api_url ++ slashes n) = g).
Proof.
  exists (rstrip_slash api_url). split; [reflexivity|]. split; [reflexivity|].
  split; [apply rstrip_slash_decompose|].
  split; [apply rstrip_slash_no_trailing|].
  intros n. unfold initialize_masa_client.
  now rewrite rstrip_slash_app_slashes.
Qed.

End transport_facts.

(* ================================================================== *)
(** ** The NLP service: topics, labels, batches, distributions *)
(* ================================================================== *)

Module nlp_more_facts.
Import nlp_service Spec.

Lemma slice_to_prefix {A} (l : list A) n : exists k, Py.slice_to l n = firstn k l.
Proof. unfold Py.slice_to. destruct (0 <=? n); eexists; reflexivity. Qed.

Lemma slice_to_length {A} (l : list A) n :
  0 <= n -> Z.of_nat (List.length (Py.slice_to l n)) <= n.
Proof.
  intros Hn. unfold Py.slice_to. destruct (Z.leb_spec 0 n); [|lia].
  pose proof (firstn_le_length (Z.to_nat n) l). lia.
Qed.

Lemma label_cases p :
  ((1 # 10 < p)%Q -> label p = "positive")
  /\ ((p < - (1 # 10))%Q -> label p = "negative")
  /\ ((- (1 # 10) <= p <= 1 # 10)%Q -> label p = "neutral").
Proof.
  unfold label, gt, lt.
  destruct (Qle_bool p (1 # 10)) eqn:E1; cbn [negb].
  - apply Qle_bool_iff in E1.
    destruct (Qle_bool (- (1 # 10)) p) eqn:E2; cbn [negb].
    + apply Qle_bool_iff in E2. repeat split; intros; try reflexivity; lra.
    + assert (~ (- (1 # 10) <= p)%Q)
        by (intros C; apply Qle_bool_iff in C; congruence).
      repeat split; intros; try reflexivity; lra.
  - assert (~ (p <= 1 # 10)%Q)
      by (intros C; apply Qle_bool_iff in C; congruence).
    repeat split; intros; try reflexivity; lra.
Qed.

Lemma count_label_bounds l lab :
  0 <= count_label l lab <= Z.of_nat (List.length l).
Proof.
  unfold count_label. rewrite nlp_service_facts.sum_ones.
  pose proof (filter_length_le (fun s => (sentiment s =? lab)%string) l). lia.
Qed.

Lemma unlabelled_cons s l :
  unlabelled (s :: l) = (if labelled s then 0 else 1) + unlabelled l.
Proof.
  unfold unlabelled. cbn [filter].
  destruct (labelled s); cbn [negb List.length]; lia.
Qed.

(** Every result is counted under exactly one label, or under none. *)
Lemma counts_partition l :
  count_label l "positive" + count_label l "neutral" + count_label l "negative"
  + unlabelled l
  = Z.of_nat (List.length l).
Proof.
  induction l as [|s l IH]; [reflexivity|].
  rewrite !nlp_service_facts.count_label_cons, unlabelled_cons.
  cbn [List.length]. rewrite Nat2Z.inj_succ. unfold labelled.
  destruct (String.eqb_spec (sentiment s) "positive") as [E|_];
    [rewrite ?E; cbn [String.eqb Ascii.eqb Bool.eqb orb]; lia|].
  destruct (String.eqb_spec (sentiment s) "neutral") as [E|_];
    [rewrite ?E; cbn [String.eqb Ascii.eqb Bool.eqb orb]; lia|].
  destruct (String.eqb_spec (sentiment s) "negative") as [E|_];
    [rewrite ?E; cbn [String.eqb Ascii.eqb Bool.eqb orb]; lia|].
  cbn [orb]. lia.
Qed.

Lemma percentage_bounds c t :
  0 <= c <= t -> (0 <= percentage c t <= 100)%Q.
Proof.
  intros Hc. unfold percentage.
  destruct (Z.ltb_spec 0 t) as [Ht|_]; [|split; discriminate].
  destruct t as [|t|t]; try lia.
  unfold Qle, Qdiv, Qmult, Qinv, inject_Z. cbn. split; nia.
Qed.

Lemma percentages_sum p n g t :
  0 < t ->
  ((percentage p t + percentage n t + percentage g t) * inject_Z t
   == 100 * inject_Z (p + n + g))%Q.
Proof.
  intros Ht. unfold percentage.
  destruct (Z.ltb_spec 0 t) as [_|]; [|lia].
  assert (Hne : ~ (inject_Z t == 0)%Q) by (unfold Qeq; cbn; lia).
  rewrite !inject_Z_plus. field. exact Hne.
Qed.

(** X11.  The distribution counts each result of the batch under exactly one
    of positive, neutral and negative, or under none (the unknown ones): the
    three counts and the uncounted results add up to the size of the batch,
    each percentage lies between 0 and 100, and for a non-empty batch the
    three percentages total 100 times the share of the counted results. *)
Theorem distribution_counts_partition_the_batch l :
  let d := classify_sentiment_distribution l in
  let total := Z.of_nat (List.length l) in
  0 <= positive d /\ 0 <= neutral d /\ 0 <= negative d
  /\ positive d + neutral d + negative d + unlabelled l = total
  /\ (0 <= positive_percentage d <= 100)%Q
  /\ (0 <= neutral_percentage d <= 100)%Q
  /\ (0 <= negative_percentage d <= 100)%Q
  /\ (percentages_total d * inject_Z total
      == 100 * inject_Z (total - unlabelled l))%Q.
Proof.
  destruct l as [|s l].
  { cbn. repeat split; try lia; try discriminate. }
  set (b := s :: l).
  pose proof (count_label_bounds b "positive") as Hp.
  pose proof (count_label_bounds b "neutral") as Hn.
  pose proof (count_label_bounds b "negative") as Hg.
  pose proof (counts_partition b) as Hsum.
  cbv zeta. unfold percentages_total, classify_sentiment_distribution.
  fold b.
  change (match b with [] => _ | _ :: _ => ?x end) with x.
  cbn [positive neutral negative positive_percentage neutral_percentage
       negative_percentage].
  do 4 (split; [lia|]).
  do 3 (split; [apply percentage_bounds; lia|]).
  rewrite percentages_sum by (unfold b; cbn [List.length]; lia).
  apply Qmult_comp; [reflexivity|]. f_equiv. lia.
Qed.

Section Service.
Context `{Host}.

Lemma extract_topics_bounded text max_topics :
  exists topics,
    extract_topics true text max_topics = Ok topics
    /\ (0 <= max_topics -> Z.of_nat (List.length topics) <= max_topics).
Proof.
  destruct text as [| | | |s| |];
    try (exists []; split; [reflexivity | cbn; lia]).
  unfold extract_topics.
  cbn [_check_initialization Exn.bind sub findall].
  destruct (textblob_noun_phrases _) as [nps|e];
    cbn [Exn.bind Exn.try_except].
  - eexists. split; [reflexivity | apply slice_to_length].
  - exists []. split; [reflexivity | cbn; lia].
Qed.

(** X8.  With the service initialized, topic extraction never raises.  For a
    text it returns a prefix of the hashtags followed by the noun phrases
    that are not among the hashtags (so hashtags come first and no noun
    phrase repeats one), at most [max_topics] of them when [max_topics] is
    not negative; when the noun-phrase analysis raises, or the content is
    not a string, it returns no topic. *)
Theorem extract_topics_is_bounded_and_never_raises text max_topics :
  exists topics,
    extract_topics true text max_topics = Ok topics
    /\ (0 <= max_topics -> Z.of_nat (List.length topics) <= max_topics)
    /\ (forall s, text = PStr s ->
        match textblob_noun_phrases (topic_text s) with
        | Ok noun_phrases =>
            exists k,
              topics = firstn k (hashtags s
                                 ++ filter (not_in (hashtags s)) noun_phrases)
        | Raise _ => topics = []
        end)
    /\ ((forall s, text <> PStr s) -> topics = []).
Proof.
  destruct text as [| | | |s| |];
    try (exists []; repeat split;
         [cbn; lia | intros s E; discriminate E]).
  unfold extract_topics, topic_text, hashtags.
  cbn [_check_initialization Exn.bind sub findall].
  destruct (textblob_noun_phrases _) as [nps|e] eqn:E;
    cbn [Exn.bind Exn.try_except].
  - eexists. split; [reflexivity|]. split; [apply slice_to_length|]. split.
    + intros s' Hs. injection Hs as <-. rewrite E. apply slice_to_prefix.
    + intros Hn. now contradiction (Hn s).
  - exists []. split; [reflexivity|]. split; [cbn; lia|]. split.
    + intros s' Hs. injection Hs as <-. now rewrite E.
    + reflexivity.
Qed.

(** X9.  When TextBlob analyses the cleaned text, the record carries its
    polarity and subjectivity and no error, and the label follows the
    polarity: positive above 0.1, negative below -0.1, neutral from -0.1 to
    0.1 with both ends included. *)
Theorem sentiment_label_follows_polarity s p sj :
  textblob_sentiment (cleaned s) = Ok (p, sj) ->
  exists r,
    analyze_sentiment true (PStr s) = Ok r
    /\ polarity r = p /\ subjectivity r = sj /\ error r = None
    /\ ((1 # 10 < p)%Q -> sentiment r = "positive")
    /\ ((p < - (1 # 10))%Q -> sentiment r = "negative")
    /\ ((- (1 # 10) <= p <= 1 # 10)%Q -> sentiment r = "neutral").
Proof.
  intros E. rewrite nlp_service_facts.analyze_sentiment_string, E.
  eexists. split; [reflexivity|]. cbn [polarity subjectivity error sentiment].
  do 3 (split; [reflexivity|]). apply label_cases.
Qed.

Lemma analyze_sentiment_keeps_text v :
  exists r, analyze_sentiment true v = Ok r /\ text r = v.
Proof.
  destruct v as [| | | |s| |]; try (eexists; split; reflexivity).
  rewrite nlp_service_facts.analyze_sentiment_string.
  eexists. split; [reflexivity|].
  now destruct (textblob_sentiment _) as [[p sj]|e].
Qed.

(** X10.  With the service initialized a batch analysis never raises and
    returns one record per text, in the order of the texts, each carrying
    its text.  Without initialization it raises for every non-empty batch,
    but returns the empty list for the empty batch. *)
Theorem batch_keeps_the_texts_in_order texts :
  (exists results,
     batch_analyze_sentiment true texts = Ok results
     /\ map text results = texts)
  /\ batch_analyze_sentiment false [] = Ok []
  /\ (texts <> [] ->
      batch_analyze_sentiment false texts
      = Raise (mk_exc RuntimeError
                 "NLP service not initialized. Call initialize_nlp() first.")).
Proof.
  split; [|split; [reflexivity|]].
  - unfold batch_analyze_sentiment.
    induction texts as [|t texts [rs [E Ht]]]; [now exists []|].
    destruct (analyze_sentiment_keeps_text t) as [r [Er Hr]].
    exists (r :: rs). cbn [Exn.map]. rewrite Er, E. cbn. now rewrite Hr, Ht.
  - destruct texts as [|t texts]; [congruence|]. reflexivity.
Qed.

Lemma analysed_batch_is_labelled texts :
  all_analysed texts ->
  exists results,
    batch_analyze_sentiment true texts = Ok results
    /\ List.length results = List.length texts
    /\ Forall (fun r => labelled r = true /\ error r = None) results.
Proof.
  unfold batch_analyze_sentiment.
  induction 1 as [|t texts [s [[p sj] [-> Ht]]] _ [rs [E [Hl Hall]]]];
    [now exists []|].
  eexists. cbn [Exn.map].
  rewrite nlp_service_facts.analyze_sentiment_string, Ht, E.
  cbn [Exn.bind]. split; [reflexivity|]. split; [cbn; now rewrite Hl|].
  constructor; [|exact Hall].
  split; [|reflexivity].
  unfold labelled, label. cbn [sentiment].
  destruct (gt p (1 # 10)); [reflexivity|].
  destruct (lt p (- (1 # 10))); reflexivity.
Qed.

Lemma all_labelled_none_unlabelled l :
  Forall (fun r => labelled r = true /\ error r = None) l ->
  forallb labelled l = true /\ unlabelled l = 0.
Proof.
  induction 1 as [|r l [Hr _] _ [IHall IHnone]]; [now split|].
  rewrite unlabelled_cons. cbn [forallb]. rewrite Hr, IHall, IHnone.
  now split.
Qed.

(** X13.  When every text of a batch is a string that TextBlob analyses, the
    batch analysis returns one result per text, none of them with the label
    unknown or an error, and the distribution counts every text under
    exactly one of the three labels: the three counts add up to the number
    of texts. *)
Theorem analysed_batch_distribution_is_complete texts :
  all_analysed texts ->
  exists results,
    batch_analyze_sentiment true texts = Ok results
    /\ List.length results = List.length texts
    /\ Forall (fun r => labelled r = true /\ error r = None) results
    /\ unlabelled results = 0
    /\ (let d := classify_sentiment_distribution results in
        positive d + neutral d + negative d = Z.of_nat (List.length texts)).
Proof.
  intros Hall.
  destruct (analysed_batch_is_labelled texts Hall) as [rs [E [Hl Hlab]]].
  exists rs. do 3 (split; [assumption|]).
  destruct (all_labelled_none_unlabelled rs Hlab) as [_ Hnone].
  split; [exact Hnone|].
  cbv zeta. rewrite <- Hl.
  pose proof (counts_partition rs) as Hsum. rewrite Hnone in Hsum.
  destruct rs as [|r rs]; [reflexivity|].
  unfold classify_sentiment_distribution.
  cbn [positive neutral negative]. lia.
Qed.

End Service.
End nlp_more_facts.

(* ================================================================== *)
(** ** The handlers: validation, scoping, tallies, dispatch *)
(* ================================================================== *)

Module handler_facts.
Import Runtime kol_actions Spec.

Lemma bind_ret_world {A B} (m : M A) (f : A -> B) w :
  snd (bind m (fun a => ret (f a)) w) = snd (m w).
Proof. unfold bind. now destruct (m w) as [[a|e] w1]. Qed.

Lemma bind_lift_raise {A B} e (k : A -> M B) w :
  bind (lift (Raise e)) k w = (Raise e, w).
Proof. reflexivity. Qed.

Section Search.
Context `{Host}.
Variable g : masa_client.globals.
Variable config : list (string * pyval).

(** X14.  A content search validates its parameters before it talks to the
    provider: without a query, with a [max_results] that [int()] rejects, or
    with a search type other than live, indexed and hybrid, it raises and
    makes no request at all. *)
Theorem search_rejects_bad_parameters_without_request params w :
  let search_type := Py.dict_get params "search_type" (PStr "indexed") in
  let max_results :=
    Py.int (Py.dict_get params "max_results" (default_max_results config)) in
  (Py.dict_has params "query" = false ->
   search_kol_content g config params w
   = (Raise (mk_exc ValueError "Missing required parameter: query"), w))
  /\ (forall e,
        Py.dict_has params "query" = true -> max_results = Raise e ->
        search_kol_content g config params w = (Raise e, w))
  /\ (forall n,
        Py.dict_has params "query" = true -> max_results = Ok n ->
        Py.is_str search_type "live" = false ->
        Py.is_str search_type "indexed" = false ->
        Py.is_str search_type "hybrid" = false ->
        search_kol_content g config params w
        = (Raise (mk_exc ValueError
                    ("Invalid search_type: " ++ Py.str search_type)), w)).
Proof.
  intros search_type max_results. unfold search_kol_content.
  fold search_type. fold max_results. split; [|split].
  - intros ->. reflexivity.
  - intros e -> ->. reflexivity.
  - intros n -> -> Hl Hi Hh. cbn [negb].
    rewrite kol_actions_facts.bind_lifted, Hl, Hi, Hh. reflexivity.
Qed.

Lemma uninitialized_live query search_type max_results dst w :
  masa_client._initialized g = false ->
  exists e,
    masa_client.perform_twitter_live_search g query search_type max_results
      dst w = (Raise e, w).
Proof.
  intros Hg. unfold masa_client.perform_twitter_live_search, bind,
    masa_client._check_initialization. rewrite Hg. eexists. reflexivity.
Qed.

Lemma uninitialized_indexed query search_type keywords keyword_operator
    max_results w :
  masa_client._initialized g = false ->
  exists e,
    masa_client.perform_twitter_indexed_search g query search_type keywords
      keyword_operator max_results w = (Raise e, w).
Proof.
  intros Hg. unfold masa_client.perform_twitter_indexed_search, bind,
    masa_client._check_initialization. rewrite Hg. eexists. reflexivity.
Qed.

Lemma uninitialized_hybrid sq tq sw tw keywords keyword_operator max_results w :
  masa_client._initialized g = false ->
  exists e,
    masa_client.perform_twitter_hybrid_search g sq tq sw tw keywords
      keyword_operator max_results w = (Raise e, w).
Proof.
  intros Hg. unfold masa_client.perform_twitter_hybrid_search, bind,
    masa_client._check_initialization. rewrite Hg. eexists. reflexivity.
Qed.

(** X15.  While the client is not initialized, a content search never
    touches the network, whatever its parameters: it raises, and no request
    is made and no reply consumed. *)
Theorem search_without_client_makes_no_request params w :
  masa_client._initialized g = false ->
  exists e, search_kol_content g config params w = (Raise e, w).
Proof.
  intros Hg. unfold search_kol_content.
  destruct (negb (Py.dict_has params "query")); [eexists; reflexivity|].
  destruct (Py.int _) as [n|e]; [|eexists; reflexivity].
  rewrite kol_actions_facts.bind_lifted.
  destruct (Py.is_str _ "live").
  { match goal with
    | |- context [masa_client.perform_twitter_live_search g ?a ?b ?c ?d] =>
        destruct (uninitialized_live a b c d w Hg) as [e E]
    end.
    exists e. unfold bind. now rewrite E. }
  destruct (Py.is_str _ "indexed").
  { match goal with
    | |- context [masa_client.perform_twitter_indexed_search g ?a ?b ?c ?d ?e] =>
        destruct (uninitialized_indexed a b c d e w Hg) as [e' E]
    end.
    exists e'. unfold bind. now rewrite E. }
  destruct (Py.is_str _ "hybrid"); [|eexists; reflexivity].
  destruct (Py.float (Py.dict_get params "similarity_weight" _)) as [sw|e];
    [|eexists; reflexivity].
  rewrite kol_actions_facts.bind_lifted.
  destruct (Py.float (Py.dict_get params "text_weight" _)) as [tw|e];
    [|eexists; reflexivity].
  rewrite kol_actions_facts.bind_lifted.
  match goal with
  | |- context [masa_client.perform_twitter_hybrid_search g ?a ?b ?c ?d ?e ?f ?h] =>
      destruct (uninitialized_hybrid a b c d e f h w Hg) as [e' E]
  end.
  exists e'. unfold bind. now rewrite E.
Qed.

End Search.

Section Scoping.
Context `{Host}.
Variable g : masa_client.globals.
Variable config : list (string * pyval).
Hypothesis initialized : masa_client._initialized g = true.

(** A live search starts with the POST of its payload. *)
Lemma live_search_posts_first query search_type max_results dst w :
  exists more,
    trace (snd (masa_client.perform_twitter_live_search g query search_type
                  max_results dst w))
    = (trace w
       ++ EvPost (masa_client.live_url g) (masa_client.auth_headers g)
            (masa_client.live_payload query search_type max_results dst)
       :: more)%list.
Proof.
  unfold masa_client.perform_twitter_live_search.
  unfold bind at 1.
  rewrite masa_client_facts.check_initialization_ok by assumption.
  unfold try_except. unfold bind at 1.
  rewrite masa_client_facts.build_headers_ok by assumption.
  unfold bind at 1.
  match goal with
  | |- context [Http.post ?u ?h ?p w] =>
      pose proof (masa_client_facts.post_trace u h p w) as Hpost;
      destruct (Http.post u h p w) as [[resp|e] w1]
  end; cbn [snd] in Hpost.
  - match goal with
    | |- context [let (_, _) := ?m w1 in _] =>
        assert (Hrest : posting (fun _ => True) m)
    end.
    { apply posting_facts.posting_bind;
        [apply posting_facts.posting_raise_for_status | intros _].
      apply posting_facts.posting_bind;
        [apply posting_facts.posting_lift | intros uuid].
      destruct (negb (Py.truthy uuid)); [apply posting_facts.posting_raise|].
      apply posting_facts.posting_bind;
        [apply posting_facts.posting_poll | intros rc].
      destruct (rc >=? masa_client.max_retries);
        [apply posting_facts.posting_raise|].
      apply posting_facts.posting_bind;
        [apply posting_facts.posting_build_headers | intros hdrs'].
      apply posting_facts.posting_bind;
        [apply posting_facts.posting_get | intros resp'].
      apply posting_facts.posting_bind;
        [apply posting_facts.posting_raise_for_status | intros _].
      apply posting_facts.posting_ret. }
    destruct (Hrest w1) as [evs [Ht _]].
    match goal with
    | |- context [let (_, _) := ?m w1 in _] =>
        destruct (m w1) as [[a|e] w2]
    end; cbn [snd] in Ht.
    + exists evs. cbn [snd]. rewrite Ht, Hpost, <- app_assoc. reflexivity.
    + exists evs. rewrite masa_client_facts.on_error_world.
      rewrite Ht, Hpost, <- app_assoc. reflexivity.
  - exists []. rewrite masa_client_facts.on_error_world. exact Hpost.
Qed.

Lemma snoc_is_truthy l x : Py.truthy (PList (l ++ [x])) = true.
Proof. destruct l; reflexivity. Qed.

(** X16.  A content search for a KOL is scoped to that account.  An indexed
    search keeps the query and appends the keyword "@<username>" to the
    keywords it was given, so its single request always carries keywords.  A
    live search leaves the keywords out and starts by posting the query
    "from:<username> <query>". *)
Theorem search_is_scoped_to_the_kol params n u w :
  Py.dict_has params "query" = true ->
  Py.int (Py.dict_get params "max_results" (default_max_results config))
  = Ok n ->
  Py.dict_get params "kol_username" PNone = PStr u ->
  u <> EmptyString ->
  let query := Py.dict_get params "query" PNone in
  let search_type := Py.dict_get params "search_type" (PStr "indexed") in
  let run := search_kol_content g config params w in
  (Py.is_str search_type "indexed" = true ->
   trace (snd run)
   = (trace w
      ++ [EvPost (masa_client.fmt (masa_client._api_url g)
                  ++ "/v1/search/similarity/twitter")
            (masa_client.auth_headers g)
            (PDict [("query", query);
                    ("max_results", PInt (clamp n));
                    ("keywords",
                     PList (given_keywords params ++ [PStr ("@" ++ u)]));
                    ("keyword_operator",
                     Py.dict_get params "keyword_operator" (PStr "and"))])])%list)
  /\ (Py.is_str search_type "live" = true ->
      exists more,
        trace (snd run)
        = (trace w
           ++ EvPost (masa_client.live_url g) (masa_client.auth_headers g)
                (masa_client.live_payload
                   (PStr ("from:" ++ u ++ " " ++ Py.str query))
                   (PStr "searchbyquery") (PInt (clamp n))
                   (PStr "twitter-scraper"))
           :: more)%list).
Proof.
  intros Hq Hn Hu Hne query search_type run.
  assert (Htruthy : Py.truthy (PStr u) = true).
  { cbn. destruct (String.eqb_spec u ""); [contradiction | reflexivity]. }
  split.
  - intros Hi.
    assert (Hl : Py.is_str search_type "live" = false).
    { destruct search_type; try reflexivity. cbn in *.
      apply String.eqb_eq in Hi. now subst. }
    unfold run, search_kol_content. rewrite Hq. cbn [negb].
    rewrite Hn, kol_actions_facts.bind_lifted.
    fold search_type. rewrite Hu, Htruthy, Hl, Hi. cbn [andb negb].
    rewrite bind_ret_world.
    rewrite transport_facts.indexed_search_trace by assumption.
    do 3 f_equal.
    unfold masa_client.indexed_payload, masa_client.with_keywords, or_none,
      given_keywords.
    destruct (Py.dict_get params "keywords" (PList [])) as [| | | | |l|];
      try reflexivity.
    now rewrite !snoc_is_truthy.
  - intros Hl.
    unfold run, search_kol_content. rewrite Hq. cbn [negb].
    rewrite Hn, kol_actions_facts.bind_lifted.
    fold search_type. rewrite Hu, Htruthy, Hl. cbn [andb negb].
    rewrite bind_ret_world. cbn [Py.str].
    apply live_search_posts_first.
Qed.

End Scoping.

Section SingleText.
Context `{Host}.
Variable g : masa_client.globals.
Variable config : list (string * pyval).

(** X17.  A request that carries a text is analysed on the spot, whether or
    not it also carries a query: the sentiment handler returns the record
    [analyze_sentiment] gives for that text, the topic handler the topics
    [extract_topics] gives for that text and [max_topics], with their
    number, and neither makes a request to the provider.  The topic handler
    returns at most [max_topics] topics when that bound is not negative.  A request with neither text nor query is rejected by the
    sentiment handler, again without a request. *)
Theorem single_text_analysis_stays_local params w :
  let text := Py.dict_get params "text" PNone in
  (Py.dict_has params "text" = true ->
   (exists r,
      nlp_service.analyze_sentiment true text = Ok r
      /\ analyze_kol_sentiment g true config params w
         = (Ok (SingleSentiment text r), w)
      /\ nlp_service.text r = text)
   /\ (forall n,
         Py.int (Py.dict_get params "max_topics" (PInt 5)) = Ok n ->
         exists topics,
           nlp_service.extract_topics true text n = Ok topics
           /\ extract_kol_topics g true config params w
              = (Ok (SingleTopics text topics (Z.of_nat (List.length topics))),
                 w)
           /\ (0 <= n -> Z.of_nat (List.length topics) <= n)))
  /\ (Py.dict_has params "text" = false ->
      Py.dict_has params "query" = false ->
      analyze_kol_sentiment g true config params w
      = (Raise (mk_exc ValueError
                  "Missing required parameter: either 'text' or 'query' must be provided"),
         w)).
Proof.
  intros text. split.
  - intros Ht. split.
    + destruct (nlp_more_facts.analyze_sentiment_keeps_text text) as [r [E Hr]].
      exists r. split; [exact E|]. split; [|exact Hr].
      unfold analyze_kol_sentiment. rewrite Ht. fold text.
      now rewrite E, kol_actions_facts.bind_lifted.
    + intros n Hn.
      destruct (kol_actions_facts.extract_topics_total text n) as [topics E].
      exists topics. split; [exact E|]. split.
      * unfold extract_kol_topics.
        rewrite Hn, kol_actions_facts.bind_lifted, Ht. fold text.
        now rewrite E, kol_actions_facts.bind_lifted.
      * intros Hn0.
        destruct (nlp_more_facts.extract_topics_bounded
                    text n) as [topics' [E' Hb]].
        rewrite E in E'. injection E' as <-. now apply Hb.
  - intros Ht Hq. unfold analyze_kol_sentiment. now rewrite Ht, Hq.
Qed.

End SingleText.
End handler_facts.

(* ================================================================== *)
(** ** The topic tally and its ranking *)
(* ================================================================== *)

Module tally_facts.
Import kol_actions Spec.

Lemma strictly_sorted_NoDup {A} (R : A -> A -> Prop) l :
  (forall a, ~ R a a) -> StronglySorted R l -> NoDup l.
Proof.
  intros Hirr Hs. induction Hs as [|a l Hs IH Hall]; constructor; [|exact IH].
  intros Hin. rewrite Forall_forall in Hall. exact (Hirr a (Hall a Hin)).
Qed.

Lemma count_topics_keys_NoDup all_topics :
  NoDup (map fst (count_topics all_topics)).
Proof.
  destruct (ranking_facts.count_topics_tallied all_topics) as [Hs _].
  apply (strictly_sorted_NoDup (seen_before all_topics)); [|exact Hs].
  unfold seen_before. intros a. lia.
Qed.

Lemma dict_get_of_item (d : list (string * Z)) t c default :
  NoDup (map fst d) -> In (t, c) d -> Dict.get String.eqb d t default = c.
Proof.
  induction d as [|[k v] d IH]; cbn [map fst In Dict.get]; [tauto|].
  intros Hnd [E|Hin].
  - injection E as -> ->. now rewrite String.eqb_refl.
  - inversion Hnd as [|? ? Hk Hnd']; subst.
    destruct (String.eqb_spec k t) as [->|_]; [|now apply IH].
    exfalso. apply Hk. change t with (fst (t, c)). now apply in_map.
Qed.

Lemma total_count_set (d : list (string * Z)) k :
  total_count (Dict.set String.eqb d k (Dict.get String.eqb d k 0 + 1))
  = total_count d + 1.
Proof.
  induction d as [|[k' v'] d IH]; cbn [Dict.set Dict.get total_count fold_right].
  - cbn. lia.
  - destruct (String.eqb_spec k' k) as [->|_];
      cbn [total_count fold_right snd]; fold (total_count d).
    + lia.
    + fold (total_count
              (Dict.set String.eqb d k (Dict.get String.eqb d k 0 + 1))).
      rewrite IH. lia.
Qed.

Lemma total_count_from rest : forall d : list (string * Z),
  total_count
    (fold_left
       (fun topic_counts topic =>
          Dict.set String.eqb topic_counts topic
            (Dict.get String.eqb topic_counts topic 0 + 1))
       rest d)
  = total_count d + Z.of_nat (List.length rest).
Proof.
  induction rest as [|t rest IH]; intros d; cbn [fold_left List.length].
  - lia.
  - rewrite IH, total_count_set. lia.
Qed.

Lemma occurrences_positive t l : In t l -> 0 < occurrences t l.
Proof.
  unfold occurrences. intros Hin.
  apply (count_occ_In string_dec) in Hin. lia.
Qed.

(** X18.  The tally of a topic list names each topic of the list exactly
    once, gives each the number of its occurrences (at least 1), and its
    counts add up to the length of the list: no occurrence is lost or counted
    twice. *)
Theorem count_topics_is_the_tally all_topics :
  let tally := count_topics all_topics in
  NoDup (map fst tally)
  /\ (forall t, In t (map fst tally) <-> In t all_topics)
  /\ (forall t c, In (t, c) tally -> c = occurrences t all_topics /\ 0 < c)
  /\ total_count tally = Z.of_nat (List.length all_topics).
Proof.
  intros tally. pose proof (count_topics_keys_NoDup all_topics) as Hnd.
  destruct (ranking_facts.count_topics_tallied all_topics) as [_ Hkeys].
  split; [exact Hnd|]. split; [exact Hkeys|]. split.
  - intros t c Hin.
    assert (Hc : c = occurrences t all_topics).
    { rewrite <- ranking_facts.count_topics_counts.
      symmetry. now apply dict_get_of_item. }
    split; [exact Hc|]. rewrite Hc. apply occurrences_positive, Hkeys.
    change t with (fst (t, c)). now apply in_map.
  - unfold tally, count_topics. now rewrite total_count_from.
Qed.

Lemma insert_by_count_perm x l : Permutation (insert_by_count x l) (x :: l).
Proof.
  induction l as [|y l IH]; cbn [insert_by_count]; [reflexivity|].
  destruct (snd x <? snd y); [|reflexivity].
  rewrite IH. apply perm_swap.
Qed.

Lemma sorted_by_count_perm l : Permutation (sorted_by_count l) l.
Proof.
  induction l as [|x l IH]; cbn [sorted_by_count fold_right]; [reflexivity|].
  fold (sorted_by_count l). rewrite insert_by_count_perm. now constructor.
Qed.

Lemma NoDup_firstn {A} n : forall l : list A, NoDup l -> NoDup (firstn n l).
Proof.
  induction n as [|n IH]; intros [|a l] Hnd; cbn [firstn]; try constructor.
  - inversion Hnd; subst. intros Hin.
    now apply ranking_facts.firstn_In in Hin.
  - inversion Hnd; subst. now apply IH.
Qed.

Lemma rank_topics_In all_topics n item :
  In item (rank_topics all_topics n) -> In item (count_topics all_topics).
Proof.
  unfold rank_topics, Py.slice_to. intros Hin.
  apply ranking_facts.sorted_by_count_In.
  destruct (0 <=? n); now apply ranking_facts.firstn_In in Hin.
Qed.

(** X19.  Ranking loses and invents nothing: the sorted tally is a
    permutation of the tally, every ranked item is a topic of the list with
    the number of its occurrences, no topic is ranked twice, and for a bound
    that is not negative the ranking has as many items as the bound allows,
    all of them when the bound is at least the number of distinct topics. *)
Theorem ranking_reports_the_tally all_topics n :
  Permutation (sorted_by_count (count_topics all_topics))
    (count_topics all_topics)
  /\ (forall t c, In (t, c) (rank_topics all_topics n) ->
      In t all_topics /\ c = occurrences t all_topics)
  /\ NoDup (map fst (rank_topics all_topics n))
  /\ (0 <= n ->
      List.length (rank_topics all_topics n)
      = Nat.min (Z.to_nat n) (List.length (count_topics all_topics))).
Proof.
  pose proof (sorted_by_count_perm (count_topics all_topics)) as Hperm.
  split; [exact Hperm|]. split; [|split].
  - intros t c Hin. apply rank_topics_In in Hin.
    destruct (ranking_facts.count_topics_tallied all_topics) as [_ Hkeys].
    split.
    + apply Hkeys. change t with (fst (t, c)). now apply in_map.
    + rewrite <- ranking_facts.count_topics_counts. symmetry.
      apply dict_get_of_item; [apply count_topics_keys_NoDup | exact Hin].
  - assert (Hnd : NoDup (map fst (sorted_by_count (count_topics all_topics)))).
    { eapply Permutation_NoDup;
        [apply Permutation_map; symmetry; exact Hperm|].
      apply count_topics_keys_NoDup. }
    unfold rank_topics, Py.slice_to.
    destruct (0 <=? n); rewrite <- firstn_map; now apply NoDup_firstn.
  - intros Hn. unfold rank_topics, Py.slice_to.
    destruct (Z.leb_spec 0 n); [|lia].
    rewrite length_firstn. now rewrite (Permutation_length Hperm).
Qed.

End tally_facts.

(* ================================================================== *)
(** ** Trends, insights and the dispatcher *)
(* ================================================================== *)

Module aggregation_facts.
Import Runtime kol_actions Spec.

Lemma lift_inv {A} (r : result A) w a w' :
  lift r w = (Ok a, w') -> r = Ok a /\ w' = w.
Proof. unfold lift. intros E. injection E as -> ->. now split. Qed.

Lemma setitem_inv d k v d' :
  setitem d k v = Ok d' -> d' = Dict.set key_eqb d k v.
Proof.
  unfold setitem. destruct (hashable k); intros E; [|discriminate E].
  now injection E as <-.
Qed.

Lemma keys_set_cases {K V} (eqb : K -> K -> bool) (d : list (K * V)) k v :
  map fst (Dict.set eqb d k v) = map fst d
  \/ map fst (Dict.set eqb d k v) = (map fst d ++ [k])%list.
Proof.
  induction d as [|[k' v'] d IH]; cbn [Dict.set map fst app]; [now right|].
  destruct (eqb k' k); cbn [map fst]; [now left|].
  destruct IH as [-> | ->]; [now left | now right].
Qed.

Lemma key_eqb_str k u : key_eqb k (PStr u) = true -> k = PStr u.
Proof.
  destruct k as [|b|n|x|s|l|d]; cbn; intros E; try discriminate E.
  apply String.eqb_eq in E. now subst.
Qed.

Lemma get_set_other (d : list (pyval * KolEntry)) u u' v default :
  u' <> u ->
  Dict.get key_eqb (Dict.set key_eqb d (PStr u) v) (PStr u') default
  = Dict.get key_eqb d (PStr u') default.
Proof.
  intros Hu. induction d as [|[k' v'] d IH]; cbn [Dict.set Dict.get].
  - cbn [key_eqb]. destruct (String.eqb_spec u u'); [congruence | reflexivity].
  - destruct (key_eqb k' (PStr u)) eqn:E; cbn [Dict.get].
    + apply key_eqb_str in E. subst k'. cbn [key_eqb].
      destruct (String.eqb_spec u u'); [congruence | reflexivity].
    + now rewrite IH.
Qed.

Lemma get_set_same (d : list (pyval * KolEntry)) k v default :
  key_eqb k k = true ->
  Dict.get key_eqb (Dict.set key_eqb d k v) k default = v.
Proof.
  intros Hk. induction d as [|[k' v'] d IH]; cbn [Dict.set Dict.get].
  - now rewrite Hk.
  - destruct (key_eqb k' k) eqn:E; cbn [Dict.get]; now rewrite E.
Qed.

Section Trends.
Context `{Host}.
Variable g : masa_client.globals.
Variable nlp : bool.
Variable config : list (string * pyval).

(** What one turn of the loop does to the accumulators. *)
Lemma analyze_kol_step query search_type n a u w a' w' :
  analyze_kol g nlp config query search_type n a u w = (Ok a', w') ->
  a' = a
  \/ exists v topics sentiments,
       a' = mk_accum (acc_topics a ++ topics) (acc_sentiments a ++ sentiments)
              (Dict.set key_eqb (acc_results a) u v)
       /\ (no_error v = false -> topics = [] /\ sentiments = []).
Proof.
  unfold analyze_kol, try_except.
  match goal with
  | |- (let (_, _) := ?body w in _) = _ -> _ =>
      destruct (body w) as [[ab|e] wb] eqn:Eb
  end.
  - intros E. injection E as <- <-.
    apply kol_actions_facts.bind_inv in Eb as [sr [w1 [_ Eb]]].
    destruct (sr_results sr) as [| | | | |items|];
      try (injection Eb as <- _; now left).
    apply kol_actions_facts.bind_inv in Eb as [texts [w2 [_ Eb]]].
    destruct texts as [|t texts].
    + apply kol_actions_facts.bind_inv in Eb as [kr [w3 [Ekr Eb]]].
      apply lift_inv in Ekr as [Ekr _]. apply setitem_inv in Ekr. subst kr.
      injection Eb as <- _. right. exists NoContent, [], [].
      now rewrite !app_nil_r.
    + apply kol_actions_facts.bind_inv in Eb as [rs [w3 [_ Eb]]].
      apply kol_actions_facts.bind_inv in Eb as [ts [w4 [_ Eb]]].
      apply kol_actions_facts.bind_inv in Eb as [kr [w5 [Ekr Eb]]].
      apply lift_inv in Ekr as [Ekr _]. apply setitem_inv in Ekr. subst kr.
      injection Eb as <- _. right. eexists (Analysis _ _ _), ts, rs.
      split; [reflexivity | discriminate].
  - intros E.
    apply kol_actions_facts.bind_inv in E as [kr [w3 [Ekr E]]].
    apply lift_inv in Ekr as [Ekr _]. apply setitem_inv in Ekr. subst kr.
    injection E as <- _. right. exists (Failed (exc_str e)), [], [].
    now rewrite !app_nil_r.
Qed.

(** X20.  One turn of the trends loop touches only the entry of its own
    username: the entries stored under other usernames stay as they were,
    the accumulated topics and sentiments only grow, and a username that
    ends with an error entry (no content, or a failure) adds nothing to
    them. *)
Theorem analyze_kol_touches_only_its_own_entry
    query search_type n a u w a' w' :
  analyze_kol g nlp config query search_type n a (PStr u) w = (Ok a', w') ->
  (forall u' default, u' <> u ->
     Dict.get key_eqb (acc_results a') (PStr u') default
     = Dict.get key_eqb (acc_results a) (PStr u') default)
  /\ exists topics sentiments,
       acc_topics a' = (acc_topics a ++ topics)%list
       /\ acc_sentiments a' = (acc_sentiments a ++ sentiments)%list
       /\ ((a' = a /\ topics = [] /\ sentiments = [])
           \/ exists v,
                (forall default,
                   Dict.get key_eqb (acc_results a') (PStr u) default = v)
                /\ (no_error v = false -> topics = [] /\ sentiments = [])).
Proof.
  intros E. apply analyze_kol_step in E as [->|[v [ts [ss [-> Hv]]]]].
  - split; [reflexivity|]. exists [], []. rewrite !app_nil_r.
    do 2 (split; [reflexivity|]). now left.
  - cbn [acc_results acc_topics acc_sentiments]. split.
    + intros u' default Hu. now apply get_set_other.
    + exists ts, ss. do 2 (split; [reflexivity|]). right. exists v.
      split; [|exact Hv]. intros default. apply get_set_same.
      apply String.eqb_refl.
Qed.

Lemma for_usernames_results query search_type n usernames :
  forall a w a' w',
    for_usernames g nlp config query search_type n a usernames w = (Ok a', w') ->
    (forall k, In k (map fst (acc_results a')) ->
       In k (map fst (acc_results a)) \/ In k usernames)
    /\ (List.length (acc_results a')
        <= List.length (acc_results a) + List.length usernames)%nat.
Proof.
  induction usernames as [|u usernames IH]; intros a w a' w';
    cbn [for_usernames].
  - intros E. injection E as <- _. split; [now left | lia].
  - intros E. apply kol_actions_facts.bind_inv in E as [a1 [w1 [E1 E]]].
    apply IH in E as [Hkeys Hlen].
    assert (Hstep :
      (forall k, In k (map fst (acc_results a1)) ->
         In k (map fst (acc_results a)) \/ k = u)
      /\ (List.length (acc_results a1) <= S (List.length (acc_results a)))%nat).
    { apply analyze_kol_step in E1 as [->|[v [ts [ss [-> _]]]]].
      - split; [now left | lia].
      - cbn [acc_results].
        pose proof (keys_set_cases key_eqb (acc_results a) u v) as Hk.
        rewrite <- !(length_map fst).
        destruct Hk as [-> | ->].
        + split; [now left | lia].
        + split.
          * intros k Hin. apply in_app_or in Hin as [Hin|[<-|[]]]; auto.
          * rewrite length_app. cbn [List.length]. lia. }
    destruct Hstep as [Hk1 Hl1]. split.
    + intros k Hin. destruct (Hkeys k Hin) as [Hin1|Hin1].
      * destruct (Hk1 k Hin1) as [Hin2| ->]; [now left | right; now left].
      * right. now right.
    + cbn [List.length]. lia.
Qed.

(** X21.  A trends report is consistent with its inputs: there is at least
    one username, [kol_count] is the number of usernames, every key of
    [kol_results] is one of the usernames, there are at most as many entries
    as usernames, and [analyzed_count] counts the entries without an error,
    so it lies between 0 and the number of entries. *)
Theorem trends_report_is_consistent params w r w' :
  get_kol_trends g nlp config params w = (Ok r, w') ->
  tr_usernames r <> []
  /\ kol_count r = Z.of_nat (List.length (tr_usernames r))
  /\ (forall k, In k (map fst (kol_results r)) -> In k (tr_usernames r))
  /\ Z.of_nat (List.length (kol_results r)) <= kol_count r
  /\ analyzed_count r
     = Z.of_nat (List.length (filter (fun kv => no_error (snd kv))
                                (kol_results r)))
  /\ 0 <= analyzed_count r <= Z.of_nat (List.length (kol_results r))
  /\ tr_success r = true.
Proof.
  unfold get_kol_trends.
  destruct (negb (Py.dict_has params "usernames")); [discriminate|].
  destruct (match Py.dict_get params "usernames" PNone with
            | PList l => l
            | u => [u]
            end) as [|u us] eqn:Eus; [discriminate|].
  intros E.
  apply kol_actions_facts.bind_inv in E as [n [w1 [_ E]]].
  apply kol_actions_facts.bind_inv in E as [max_trends [w2 [_ E]]].
  apply kol_actions_facts.bind_inv in E as [acc [w3 [Eloop E]]].
  injection E as <- _.
  cbn [tr_usernames kol_count kol_results analyzed_count tr_success].
  apply for_usernames_results in Eloop as [Hkeys Hlen].
  cbn [acc_results map List.length] in Hkeys, Hlen.
  rewrite nlp_service_facts.sum_ones.
  pose proof (filter_length_le (fun kv : pyval * KolEntry => no_error (snd kv))
                (acc_results acc)).
  split; [discriminate|]. split; [reflexivity|]. split.
  - intros k Hin. destruct (Hkeys k Hin) as [[]|Hin']. exact Hin'.
  - split; [cbn [List.length] in *; lia|]. split; [reflexivity|].
    split; [lia | reflexivity].
Qed.

(** X22.  The trends handler validates the usernames before any search:
    without the parameter, or with an empty list, it raises and makes no
    request; and a single username given as a bare value is treated exactly
    like the list holding it. *)
Theorem trends_validate_the_usernames params w :
  (Py.dict_has params "usernames" = false ->
   get_kol_trends g nlp config params w
   = (Raise (mk_exc ValueError "Missing required parameter: usernames"), w))
  /\ (Py.lookup params "usernames" = Some (PList []) ->
      get_kol_trends g nlp config params w
      = (Raise (mk_exc ValueError "Empty usernames list"), w))
  /\ (forall u rest,
        (forall l, u <> PList l) ->
        get_kol_trends g nlp config (("usernames", u) :: rest) w
        = get_kol_trends g nlp config (("usernames", PList [u]) :: rest) w).
Proof.
  split; [|split].
  - intros Hno. unfold get_kol_trends. now rewrite Hno.
  - intros Hl. unfold get_kol_trends, Py.dict_has, Py.dict_get.
    now rewrite Hl.
  - intros u rest Hu.
    destruct u as [| | | | |l|]; try reflexivity.
    now contradiction (Hu l).
Qed.

Lemma slice_of_dicts (ds : list (list (string * pyval))) n :
  0 <= n ->
  Py.slice_to (map PDict ds) n = map PDict (firstn (Z.to_nat n) ds).
Proof.
  intros Hn. unfold Py.slice_to. destruct (Z.leb_spec 0 n); [|lia].
  apply firstn_map.
Qed.

End Trends.

Section Insights.
Context `{Host}.
Variable g : masa_client.globals.
Variable config : list (string * pyval).

Lemma recent_content_of_dicts ds :
  exists recent,
    recent_content_of true (map PDict ds) = Ok recent
    /\ map rc_text recent
       = map (fun d => Py.dict_get d "Content" (PStr "")) ds.
Proof.
  induction ds as [|d ds [recent [E Ht]]]; [now exists []|].
  cbn [map recent_content_of Py.get Exn.bind].
  destruct (nlp_more_facts.analyze_sentiment_keeps_text
              (Py.dict_get d "Content" (PStr ""))) as [r [Er _]].
  destruct (kol_actions_facts.extract_topics_total
              (Py.dict_get d "Content" (PStr "")) 3) as [ts Ets].
  rewrite Er, Ets, E. cbn [Exn.bind].
  eexists. split; [reflexivity|]. cbn [map rc_text]. now rewrite Ht.
Qed.

(** X23.  The insights handler reports an account without usable content
    as a result, not as an exception: when no item of the search has a
    Content field it returns the record that says no content was found.
    Otherwise [content_count] is the number of items with a Content field,
    at most 10 topics are ranked, and [recent_content] describes the first
    five items of the raw search result, an item without Content appearing
    there with the empty text. *)
Theorem insights_report_follows_the_search params n ds w sr w' :
  Py.dict_has params "username" = true ->
  Py.int (Py.dict_get params "max_results" (default_insight_results config))
  = Ok n ->
  let username := Py.dict_get params "username" PNone in
  let query := Py.dict_get params "query" (PStr "") in
  let search_type := Py.dict_get params "search_type" (PStr "indexed") in
  search_kol_content g config (kol_search_params query search_type n username) w
  = (Ok sr, w') ->
  sr_results sr = PList (map PDict ds) ->
  (kept_texts ds = [] ->
   analyze_kol_insights g true config params w
   = (Ok (NoInsights username query), w'))
  /\ (kept_texts ds <> [] ->
      exists distribution top_topics recent,
        analyze_kol_insights g true config params w
        = (Ok (KolInsights username query
                 (Z.of_nat (List.length (kept_texts ds)))
                 distribution top_topics recent), w')
        /\ (List.length top_topics <= 10)%nat
        /\ map rc_text recent
           = map (fun d => Py.dict_get d "Content" (PStr "")) (firstn 5 ds)).
Proof.
  intros Hu Hn username query search_type Hs Hres.
  pose proof (kol_actions_facts.content_texts_of_dicts ds) as Htexts.
  split.
  - intros Hnone. unfold analyze_kol_insights. rewrite Hu. cbn [negb].
    fold username query search_type.
    rewrite Hn, kol_actions_facts.bind_lifted.
    rewrite (kol_actions_facts.bind_ok _ _ _ _ _ Hs).
    rewrite Hres, Htexts, kol_actions_facts.bind_lifted, Hnone. reflexivity.
  - intros Hsome.
    destruct (kept_texts ds) as [|t texts] eqn:Ek; [congruence|].
    destruct (kol_actions_facts.batch_analyze_sentiment_total (t :: texts))
      as [rs [Hbatch _]].
    destruct (kol_actions_facts.extend_topics_total (t :: texts) 10 [])
      as [topics Htopics].
    destruct (recent_content_of_dicts (firstn 5 ds)) as [recent [Hrec Htext]].
    exists (nlp_service.classify_sentiment_distribution rs),
      (rank_topics topics 10), recent.
    split; [|split].
    + unfold analyze_kol_insights. rewrite Hu. cbn [negb].
      fold username query search_type.
      rewrite Hn, kol_actions_facts.bind_lifted.
      rewrite (kol_actions_facts.bind_ok _ _ _ _ _ Hs).
      rewrite Hres, Htexts, kol_actions_facts.bind_lifted.
      rewrite Hbatch, kol_actions_facts.bind_lifted.
      rewrite Htopics, kol_actions_facts.bind_lifted.
      rewrite slice_of_dicts by lia.
      change (Z.to_nat 5) with 5%nat.
      rewrite Hrec, kol_actions_facts.bind_lifted. reflexivity.
    + unfold rank_topics, Py.slice_to. cbn [Z.leb Z.compare].
      change (Z.to_nat 10) with 10%nat. apply firstn_le_length.
    + exact Htext.
Qed.

End Insights.

Section Dispatch.
Context `{Host}.
Variable g : masa_client.globals.
Variable nlp : bool.
Variable config : list (string * pyval).


End Dispatch.
End aggregation_facts.

(* ================================================================== *)
(** ** Closed instances of the theorems *)
(* ================================================================== *)

Module Examples.
Import Runtime Spec.
#[local] Existing Instance Demo.host.

Lemma live_search_polls_witness :
  Py.truthy Demo.uuid = true
  /\ (let submit :=
        EvPost (masa_client.live_url Demo.g) (masa_client.auth_headers Demo.g)
          (masa_client.live_payload (PStr "bitcoin") (PStr "searchbyquery")
             (PInt 10) (PStr "twitter-scraper")) in
      let status :=
        EvGet (masa_client.status_url Demo.g Demo.uuid)
          (masa_client.auth_headers Demo.g) in
      let fetch :=
        EvGet (masa_client.results_url Demo.g Demo.uuid)
          (masa_client.auth_headers Demo.g) in
      masa_client.perform_twitter_live_search Demo.g (PStr "bitcoin")
        (PStr "searchbyquery") (PInt 10) (PStr "twitter-scraper")
        (mk_world [submitted Demo.uuid; status_is "pending";
                   status_is "pending"; status_is "done";
                   ok_reply Demo.tweets] [])
      = (Ok Demo.tweets,
         mk_world []
           [submit; status; EvSleep 2; status; EvSleep 2; status; fetch])
      /\ fst (masa_client.perform_twitter_live_search Demo.g (PStr "bitcoin")
                (PStr "searchbyquery") (PInt 10) (PStr "twitter-scraper")
                (mk_world (submitted Demo.uuid
                           :: repeat (status_is "pending") 30) []))
         = Raise (mk_exc RuntimeError
                    "Search job timed out after maximum retries")).
Proof.
  split; [reflexivity|].
  destruct (masa_client_facts.live_search_polls_until_done_or_budget_spent
              Demo.g eq_refl (PStr "bitcoin") (PStr "searchbyquery") (PInt 10)
              (PStr "twitter-scraper") Demo.uuid Demo.tweets [] [] eq_refl)
    as [Hdone [Htimeout _]].
  split; [exact Hdone | exact Htimeout].
Defined.

Lemma live_search_rate_limited_witness :
  Py.truthy Demo.uuid = true
  /\ forallb keeps_polling [status_is "processing"] = true
  /\ (let failed :=
        masa_client.perform_twitter_live_search Demo.g (PStr "bitcoin")
          (PStr "searchbyquery") (PInt 10) (PStr "twitter-scraper")
          (mk_world [submitted Demo.uuid; status_is "processing";
                     ok_reply (PDict [("status", PStr "failed");
                                      ("error", PStr "rate limited")]);
                     status_is "done"; ok_reply Demo.tweets] []) in
      fst failed
      = Raise (mk_exc RuntimeError "Search job failed: rate limited")
      /\ replies (snd failed) = [status_is "done"; ok_reply Demo.tweets]).
Proof.
  split; [reflexivity|]. split; [reflexivity|].
  destruct (masa_client_facts.live_search_fails_at_once_on_reported_failure
              Demo.g eq_refl (PStr "bitcoin") (PStr "searchbyquery") (PInt 10)
              (PStr "twitter-scraper") Demo.uuid [status_is "processing"]
              "failed"
              [("status", PStr "failed"); ("error", PStr "rate limited")]
              [status_is "done"; ok_reply Demo.tweets] []
              eq_refl eq_refl ltac:(cbn; lia) (or_intror eq_refl) eq_refl)
    as [Hraise [Hrest _]].
  split; [exact Hraise | exact Hrest].
Defined.

Lemma hybrid_search_payload_witness :
  masa_client._initialized Demo.g = true
  /\ trace (snd (masa_client.perform_twitter_hybrid_search Demo.g (PStr "ai")
                   (PStr "ai agents") (7 # 10) (3 # 10)
                   (optional_list (Some [PStr "agents"])) (PStr "and")
                   (PInt 10) (mk_world [ok_reply Demo.tweets] [])))
     = [EvPost (masa_client.hybrid_url Demo.g) (masa_client.auth_headers Demo.g)
          (PDict [("similarity_query",
                   PDict [("query", PStr "ai"); ("weight", PFloat (7 # 10))]);
                  ("text_query",
                   PDict [("query", PStr "ai agents");
                          ("weight", PFloat (3 # 10))]);
                  ("max_results", PInt 10);
                  ("keywords", PList [PStr "agents"]);
                  ("keyword_operator", PStr "and")])].
Proof.
  split; [reflexivity|].
  exact (masa_client_facts.hybrid_search_payload_shape Demo.g eq_refl
           (Some [PStr "agents"]) (PStr "and") (PInt 10)
           (mk_world [ok_reply Demo.tweets] [])).
Defined.

Lemma percentages_total_100_witness :
  Demo.batch <> []
  /\ forallb labelled Demo.batch = true
  /\ (percentages_total (nlp_service.classify_sentiment_distribution Demo.batch)
      == 100)%Q.
Proof.
  split; [discriminate|]. split; [reflexivity|].
  apply (proj2 (nlp_service_facts.percentages_total_100_when_all_labelled
                  Demo.batch)); [discriminate | reflexivity].
Defined.

Lemma search_max_results_clamped_witness :
  Py.dict_get Demo.search_params "max_results"
    (kol_actions.default_max_results []) = PInt 500
  /\ kol_actions.clamp 500 = 100
  /\ (exists evs,
        trace (snd (kol_actions.search_kol_content Demo.g [] Demo.search_params
                      (mk_world [submitted Demo.uuid; status_is "done";
                                 ok_reply Demo.tweets] [])))
        = evs
        /\ posts_satisfy
             (fun payload => payload_max_results payload = Some (PInt 100))
             evs).
Proof.
  split; [reflexivity|].
  destruct (posting_facts.search_max_results_clamped Demo.g []
              Demo.search_params 500
              (mk_world [submitted Demo.uuid; status_is "done";
                         ok_reply Demo.tweets] [])
              eq_refl)
    as [_ [_ [Hhigh [_ [[evs [Htrace Hposts]] _]]]]].
  split; [apply Hhigh; lia|].
  exists evs. split; [exact Htrace | exact Hposts].
Defined.

Lemma items_without_content_witness :
  kol_actions.content_texts (map PDict Demo.tweet_items)
  = Ok [Demo.praise; Demo.complaint]
  /\ (exists sentiment_results,
        kol_actions.analyze_kol_sentiment Demo.g true [] Demo.sentiment_params
          (mk_world [ok_reply Demo.tweets] [])
        = (Ok (kol_actions.BatchSentiment (PStr "bitcoin") PNone
                 sentiment_results
                 (nlp_service.classify_sentiment_distribution sentiment_results)
                 2),
           mk_world []
             [EvPost Demo.similarity_url (masa_client.auth_headers Demo.g)
                (PDict [("query", PStr "bitcoin"); ("max_results", PInt 10)])])
        /\ List.length sentiment_results = 2%nat).
Proof.
  destruct (kol_actions_facts.items_without_content_are_dropped Demo.g []
              Demo.tweet_items) as [Htexts [Hsentiment _]].
  split; [exact Htexts|].
  exact (Hsentiment Demo.sentiment_params
           (mk_world [ok_reply Demo.tweets] [])
           (kol_actions.mk_search_results (PStr "bitcoin") (PStr "indexed") 10
              PNone Demo.tweets (PInt 3))
           (mk_world []
              [EvPost Demo.similarity_url (masa_client.auth_headers Demo.g)
                 (PDict [("query", PStr "bitcoin");
                         ("max_results", PInt 10)])])
           eq_refl eq_refl eq_refl eq_refl).
Defined.

Lemma kol_failure_witness :
  Py.lookup Demo.trend_params "usernames" = Some (PList [PStr "a"; PStr "b"])
  /\ kol_actions.search_kol_content Demo.g []
       (kol_actions.kol_search_params (PStr "bitcoin") (PStr "indexed") 10
          (PStr "b")) Demo.then_drops
     = (Raise Demo.dropped, Demo.finally)
  /\ (exists sentiments topics,
        nlp_service.batch_analyze_sentiment true [Demo.praise; Demo.complaint]
        = Ok sentiments
        /\ kol_actions.extend_topics true [] [Demo.praise; Demo.complaint] 5
           = Ok topics
        /\ kol_actions.get_kol_trends Demo.g true [] Demo.trend_params
             Demo.first_answers
           = (Ok (kol_actions.mk_trends [PStr "a"; PStr "b"] (PStr "bitcoin")
                    (kol_actions.rank_topics topics 10) 2 1
                    (nlp_service.classify_sentiment_distribution sentiments)
                    [(PStr "a",
                      kol_actions.Analysis 2 topics
                        (nlp_service.classify_sentiment_distribution
                           sentiments));
                     (PStr "b", kol_actions.Failed (exc_str Demo.dropped))]
                    true),
              Demo.finally))
  /\ kol_actions.search_kol_content Demo.g []
       (kol_actions.kol_search_params (PStr "bitcoin") (PStr "indexed") 10
          (PStr "a")) Demo.drops_first
     = (Raise Demo.dropped, Demo.then_answers)
  /\ (exists sentiments topics,
        nlp_service.batch_analyze_sentiment true [Demo.praise; Demo.complaint]
        = Ok sentiments
        /\ kol_actions.extend_topics true [] [Demo.praise; Demo.complaint] 5
           = Ok topics
        /\ kol_actions.get_kol_trends Demo.g true [] Demo.trend_params
             Demo.drops_first
           = (Ok (kol_actions.mk_trends [PStr "a"; PStr "b"] (PStr "bitcoin")
                    (kol_actions.rank_topics topics 10) 2 1
                    (nlp_service.classify_sentiment_distribution sentiments)
                    [(PStr "a", kol_actions.Failed (exc_str Demo.dropped));
                     (PStr "b",
                      kol_actions.Analysis 2 topics
                        (nlp_service.classify_sentiment_distribution
                           sentiments))]
                    true),
              Demo.finally))
  /\ nlp_service.batch_analyze_sentiment false [Demo.praise; Demo.complaint]
     = Raise Demo.nlp_not_initialized
  /\ kol_actions.for_usernames Demo.g false [] (PStr "bitcoin")
       (PStr "indexed") 10 (kol_actions.mk_accum [] [] [])
       [PStr "a"; PStr "b"] Demo.first_answers
     = kol_actions.for_usernames Demo.g false [] (PStr "bitcoin")
         (PStr "indexed") 10
         (kol_actions.mk_accum [] []
            [(PStr "a",
              kol_actions.Failed (exc_str Demo.nlp_not_initialized))])
         [PStr "b"] Demo.then_drops.
Proof.
  pose proof (kol_actions_facts.kol_failure_does_not_abort_the_others
                Demo.g [] Demo.trend_params 10 10 eq_refl eq_refl)
    as [Hlast [Hfirst [Hany _]]].
  split; [reflexivity|]. split; [reflexivity|].
  split; [|split; [|split; [|split]]].
  - exact (Hlast "a" "b" Demo.first_answers
             Demo.found_for_a (map PDict Demo.tweet_items)
             Demo.praise [Demo.complaint]
             Demo.then_drops Demo.dropped Demo.finally
             eq_refl ltac:(discriminate) eq_refl eq_refl eq_refl eq_refl).
  - reflexivity.
  - exact (Hfirst "a" "b" Demo.drops_first Demo.dropped Demo.then_answers
             Demo.found_for_b (map PDict Demo.tweet_items)
             Demo.praise [Demo.complaint] Demo.finally
             eq_refl ltac:(discriminate) eq_refl eq_refl eq_refl eq_refl).
  - reflexivity.
  - apply (Hany false [] (PStr "a") [PStr "b"] (kol_actions.mk_accum [] [] [])
             Demo.first_answers (kol_actions.mk_accum [] [] [])
             Demo.first_answers Demo.nlp_not_initialized Demo.then_drops
           eq_refl eq_refl).
    right. exists Demo.found_for_a, (map PDict Demo.tweet_items).
    split; [reflexivity|]. split; [reflexivity|].
    right. exists Demo.praise, [Demo.complaint]. split; reflexivity.
Defined.

(** The model run on further inputs. *)

Example failure_without_message_says_unknown_error :
  fst (masa_client.perform_twitter_live_search Demo.g (PStr "bitcoin")
         (PStr "searchbyquery") (PInt 10) (PStr "twitter-scraper")
         (mk_world [submitted Demo.uuid; status_is "error"] []))
  = Raise (mk_exc RuntimeError "Search job failed: Unknown error").
Proof. reflexivity. Qed.

Example rejected_submission_is_a_communication_error :
  masa_client.perform_twitter_live_search Demo.g (PStr "bitcoin")
    (PStr "searchbyquery") (PInt 10) (PStr "twitter-scraper")
    (mk_world [Reply 503 "Service Unavailable" PNone; status_is "done"] [])
  = (Raise (mk_exc RuntimeError
              "Error communicating with Masa API: 503 Server Error: Service Unavailable for url: https://masa.example/api/v1/search/live/twitter"),
     mk_world [status_is "done"]
       [EvPost "https://masa.example/api/v1/search/live/twitter"
          (masa_client.auth_headers Demo.g)
          (masa_client.live_payload (PStr "bitcoin") (PStr "searchbyquery")
             (PInt 10) (PStr "twitter-scraper"))]).
Proof. reflexivity. Qed.

Example submission_without_uuid_is_rejected :
  fst (masa_client.perform_twitter_live_search Demo.g (PStr "bitcoin")
         (PStr "searchbyquery") (PInt 10) (PStr "twitter-scraper")
         (mk_world [ok_reply (PDict [("uuid", PStr "")])] []))
  = Raise (mk_exc ValueError "Invalid response from Masa API: No UUID returned").
Proof. reflexivity. Qed.

Example uninitialized_client_makes_no_request :
  masa_client.perform_twitter_live_search
    (masa_client.mk_globals None None false) (PStr "bitcoin")
    (PStr "searchbyquery") (PInt 10) (PStr "twitter-scraper")
    (mk_world [submitted Demo.uuid] [])
  = (Raise (mk_exc RuntimeError
              "Masa API client not initialized. Call initialize_masa_client() first."),
     mk_world [submitted Demo.uuid] []).
Proof. reflexivity. Qed.

Example search_sends_100_for_500 :
  trace (snd (kol_actions.search_kol_content Demo.g [] Demo.search_params
                (mk_world [submitted Demo.uuid; status_is "done";
                           ok_reply Demo.tweets] [])))
  = [EvPost (masa_client.live_url Demo.g) (masa_client.auth_headers Demo.g)
       (masa_client.live_payload (PStr "bitcoin") (PStr "searchbyquery")
          (PInt 100) (PStr "twitter-scraper"));
     EvGet (masa_client.status_url Demo.g Demo.uuid)
       (masa_client.auth_headers Demo.g);
     EvGet (masa_client.results_url Demo.g Demo.uuid)
       (masa_client.auth_headers Demo.g)].
Proof. reflexivity. Qed.

Example search_sends_1_for_minus_3 :
  trace (snd (kol_actions.search_kol_content Demo.g []
                [("query", PStr "bitcoin"); ("max_results", PInt (-3))]
                (mk_world [ok_reply Demo.tweets] [])))
  = [EvPost Demo.similarity_url (masa_client.auth_headers Demo.g)
       (PDict [("query", PStr "bitcoin"); ("max_results", PInt 1)])].
Proof. reflexivity. Qed.

Example failed_analysis_keeps_the_text :
  nlp_service.analyze_sentiment true (PStr "")
  = Ok (nlp_service.mk_sentiment "unknown" 0 0 (PStr "") (Some "empty text")).
Proof. reflexivity. Qed.

Example analysis_labels_by_polarity :
  Exn.bind (nlp_service.batch_analyze_sentiment true
              [PStr "great"; PStr "awful"; PStr "fine"])
    (fun rs => Ok (map nlp_service.sentiment rs))
  = Ok ["positive"; "negative"; "neutral"].
Proof. reflexivity. Qed.

Example trends_of_a_despite_b :
  fst (kol_actions.get_kol_trends Demo.g true [] Demo.trend_params
         Demo.first_answers)
  = Ok (kol_actions.mk_trends [PStr "a"; PStr "b"] (PStr "bitcoin")
          [("bitcoin", 2); ("btc", 1); ("rally", 1)] 2 1
          (nlp_service.mk_distribution 1 0 1 (100 # 2) (0 # 2) (100 # 2)
             (- (10) # 200) (7 # 8))
          [(PStr "a",
            kol_actions.Analysis 2 ["btc"; "bitcoin"; "rally"; "bitcoin"]
              (nlp_service.mk_distribution 1 0 1 (100 # 2) (0 # 2) (100 # 2)
                 (- (10) # 200) (7 # 8)));
           (PStr "b",
            kol_actions.Failed
              "Error communicating with Masa API: connection reset")]
          true).
Proof. reflexivity. Qed.

Example analysis_failure_is_recorded_per_username :
  fst (kol_actions.get_kol_trends Demo.g false [] Demo.trend_params
         (mk_world [ok_reply Demo.tweets; ok_reply (PList [])] []))
  = Ok (kol_actions.mk_trends [PStr "a"; PStr "b"] (PStr "bitcoin") [] 2 0
          (nlp_service.mk_distribution 0 0 0 0 0 0 0 0)
          [(PStr "a",
            kol_actions.Failed
              "NLP service not initialized. Call initialize_nlp() first.");
           (PStr "b", kol_actions.NoContent)]
          true).
Proof. reflexivity. Qed.

Example unhashable_username_aborts :
  fst (kol_actions.get_kol_trends Demo.g true []
         [("usernames", PList [PList [PStr "a"]; PStr "b"])]
         Demo.first_answers)
  = Raise (mk_exc TypeError "unhashable type: 'list'").
Proof. reflexivity. Qed.

Example cleaned_text_is_not_returned :
  nlp_service.analyze_sentiment true (PStr "http://great.example")
  = Ok (nlp_service.mk_sentiment "unknown" 0 0 (PStr "http://great.example")
          (Some "empty text"))
  /\ cleaned "great news @bob #btc https://t.co/1" = "great news   ".
Proof. split; reflexivity. Qed.

Example topics_put_hashtags_first :
  nlp_service.extract_topics true
    (PStr "bitcoin rally #btc #bitcoin https://t.co/rally") 5
  = Ok ["btc"; "bitcoin"; "rally"].
Proof. reflexivity. Qed.

Example item_that_is_a_number_raises :
  kol_actions.content_texts [PDict [("Content", PStr "x")]; PInt 7]
  = Raise (mk_exc TypeError "argument of type 'int' is not iterable").
Proof. reflexivity. Qed.

End Examples.

(* ================================================================== *)
(** ** Closed instances of the further theorems *)
(* ================================================================== *)

Module More_examples.
Import Runtime Spec.
#[local] Existing Instance Demo.host.

Lemma done_on_the_last_poll_witness :
  Py.truthy Demo.uuid = true
  /\ forallb keeps_polling (repeat (status_is "pending") 29) = true
  /\ Demo.live (mk_world (submitted Demo.uuid
                     :: repeat (status_is "pending") 29
                     ++ [status_is "done"; ok_reply Demo.tweets]) [])
     = (Ok Demo.tweets,
        mk_world [] (Demo.submit :: poll_cycles Demo.g Demo.uuid 29
                            ++ [Demo.status; Demo.fetch])).
Proof.
  split; [reflexivity|]. split; [reflexivity|].
  exact (masa_client_facts.live_search_returns_after_polls Demo.g eq_refl
           (PStr "bitcoin") (PStr "searchbyquery") (PInt 10)
           (PStr "twitter-scraper") Demo.uuid
           (repeat (status_is "pending") 29) Demo.tweets [] []
           eq_refl eq_refl ltac:(cbn; lia)).
Defined.


Lemma failed_poll_stops_the_search_witness :
  transport_failure (masa_client.status_url Demo.g Demo.uuid) Demo.bad_gateway
  = Some (Demo.gateway_error (masa_client.status_url Demo.g Demo.uuid))
  /\ Demo.live (mk_world [submitted Demo.uuid; status_is "processing";
                     Demo.bad_gateway; status_is "done"; ok_reply Demo.tweets]
             [])
     = (Raise (masa_client.communication_error
                 (Demo.gateway_error
                    (masa_client.status_url Demo.g Demo.uuid))),
        mk_world [status_is "done"; ok_reply Demo.tweets]
          (Demo.submit :: poll_cycles Demo.g Demo.uuid 1 ++ [Demo.status])).
Proof.
  split; [reflexivity|].
  exact (proj1 (proj2
           (transport_facts.live_search_stops_on_transport_failure Demo.g
              eq_refl (PStr "bitcoin") (PStr "searchbyquery") (PInt 10)
              (PStr "twitter-scraper") Demo.uuid [status_is "processing"]
              Demo.bad_gateway
              (Demo.gateway_error (masa_client.status_url Demo.g Demo.uuid))
              [status_is "done"; ok_reply Demo.tweets] []
              eq_refl eq_refl ltac:(cbn; lia)))
           eq_refl).
Defined.

Lemma submission_without_job_id_witness :
  error_code 202 = false
  /\ Py.truthy (Py.dict_get [("state", PStr "accepted")] "uuid" PNone) = false
  /\ Demo.live (mk_world [Reply 202 "Accepted" (PDict [("state", PStr "accepted")]);
                     status_is "done"] [])
     = (Raise (mk_exc ValueError
                 "Invalid response from Masa API: No UUID returned"),
        mk_world [status_is "done"] [Demo.submit]).
Proof.
  split; [reflexivity|]. split; [reflexivity|].
  exact (transport_facts.live_search_without_job_id_never_polls Demo.g eq_refl
           (PStr "bitcoin") (PStr "searchbyquery") (PInt 10)
           (PStr "twitter-scraper") 202 "Accepted"
           [("state", PStr "accepted")] [status_is "done"] []
           eq_refl eq_refl).
Defined.

Lemma indexed_search_witness :
  masa_client._initialized Demo.g = true
  /\ fst (masa_client.perform_twitter_indexed_search Demo.g (PStr "bitcoin")
            (PStr "similarity") (optional_list (Some [PStr "@a"])) (PStr "and")
            (PInt 10) (mk_world [ok_reply Demo.tweets] []))
     = Ok Demo.tweets.
Proof.
  split; [reflexivity|].
  exact (proj1 (proj2 (transport_facts.indexed_search_posts_once Demo.g eq_refl
                         (PStr "bitcoin") (PStr "similarity")
                         (Some [PStr "@a"]) (PStr "and") (PInt 10))
                  200 "OK" Demo.tweets [] [] eq_refl)).
Defined.

Lemma extract_topics_witness :
  0 <= 2
  /\ exists topics,
       nlp_service.extract_topics true
         (PStr "bitcoin rally #btc #eth https://t.co/1") 2 = Ok topics
       /\ Z.of_nat (List.length topics) <= 2.
Proof.
  split; [lia|].
  destruct (nlp_more_facts.extract_topics_is_bounded_and_never_raises
              (PStr "bitcoin rally #btc #eth https://t.co/1") 2)
    as [topics [E [Hbound _]]].
  exists topics. split; [exact E | apply Hbound; lia].
Defined.

Lemma sentiment_label_witness :
  textblob_sentiment (cleaned "great news") = Ok ((8 # 10)%Q, (3 # 4)%Q)
  /\ exists r,
       nlp_service.analyze_sentiment true (PStr "great news") = Ok r
       /\ nlp_service.sentiment r = "positive".
Proof.
  split; [reflexivity|].
  assert (E0 : textblob_sentiment (cleaned "great news")
               = Ok ((8 # 10)%Q, (3 # 4)%Q)) by reflexivity.
  destruct (nlp_more_facts.sentiment_label_follows_polarity "great news"
              (8 # 10)%Q (3 # 4)%Q E0)
    as [r [E [_ [_ [_ [Hpositive _]]]]]].
  exists r. split; [exact E | apply Hpositive; reflexivity].
Defined.

Lemma batch_witness :
  [Demo.praise; Demo.complaint] <> []
  /\ nlp_service.batch_analyze_sentiment false [Demo.praise; Demo.complaint]
     = Raise (mk_exc RuntimeError
                "NLP service not initialized. Call initialize_nlp() first.").
Proof.
  split; [discriminate|].
  apply (proj2 (proj2 (nlp_more_facts.batch_keeps_the_texts_in_order
                         [Demo.praise; Demo.complaint]))).
  discriminate.
Defined.

Lemma analysed_batch_witness :
  all_analysed [Demo.praise; Demo.complaint]
  /\ exists results,
       nlp_service.batch_analyze_sentiment true [Demo.praise; Demo.complaint]
       = Ok results
       /\ (let d := nlp_service.classify_sentiment_distribution results in
           nlp_service.positive d + nlp_service.neutral d
           + nlp_service.negative d = 2).
Proof.
  assert (Hall : all_analysed [Demo.praise; Demo.complaint]).
  { repeat constructor; eexists _, _; split; reflexivity. }
  split; [exact Hall|].
  destruct (nlp_more_facts.analysed_batch_distribution_is_complete
              [Demo.praise; Demo.complaint] Hall)
    as [results [E [_ [_ [_ Htotal]]]]].
  exists results. split; [exact E | exact Htotal].
Defined.

Lemma search_validation_witness :
  Py.dict_has [("search_type", PStr "live")] "query" = false
  /\ kol_actions.search_kol_content Demo.g [] [("search_type", PStr "live")]
       Demo.first_answers
     = (Raise (mk_exc ValueError "Missing required parameter: query"),
        Demo.first_answers).
Proof.
  split; [reflexivity|].
  apply (proj1 (handler_facts.search_rejects_bad_parameters_without_request
                  Demo.g [] [("search_type", PStr "live")] Demo.first_answers)).
  reflexivity.
Defined.

Lemma search_without_client_witness :
  masa_client._initialized Demo.offline = false
  /\ exists e,
       kol_actions.search_kol_content Demo.offline [] Demo.search_params
         Demo.first_answers
       = (Raise e, Demo.first_answers).
Proof.
  split; [reflexivity|].
  exact (handler_facts.search_without_client_makes_no_request Demo.offline []
           Demo.search_params Demo.first_answers eq_refl).
Defined.

Lemma search_scoping_witness :
  Py.dict_get [("query", PStr "bitcoin"); ("kol_username", PStr "a")]
    "kol_username" PNone = PStr "a"
  /\ trace (snd (kol_actions.search_kol_content Demo.g []
                   [("query", PStr "bitcoin"); ("kol_username", PStr "a")]
                   Demo.first_answers))
     = [Demo.indexed_post "a"].
Proof.
  split; [reflexivity|].
  apply (proj1 (handler_facts.search_is_scoped_to_the_kol Demo.g [] eq_refl
                  [("query", PStr "bitcoin"); ("kol_username", PStr "a")]
                  10 "a" Demo.first_answers
                  eq_refl eq_refl eq_refl ltac:(discriminate))).
  reflexivity.
Defined.

Lemma single_text_witness :
  Py.dict_has [("text", Demo.praise); ("query", PStr "bitcoin")] "text" = true
  /\ exists r,
       nlp_service.analyze_sentiment true Demo.praise = Ok r
       /\ kol_actions.analyze_kol_sentiment Demo.g true []
            [("text", Demo.praise); ("query", PStr "bitcoin")]
            Demo.first_answers
          = (Ok (kol_actions.SingleSentiment Demo.praise r), Demo.first_answers)
       /\ nlp_service.text r = Demo.praise.
Proof.
  split; [reflexivity|].
  apply (proj1 (handler_facts.single_text_analysis_stays_local Demo.g []
                  [("text", Demo.praise); ("query", PStr "bitcoin")]
                  Demo.first_answers)).
  reflexivity.
Defined.

Lemma own_entry_witness :
  let before :=
    kol_actions.mk_accum [] [] [(PStr "a", kol_actions.NoContent)] in
  let after :=
    kol_actions.mk_accum [] []
      [(PStr "a", kol_actions.NoContent);
       (PStr "b", kol_actions.Failed (exc_str Demo.dropped))] in
  kol_actions.analyze_kol Demo.g true [] (PStr "bitcoin") (PStr "indexed") 10
    before (PStr "b") Demo.then_drops
  = (Ok after, Demo.finally)
  /\ Dict.get kol_actions.key_eqb (kol_actions.acc_results after) (PStr "a")
       (kol_actions.Failed "")
     = Dict.get kol_actions.key_eqb (kol_actions.acc_results before) (PStr "a")
         (kol_actions.Failed "").
Proof.
  cbv zeta. split; [reflexivity|].
  apply (proj1 (aggregation_facts.analyze_kol_touches_only_its_own_entry
                  Demo.g true [] (PStr "bitcoin") (PStr "indexed") 10
                  (kol_actions.mk_accum [] []
                     [(PStr "a", kol_actions.NoContent)])
                  "b" Demo.then_drops _ Demo.finally eq_refl)).
  discriminate.
Defined.

Lemma trends_report_witness :
  kol_actions.get_kol_trends Demo.g true [] Demo.trend_params
    Demo.first_answers
  = (Ok Demo.report, Demo.finally)
  /\ kol_actions.kol_count Demo.report = 2
  /\ 0 <= kol_actions.analyzed_count Demo.report <= 2.
Proof.
  assert (E : kol_actions.get_kol_trends Demo.g true [] Demo.trend_params
                Demo.first_answers = (Ok Demo.report, Demo.finally))
    by reflexivity.
  split; [exact E|].
  destruct (aggregation_facts.trends_report_is_consistent Demo.g true []
              Demo.trend_params Demo.first_answers Demo.report Demo.finally
              E)
    as [_ [Hcount [_ [_ [_ [Hanalyzed _]]]]]].
  split; [exact Hcount | exact Hanalyzed].
Defined.

Lemma trends_validation_witness :
  Py.dict_has [("query", PStr "bitcoin")] "usernames" = false
  /\ kol_actions.get_kol_trends Demo.g true [] [("query", PStr "bitcoin")]
       Demo.first_answers
     = (Raise (mk_exc ValueError "Missing required parameter: usernames"),
        Demo.first_answers).
Proof.
  split; [reflexivity|].
  apply (proj1 (aggregation_facts.trends_validate_the_usernames Demo.g true []
                  [("query", PStr "bitcoin")] Demo.first_answers)).
  reflexivity.
Defined.

Lemma insights_witness :
  kol_actions.search_kol_content Demo.g []
    (kol_actions.kol_search_params (PStr "") (PStr "indexed") 20 (PStr "a"))
    (mk_world [ok_reply Demo.tweets] [])
  = (Ok Demo.insight_search, Demo.after_insight_search)
  /\ kept_texts Demo.tweet_items <> []
  /\ exists distribution top_topics recent,
       kol_actions.analyze_kol_insights Demo.g true [] Demo.insight_params
         (mk_world [ok_reply Demo.tweets] [])
       = (Ok (kol_actions.KolInsights (PStr "a") (PStr "") 2 distribution
                top_topics recent), Demo.after_insight_search)
       /\ (List.length top_topics <= 10)%nat
       /\ map kol_actions.rc_text recent
          = [Demo.praise; PStr ""; Demo.complaint].
Proof.
  split; [reflexivity|]. split; [discriminate|].
  apply (proj2 (aggregation_facts.insights_report_follows_the_search Demo.g []
                  Demo.insight_params 20 Demo.tweet_items
                  (mk_world [ok_reply Demo.tweets] []) Demo.insight_search
                  Demo.after_insight_search eq_refl eq_refl eq_refl eq_refl)).
  discriminate.
Defined.


End More_examples.
